(** * document-api: request authentication, connector lookup and the STS
      credential cache

    A shallow embedding of the authentication backends
    ([app/middlewares/jwt_authorization_middleware.py],
    [app/middlewares/token_authorization_middleware.py],
    [app/middlewares/auth/user.py]), of the exception taxonomy
    ([app/exceptions/*.py]), of the response envelope
    ([app/commons/j_response.py]), of the connector dependency
    ([app/connectors/connector_factory.py]) and of the STS connector
    ([app/connectors/aws/sts_connector.py], [app/connectors/aws/__init__.py]).

    Python exceptions are modelled by a result type with [Return] and
    [Raise]; [try ... except] by an ordered list of handlers.  What comes
    from outside the program (the clock, the JWT library, the identity RPC,
    the AWS endpoints, pydantic validation) is an explicit argument. *)

From Stdlib Require Import ZArith QArith String Ascii List Bool Lia.
From stdpp Require Import base option gmap strings list pretty.

Set Warnings "-register-all".
Open Scope string_scope.
Open Scope Z_scope.

(** ** Python values and control flow *)

Module Py.

(** The values an [error_code] attribute holds: the root class stores a
    formatted [str], the bridge classes store the [int] they were given. *)
Inductive PyVal :=
| VInt (z : Z)
| VStr (s : string).

(** [str(v)], as an f-string field renders it. *)
Definition str_of_val (v : PyVal) : string :=
  match v with
  | VInt z => pretty z
  | VStr s => s
  end.

(** JSON values, as [jwt.decode] and the identity RPC deliver them. *)
Inductive Json :=
| JNull
| JBool (b : bool)
| JInt (z : Z)
| JFloat (q : Q)
| JStr (s : string)
| JArr (items : list Json)
| JObj (fields : list (string * Json)).

Definition Dict := list (string * Json).

(** Truth value of a [str]: only the empty string is falsy. *)
Definition str_truthy (s : string) : bool :=
  match s with
  | EmptyString => false
  | String _ _ => true
  end.

(** Truth value of an [Optional[str]]: [None] and the empty string are
    falsy. *)
Definition opt_str_truthy (o : option string) : bool :=
  match o with
  | None => false
  | Some s => str_truthy s
  end.

(** Python truth value of a JSON value. *)
Definition json_truthy (v : Json) : bool :=
  match v with
  | JNull => false
  | JBool b => b
  | JInt z => negb (z =? 0)
  | JFloat q => negb (Qeq_bool q 0)
  | JStr s => str_truthy s
  | JArr items => match items with [] => false | _ :: _ => true end
  | JObj fields => match fields with [] => false | _ :: _ => true end
  end.

(** [d.get(key)]: [None] when the key is absent. *)
Fixpoint dict_get (d : Dict) (key : string) : option Json :=
  match d with
  | [] => None
  | (k, v) :: rest => if String.eqb k key then Some v else dict_get rest key
  end.

(** [key in d]. *)
Definition dict_has (d : Dict) (key : string) : bool :=
  match dict_get d key with
  | Some _ => true
  | None => false
  end.

(** [not d.get(key)]: true for an absent key and for a falsy value. *)
Definition opt_json_truthy (o : option Json) : bool :=
  match o with
  | None => false
  | Some v => json_truthy v
  end.

(** *** [int(s)] on a header value

    Header values are Latin-1 decoded, one character per byte, so the
    bytes of a Rocq [string] are the code points [int] sees.  [int]
    strips white space on both sides (tab to carriage return and the
    space; of the code points from 128 on, the next-line and the no-break
    space, which are turned into a space first), takes one optional sign,
    then decimal digits in which single underscores may separate digits.
    More digits than the interpreter's limit for conversions from text
    (4300 by default) are refused.  Integers are unbounded. *)

Definition is_space (a : ascii) : bool :=
  let n := N_of_ascii a in
  (((9 <=? n) && (n <=? 13)) || (n =? 32) || (n =? 133) || (n =? 160))%N.

(** [sys.get_int_max_str_digits()], at its default. *)
Definition max_str_digits : nat := 4300.

(** What [int] does with a text: a value, or one of its two
    [ValueError]s. *)
Inductive IntOutcome :=
| IntValue (n : Z)
| IntInvalidLiteral
| IntTooManyDigits (digits : nat).

Definition digit_value (a : ascii) : option Z :=
  let n := N_of_ascii a in
  if ((48 <=? n) && (n <=? 57))%N then Some (Z.of_N n - 48) else None.

Definition is_underscore (a : ascii) : bool := (N_of_ascii a =? 95)%N.

Fixpoint skip_spaces (cs : list ascii) : list ascii :=
  match cs with
  | [] => []
  | c :: rest => if is_space c then skip_spaces rest else cs
  end.

(** Scan digits and underscores.  [prev_us] tells that the previous
    character was an underscore; [seen] counts the digits read.  The
    result is the value, the number of digits and the unread rest, or
    [None] for a doubled or trailing underscore. *)
Fixpoint scan_digits (cs : list ascii) (acc : Z) (seen : nat) (prev_us : bool)
  : option (Z * nat * list ascii) :=
  match cs with
  | [] => if prev_us then None else Some (acc, seen, [])
  | c :: rest =>
      match digit_value c with
      | Some d => scan_digits rest (10 * acc + d) (S seen) false
      | None =>
          if is_underscore c then
            if prev_us then None else scan_digits rest acc seen true
          else if prev_us then None else Some (acc, seen, cs)
      end
  end.

Definition int_outcome_of_chars (cs : list ascii) : IntOutcome :=
  let cs := skip_spaces cs in
  let '(negative, cs) :=
    match cs with
    | c :: rest =>
        if (N_of_ascii c =? 43)%N then (false, rest)
        else if (N_of_ascii c =? 45)%N then (true, rest)
        else (false, cs)
    | [] => (false, cs)
    end in
  match cs with
  | c :: _ =>
      if is_underscore c then IntInvalidLiteral
      else
        match scan_digits cs 0 0%nat false with
        | Some (v, seen, rest) =>
            if (max_str_digits <? seen)%nat then IntTooManyDigits seen
            else
              match seen, skip_spaces rest with
              | S _, [] => IntValue (if negative then - v else v)
              | _, _ => IntInvalidLiteral
              end
        | None => IntInvalidLiteral
        end
  | [] => IntInvalidLiteral
  end.

Definition int_outcome (s : string) : IntOutcome :=
  int_outcome_of_chars (list_ascii_of_string s).

(** [int(s)]: [None] where Python raises [ValueError]. *)
Definition int (s : string) : option Z :=
  match int_outcome s with
  | IntValue n => Some n
  | IntInvalidLiteral | IntTooManyDigits _ => None
  end.

(** *** [repr] of a [str] key, as [repr(dict)] prints it

    Single quotes unless the text holds a single and no double quote;
    the backslash and the chosen quote are escaped, and so is every code
    point below 256 that is not printable (controls, the no-break space
    and the soft hyphen). *)

Definition double_quote : ascii := ascii_of_N 34.
Definition single_quote : ascii := ascii_of_N 39.

Definition hex_digit (n : N) : ascii :=
  if (n <? 10)%N then ascii_of_N (48 + n) else ascii_of_N (87 + n).

Definition repr_char (quote : ascii) (c : ascii) : string :=
  let n := N_of_ascii c in
  if (n =? 92)%N then "\\"
  else if Ascii.eqb c quote then String "\" (String c EmptyString)
  else if (n =? 10)%N then "\n"
  else if (n =? 13)%N then "\r"
  else if (n =? 9)%N then "\t"
  else if ((n <? 32) || ((127 <=? n) && (n <=? 160)) || (n =? 173))%N then
    String "\" (String "x" (String (hex_digit (n / 16)) (String (hex_digit (n mod 16)) EmptyString)))
  else String c EmptyString.

Fixpoint repr_body (quote : ascii) (s : string) : string :=
  match s with
  | EmptyString => EmptyString
  | String c rest => repr_char quote c +:+ repr_body quote rest
  end.

Fixpoint has_char (a : ascii) (s : string) : bool :=
  match s with
  | EmptyString => false
  | String c rest => Ascii.eqb c a || has_char a rest
  end.

Definition repr_str (s : string) : string :=
  let quote : ascii :=
    if has_char single_quote s && negb (has_char double_quote s)
    then double_quote else single_quote in
  String quote (repr_body quote s +:+ String quote EmptyString).

End Py.

(** ** The exception taxonomy ([app/exceptions]) *)

Module Exceptions.
Import Py.

Inductive ExcClass :=
| RapidaException_cls
| AuthenticationException_cls
| MissingAuthorizationKeyException_cls
| InvalidAuthorizationTokenException_cls
| BridgeException_cls
| BridgeClientException_cls
| BridgeInternalFailureException_cls
| ConnectorException_cls
| ConnectorClientFailureException_cls
| ConnectorIllegalNameException_cls
| ConnectorNotThereException_cls
| ConnectorClientInternalFailureException_cls.

#[global] Instance ExcClass_eq_dec : EqDecision ExcClass.
Proof. solve_decision. Defined.

(** The base class written in each [class] statement; [None] for the root,
    whose base is the built-in [Exception]. *)
Definition base (c : ExcClass) : option ExcClass :=
  match c with
  | RapidaException_cls => None
  | AuthenticationException_cls => Some RapidaException_cls
  | MissingAuthorizationKeyException_cls => Some AuthenticationException_cls
  | InvalidAuthorizationTokenException_cls => Some RapidaException_cls
  | BridgeException_cls => Some RapidaException_cls
  | BridgeClientException_cls => Some BridgeException_cls
  | BridgeInternalFailureException_cls => Some BridgeException_cls
  | ConnectorException_cls => Some RapidaException_cls
  | ConnectorClientFailureException_cls => Some ConnectorException_cls
  | ConnectorIllegalNameException_cls => Some ConnectorException_cls
  | ConnectorNotThereException_cls => Some ConnectorException_cls
  | ConnectorClientInternalFailureException_cls => Some ConnectorException_cls
  end.

(** The class and its bases, nearest first.  No chain is longer than three
    classes, so a depth of three reaches the root from everywhere. *)
Fixpoint mro_upto (depth : nat) (c : ExcClass) : list ExcClass :=
  c :: match depth, base c with
       | S d, Some b => mro_upto d b
       | _, _ => []
       end.

Definition mro (c : ExcClass) : list ExcClass := mro_upto 3 c.

Definition issubclass (c d : ExcClass) : bool :=
  bool_decide (d ∈ mro c).

(** The attributes the constructors set on an instance. *)
Record RapidaExc := {
  exc_class : ExcClass;
  status_code : Z;
  message : string;
  error_code : PyVal;
  connector_name : option string;
  bridge_name : option string
}.

(** [RapidaException.__init__], run for an instance of class [cls]. *)
Definition RapidaException_init (cls : ExcClass) (status_code : Z)
    (message : string) (error_code : Z)
    (error_prefix service_code : string) : RapidaExc :=
  {| exc_class := cls;
     status_code := status_code;
     message := message;
     error_code :=
       VStr (error_prefix +:+ "_" +:+ service_code +:+ "_" +:+ pretty error_code);
     connector_name := None;
     bridge_name := None |}.

(** The defaults of the two keyword arguments no subclass passes. *)
Definition default_error_prefix : string := "RAPIDA".
Definition default_service_code : string := "KN_API".

Definition RapidaException (status_code : Z) (message : string)
    (error_code : Z) : RapidaExc :=
  RapidaException_init RapidaException_cls status_code message error_code
    default_error_prefix default_service_code.

(** *** [authentication_exception.py] *)

Definition AuthenticationException_init (cls : ExcClass) (message auth_type : string)
    (status_code error_code : Z) : RapidaExc :=
  RapidaException_init cls status_code (auth_type +:+ ": " +:+ message)
    error_code default_error_prefix default_service_code.

Definition AuthenticationException (message auth_type : string) : RapidaExc :=
  AuthenticationException_init AuthenticationException_cls message auth_type 400 1000.

Definition MissingAuthorizationKeyException_with (auth_type message : string)
  : RapidaExc :=
  AuthenticationException_init MissingAuthorizationKeyException_cls
    message auth_type 400 3001.

Definition MissingAuthorizationKeyException (auth_type : string) : RapidaExc :=
  MissingAuthorizationKeyException_with auth_type "Missing Authorization Key".

Definition InvalidAuthorizationTokenException (message : string) : RapidaExc :=
  RapidaException_init InvalidAuthorizationTokenException_cls 401 message 3002
    default_error_prefix default_service_code.

(** *** [bridges_exceptions.py]: [BridgeException.__init__] assigns the
    attributes itself and does not run the root constructor. *)

Definition BridgeException_init (cls : ExcClass) (message bridge_name : string)
    (error_code : Z) : RapidaExc :=
  {| exc_class := cls;
     status_code := 400;
     message := bridge_name +:+ ": " +:+ message;
     error_code := VInt error_code;
     connector_name := None;
     bridge_name := Some bridge_name |}.

Definition BridgeException (message bridge_name : string) : RapidaExc :=
  BridgeException_init BridgeException_cls message bridge_name 1000.

Definition BridgeClientException (message bridge_name : string) : RapidaExc :=
  BridgeException_init BridgeClientException_cls message bridge_name 1001.

Definition BridgeInternalFailureException (message bridge_name : string)
  : RapidaExc :=
  BridgeException_init BridgeInternalFailureException_cls message bridge_name 1002.

(** *** [connector_exception.py] *)

Definition ConnectorException_init (cls : ExcClass) (message connector_name : string)
    (error_code : Z) : RapidaExc :=
  let e := RapidaException_init cls 422 (connector_name +:+ ": " +:+ message)
             error_code default_error_prefix default_service_code in
  {| exc_class := exc_class e;
     status_code := status_code e;
     message := Exceptions.message e;
     error_code := Exceptions.error_code e;
     connector_name := Some connector_name;
     bridge_name := bridge_name e |}.

Definition ConnectorException (message connector_name : string) : RapidaExc :=
  ConnectorException_init ConnectorException_cls message connector_name 2000.

Definition ConnectorClientFailureException (message connector_name : string)
  : RapidaExc :=
  ConnectorException_init ConnectorClientFailureException_cls
    message connector_name 2001.

Definition ConnectorIllegalNameException (connector_name message : string)
  : RapidaExc :=
  ConnectorException_init ConnectorIllegalNameException_cls
    message connector_name 2002.

Definition ConnectorNotThereException (connector_name message : string)
  : RapidaExc :=
  ConnectorException_init ConnectorNotThereException_cls
    message connector_name 2003.

Definition ConnectorClientInternalFailureException (connector_name message : string)
  : RapidaExc :=
  ConnectorException_init ConnectorClientInternalFailureException_cls
    message connector_name 2004.

(** [RapidaException.__str__]. *)
Definition RapidaException_str (e : RapidaExc) : string :=
  str_of_val (error_code e) +:+ " - " +:+ message e.

(** *** Everything that can be raised

    Besides the taxonomy: the JWT library's [DecodeError], the built-in
    [ValueError] and [KeyError], pydantic's [ValidationError], botocore's
    [ConnectionError] and [ClientError] (with the [Code] of its error
    response), and any other subclass of [Exception], named by its type. *)
Inductive Exc :=
| Rapida (e : RapidaExc)
| DecodeError (msg : string)
| ValueError (msg : string)
| KeyError (msg : string)
| ValidationError (msg : string)
| ConnectionError (msg : string)
| ClientError (code msg : string)
| OtherError (type_name msg : string).

(** [str(exc)]. *)
Definition str_of_exc (x : Exc) : string :=
  match x with
  | Rapida e => RapidaException_str e
  | DecodeError msg | ValueError msg | KeyError msg | ValidationError msg
  | ConnectionError msg | ClientError _ msg | OtherError _ msg => msg
  end.

(** [isinstance(exc, cls)] for a class of the taxonomy. *)
Definition isinstance (x : Exc) (cls : ExcClass) : bool :=
  match x with
  | Rapida e => issubclass (exc_class e) cls
  | _ => false
  end.

Definition is_DecodeError (x : Exc) : bool :=
  match x with DecodeError _ => true | _ => false end.

Definition is_KeyError (x : Exc) : bool :=
  match x with KeyError _ => true | _ => false end.

Definition is_ConnectionError (x : Exc) : bool :=
  match x with ConnectionError _ => true | _ => false end.

Definition is_ClientError (x : Exc) : bool :=
  match x with ClientError _ _ => true | _ => false end.

(** [except Exception]: every value of [Exc] is one. *)
Definition is_Exception (x : Exc) : bool := true.

(** *** Results and [try ... except] *)

Inductive Result (A : Type) :=
| Return (a : A)
| Raise (x : Exc).
Arguments Return {A} a.
Arguments Raise {A} x.

Definition bind {A B : Type} (r : Result A) (k : A -> Result B) : Result B :=
  match r with
  | Return a => k a
  | Raise x => Raise x
  end.

(** One [except] clause: the test on the exception and the clause body. *)
Definition Handler (A : Type) : Type := ((Exc -> bool) * (Exc -> Result A))%type.

(** The first clause whose test accepts the exception runs; what it raises
    is not offered to the clauses after it.  With no such clause the
    exception goes on. *)
Fixpoint dispatch {A : Type} (handlers : list (Handler A)) (x : Exc) : Result A :=
  match handlers with
  | [] => Raise x
  | (test, body) :: rest => if test x then body x else dispatch rest x
  end.

Definition try_except {A : Type} (body : Result A) (handlers : list (Handler A))
  : Result A :=
  match body with
  | Return a => Return a
  | Raise x => dispatch handlers x
  end.

End Exceptions.

(** ** The response envelope ([app/commons/j_response.py]) and the boundary
    translator ([app/exceptions/__init__.py]) *)

Module JResponse.
Import Py Exceptions.

(** The JSON body [render] writes for an error response:
    [{"success": ok, "content": {"error_message": .., "detail": ..}, "code": status}]. *)
Record Envelope := {
  success : bool;
  error_message : string;
  detail : string;
  code : Z
}.

(** The [ok] property. *)
Definition ok (status_code : Z) : bool :=
  (200 <=? status_code) && (status_code <=? 299).

(** [JResponse.default_on_error], rendered. *)
Definition default_on_error (exc : Exc) (error_message : string) (error_code : Z)
  : Envelope :=
  {| success := ok error_code;
     error_message := error_message;
     detail := str_of_exc exc;
     code := error_code |}.

(** [handle_lomotif_error], the handler registered for [RapidaException]. *)
Definition handle_lomotif_error (exc : RapidaExc) : Envelope :=
  default_on_error (Rapida exc) (message exc) (status_code exc).

End JResponse.

(** ** Principals ([app/middlewares/auth/user.py]) *)

Module User.
Import Py Exceptions.

Record Account := {
  account_id : Z;
  account_name : string;
  account_email : string
}.

Record Token := {
  token_id : Z;
  token_value : string;
  tokenType : string
}.

Record OrganizationRole := {
  organization_role_id : Z;
  organizationId : Z;
  organization_role : string;
  organizationName : string
}.

Record ProjectRole := {
  project_role_id : Z;
  projectId : Z;
  project_role : string;
  projectName : string
}.

Record AuthenticatedUser := {
  user : Account;
  token : Token;
  organizationRole : OrganizationRole;
  projectRoles : list ProjectRole;
  currentProject : option ProjectRole
}.

Record InternalAuthenticatedUser := {
  userId : Z;
  internal_projectId : Z;
  internal_organizationId : Z
}.

(** The three concrete subclasses of [User]. *)
Inductive User :=
| Authenticated (u : AuthenticatedUser)
| Internal (u : InternalAuthenticatedUser)
| AnonymousUser.

(** [self.currentProject = project]. *)
Definition set_currentProject (self : AuthenticatedUser) (project : ProjectRole)
  : AuthenticatedUser :=
  {| user := user self;
     token := token self;
     organizationRole := organizationRole self;
     projectRoles := projectRoles self;
     currentProject := Some project |}.

(** What [int(project_id)] raises on a rejected text: the complaint about
    the number of digits, or the one about the literal, which shows at most
    200 characters of the text's [repr]. *)
Definition int_ValueError (text : string) : Exc :=
  match int_outcome text with
  | IntTooManyDigits digits =>
      ValueError ("Exceeds the limit (" +:+ pretty (Z.of_nat max_str_digits)
                  +:+ " digits) for integer string conversion: value has "
                  +:+ pretty (Z.of_nat digits)
                  +:+ " digits; use sys.set_int_max_str_digits() to increase the limit")
  | _ =>
      ValueError ("invalid literal for int() with base 10: "
                  +:+ String.substring 0 200 (repr_str text))
  end.

(** The [for] loop of [select_project] over the roles still to visit.
    [int(project_id)] is evaluated anew for each visited role, and not at
    all when there is none.  The result pairs the returned value with the
    object after the call. *)
Fixpoint select_project_loop (self : AuthenticatedUser) (remaining : list ProjectRole)
    (project_id : string) : Result (option ProjectRole * AuthenticatedUser) :=
  match remaining with
  | [] => Return (None, self)
  | project :: rest =>
      match int project_id with
      | None => Raise (int_ValueError project_id)
      | Some n =>
          if projectId project =? n
          then Return (Some project, set_currentProject self project)
          else select_project_loop self rest project_id
      end
  end.

Definition select_project (self : AuthenticatedUser) (project_id : string)
  : Result (option ProjectRole * AuthenticatedUser) :=
  select_project_loop self (projectRoles self) project_id.

Definition anonymous_attribute_error : Exc :=
  Rapida (InvalidAuthorizationTokenException
            "anonymous user doen't have any attribute.").

(** The [user_id], [project_id] and [organization_id] properties. *)
Definition user_id (u : User) : Result Z :=
  match u with
  | Authenticated a => Return (account_id (user a))
  | Internal i => Return (userId i)
  | AnonymousUser => Raise anonymous_attribute_error
  end.

Definition project_id (u : User) : Result (option Z) :=
  match u with
  | Authenticated a =>
      match currentProject a with
      | None => Return None
      | Some p => Return (Some (projectId p))
      end
  | Internal i => Return (Some (internal_projectId i))
  | AnonymousUser => Raise anonymous_attribute_error
  end.

Definition organization_id (u : User) : Result Z :=
  match u with
  | Authenticated a => Return (organizationId (organizationRole a))
  | Internal i => Return (internal_organizationId i)
  | AnonymousUser => Raise anonymous_attribute_error
  end.

End User.

(** ** Connections and their headers (starlette's [HTTPConnection]) *)

Module Http.
Import Py.

(** [str.lower] on one code point below 256. *)
Definition lower_char (c : ascii) : ascii :=
  let n := N_of_ascii c in
  if (((65 <=? n) && (n <=? 90)) || ((192 <=? n) && (n <=? 214))
      || ((216 <=? n) && (n <=? 222)))%N
  then ascii_of_N (n + 32) else c.

Fixpoint lower (s : string) : string :=
  match s with
  | EmptyString => EmptyString
  | String c rest => String (lower_char c) (lower rest)
  end.

(** The raw header list of the connection; servers deliver the names in
    lower case. *)
Record HTTPConnection := {
  headers : list (string * string)
}.

Fixpoint raw_get (raw : list (string * string)) (key : string) : option string :=
  match raw with
  | [] => None
  | (k, v) :: rest => if String.eqb k key then Some v else raw_get rest key
  end.

(** [conn.headers.get(key)]: the first header whose name is the
    lower-cased key, [None] when there is none. *)
Definition headers_get (conn : HTTPConnection) (key : string) : option string :=
  raw_get (headers conn) (lower key).

End Http.

(** ** The JWT backend ([app/middlewares/jwt_authorization_middleware.py]) *)

Module Jwt.
Import Py Exceptions User Http.

(** The configuration fields the backend reads. *)
Record JwtAuthenticationConfig := {
  header_key : string;
  secret_key : string;
  algorithms : list string;
  strict : bool
}.

(** The two library calls of the backend: [jwt.decode(token, key,
    algorithms)], which returns a [dict] or raises, and pydantic's
    [InternalAuthenticatedUser.parse_obj]. *)
Record Library := {
  jwt_decode : string -> string -> list string -> Result Dict;
  parse_obj : Dict -> Result InternalAuthenticatedUser
}.

Record JwtAuthBackend := {
  config : JwtAuthenticationConfig
}.

(** [not payload]: an empty [dict] is falsy. *)
Definition dict_truthy (d : Dict) : bool :=
  match d with [] => false | _ :: _ => true end.

(** The body of the [try] statement of [authenticate]. *)
Definition authenticate_try (lib : Library) (self : JwtAuthBackend)
    (conn : HTTPConnection) : Result (bool * User) :=
  match headers_get conn (header_key (config self)) with
  | Some (String _ _ as authorization) =>
      bind (jwt_decode lib authorization (secret_key (config self))
              (algorithms (config self)))
        (fun payload =>
           if negb (dict_truthy payload)
              || negb (opt_json_truthy (dict_get payload "userId"))
           then Raise (Rapida (InvalidAuthorizationTokenException
                                 "invalid token payload."))
           else bind (parse_obj lib payload)
                  (fun principal => Return (true, Internal principal)))
  | _ => Raise (Rapida (MissingAuthorizationKeyException "JWT"))
  end.

(** The two [except] clauses of [authenticate], in source order. *)
Definition authenticate_handlers (self : JwtAuthBackend)
  : list (Handler (bool * User)) :=
  [ (is_DecodeError,
     fun err => Raise (Rapida (InvalidAuthorizationTokenException
                                 ("unable to decode given token. "
                                  +:+ str_of_exc err))));
    ((fun ex => isinstance ex AuthenticationException_cls),
     fun ex => if strict (config self) then Raise ex
               else Return (false, AnonymousUser)) ].

Definition authenticate (lib : Library) (self : JwtAuthBackend)
    (conn : HTTPConnection) : Result (bool * User) :=
  try_except (authenticate_try lib self conn) (authenticate_handlers self).

End Jwt.

(** ** The remote-token backend
    ([app/middlewares/token_authorization_middleware.py]) *)

Module TokenAuth.
Import Py Exceptions User Http.

Definition authorization_header_key : string := "authorization".
Definition auth_header_key : string := "x-auth-id".
Definition project_header_key : string := "x-project-id".

(** The backend holds the identity RPC: [user_info_resolver(auth_token,
    user_id)] returns [None] or a [dict], or raises. *)
Record TokenAuthBackend := {
  user_info_resolver : string -> string -> Result (option Dict)
}.

(** [not user_info or "user" not in user_info]. *)
Definition user_info_rejected (user_info : option Dict) : bool :=
  match user_info with
  | None | Some [] => true
  | Some d => negb (dict_has d "user")
  end.

(** The inner [try] statement with its [except BridgeException] clause.
    [construct] is pydantic's constructor of [AuthenticatedUser], applied
    to the keys of [user_info]. *)
Definition resolve_try (construct : Dict -> Result AuthenticatedUser)
    (self : TokenAuthBackend) (conn : HTTPConnection)
    (authorization_token auth_id : string) : Result (bool * User) :=
  bind (user_info_resolver self authorization_token auth_id)
    (fun user_info =>
       match user_info with
       | Some d =>
           if user_info_rejected user_info
           then Raise (Rapida (InvalidAuthorizationTokenException
                                 "illegal token payload."))
           else
             let project_id := headers_get conn project_header_key in
             bind (construct d)
               (fun user =>
                  match project_id with
                  | Some (String _ _ as pid) =>
                      bind (select_project user pid)
                        (fun selected => Return (true, Authenticated (snd selected)))
                  | _ => Return (true, Authenticated user)
                  end)
       | None => Raise (Rapida (InvalidAuthorizationTokenException
                                  "illegal token payload."))
       end).

Definition resolve_handlers : list (Handler (bool * User)) :=
  [ ((fun err => isinstance err BridgeException_cls),
     fun err => Raise (Rapida (InvalidAuthorizationTokenException
                                 ("Token request is not valid. "
                                  +:+ str_of_exc err)))) ].

(** The body of the outer [try] statement of [authenticate]. *)
Definition authenticate_try (construct : Dict -> Result AuthenticatedUser)
    (self : TokenAuthBackend) (conn : HTTPConnection) : Result (bool * User) :=
  match headers_get conn authorization_header_key,
        headers_get conn auth_header_key with
  | Some (String _ _ as authorization_token), Some (String _ _ as auth_id) =>
      try_except (resolve_try construct self conn authorization_token auth_id)
        resolve_handlers
  | _, _ => Raise (Rapida (MissingAuthorizationKeyException "token-auth"))
  end.

(** The two outer [except] clauses: both return the anonymous principal;
    the re-raise under a strict flag is commented out in the source. *)
Definition authenticate_handlers : list (Handler (bool * User)) :=
  [ ((fun ex => isinstance ex AuthenticationException_cls),
     fun _ => Return (false, AnonymousUser));
    ((fun ex => isinstance ex RapidaException_cls),
     fun _ => Return (false, AnonymousUser)) ].

Definition authenticate (construct : Dict -> Result AuthenticatedUser)
    (self : TokenAuthBackend) (conn : HTTPConnection) : Result (bool * User) :=
  try_except (authenticate_try construct self conn) authenticate_handlers.

End TokenAuth.

(** ** Looking a connector up by name
    ([app/connectors/connector_factory.py]) *)

Module ConnectorFactory.
Import Py Exceptions.

(** A connector object, as far as the lookup is concerned: its name and the
    text [repr] prints for it. *)
Record Connector := {
  name : string;
  repr : string
}.

(** [request.state.datasource]: a [dict] from names to connectors, in
    insertion order. *)
Definition Datasource := list (string * Connector).

Record Request := {
  datasource : Datasource
}.

(** [d[key]]: raises [KeyError] for an absent key. *)
Fixpoint getitem (d : Datasource) (key : string) : Result Connector :=
  match d with
  | [] => Raise (KeyError (repr_str key))
  | (k, v) :: rest => if String.eqb k key then Return v else getitem rest key
  end.

(** [repr(d)]: the items as [key: value], separated by a comma and a space,
    within braces. *)
Definition repr_item (item : string * Connector) : string :=
  repr_str (fst item) +:+ ": " +:+ repr (snd item).

Fixpoint repr_items (d : Datasource) : string :=
  match d with
  | [] => EmptyString
  | [item] => repr_item item
  | item :: rest => repr_item item +:+ ", " +:+ repr_items rest
  end.

Definition repr_dict (d : Datasource) : string :=
  "{" +:+ repr_items d +:+ "}".

(** [get_me(connection_name)(request)]. *)
Definition get_me (connection_name : string) (request : Request) : Result Connector :=
  try_except (getitem (datasource request) connection_name)
    [ (is_KeyError,
       fun _ => Raise (Rapida (ConnectorIllegalNameException connection_name
                  (connection_name
                   +:+ " not found in context. choose possible keys "
                   +:+ repr_dict (datasource request))))) ].

(** The lookups under a fixed key: [get_me_redis], [get_me_postgres] and
    [get_me_elastic_search] differ in the key only. *)
Definition get_me_fixed (key : string) (request : Request) : Result Connector :=
  try_except (getitem (datasource request) key)
    [ (is_KeyError,
       fun _ => Raise (Rapida (ConnectorNotThereException key
                  (key +:+ " is not enable in env.")))) ].

Definition get_me_redis : Request -> Result Connector := get_me_fixed "redis".
Definition get_me_postgres : Request -> Result Connector := get_me_fixed "postgres".
Definition get_me_elastic_search : Request -> Result Connector :=
  get_me_fixed "elastic_search".

End ConnectorFactory.

(** ** The STS connector and its credential store
    ([app/connectors/aws/__init__.py], [app/connectors/aws/sts_connector.py])

    One call is modelled as it runs alone; what other tasks do while it
    awaits is outside the model.  The tracing spans ([within_span]) around
    the requests take no part in the result.  Time stamps are rationals. *)

Module Sts.
Import Py Exceptions.

Record AWSAuth := {
  region : string;
  access_key_id : option string;
  secret_access_key : option string;
  assume_role : option string
}.

(** What the program sets on an aiobotocore session. *)
Record AioSession := {
  session_region : option string;
  session_credentials : option (string * string)
}.

(** The credential [dict] both resolutions build. *)
Record Credential := {
  access_key : string;
  secret_key : string;
  token : option string;
  credential_region : option string
}.

(** The frozen credentials of a session. *)
Record FrozenCredentials := {
  frozen_access_key : string;
  frozen_secret_key : string;
  frozen_token : option string
}.

(** The [Credentials] member of an [assume_role] response. *)
Record AssumeRoleResponse := {
  AccessKeyId : string;
  SecretAccessKey : string;
  SessionToken : string
}.

(** A request sent to AWS. *)
Inductive Call :=
| AssumeRole (RoleArn RoleSessionName : string) (kwargs : list (string * string))
| GetFrozenCredentials (session : AioSession).

(** What one call of [get_temporary_credentials] reads from outside: the
    region a session falls back to, the two readings of [time.time()] (at
    the age test, and when the entry is stored), and what AWS answers to
    each request. *)
Record Environment := {
  default_region : option string;
  time_at_lookup : Q;
  time_at_store : Q;
  assume_role_reply :
    string -> string -> list (string * string) -> Result AssumeRoleResponse;
  frozen_credentials_reply : AioSession -> Result FrozenCredentials
}.

(** The state shared by all connectors: [__credentials_store] is an
    attribute of the class, changed in place only (item assignment and
    [del]), never rebound on an instance.  [calls] records the requests
    sent to AWS, oldest first. *)
Record World := {
  credentials_store : gmap string (Credential * Q);
  calls : list Call
}.

Definition set_store (store : gmap string (Credential * Q)) (w : World) : World :=
  {| credentials_store := store; calls := calls w |}.

Definition record_call (c : Call) (w : World) : World :=
  {| credentials_store := credentials_store w; calls := calls w ++ [c] |}.

(** [__max_age_in_store]. *)
Definition max_age_in_store : Q := 600.

(** [a < b] on time stamps. *)
Definition Qltb (a b : Q) : bool := negb (Qle_bool b a).

(** The state of one instance. *)
Record STSConnector := {
  _aws_config : AWSAuth;
  connection : option AioSession
}.

Definition name (self : STSConnector) : string := "sts".

(** [AWSConnector.get_session]: the region and the key pair are set when
    they are truthy. *)
Definition get_session (self : STSConnector) (env : Environment) : AioSession :=
  {| session_region :=
       if str_truthy (region (_aws_config self))
       then Some (region (_aws_config self))
       else default_region env;
     session_credentials :=
       match access_key_id (_aws_config self),
             secret_access_key (_aws_config self) with
       | Some (String _ _ as access), Some (String _ _ as secret) =>
           Some (access, secret)
       | _, _ => None
       end |}.

(** [connect]: keeps a session that is already there. *)
Definition connect (self : STSConnector) (env : Environment) : STSConnector :=
  match connection self with
  | Some _ => self
  | None => {| _aws_config := _aws_config self;
               connection := Some (get_session self env) |}
  end.

(** [AWSConnector.get_credentials]: nothing it raises is caught. *)
Definition get_credentials (self : STSConnector) (session_name : string)
    (env : Environment) (w : World) : Result Credential * World :=
  let _session := get_session self env in
  (bind (frozen_credentials_reply env _session)
     (fun _credential =>
        Return {| access_key := frozen_access_key _credential;
                  secret_key := frozen_secret_key _credential;
                  token := frozen_token _credential;
                  credential_region := session_region _session |}),
   record_call (GetFrozenCredentials _session) w).

(** The three [except] clauses of [_operate]. *)
Definition operate_handlers {A : Type} (self : STSConnector) : list (Handler A) :=
  [ (is_ConnectionError,
     fun boto_error =>
       Raise (Rapida (ConnectorClientFailureException
                        (str_of_exc boto_error) (name self))));
    (is_ClientError,
     fun error =>
       let error_message :=
         match error with
         | ClientError code _ =>
             if String.eqb code "STS.Client.exceptions.RegionDisabledException"
             then "Illegal region for sts."
             else str_of_exc error
         | _ => str_of_exc error
         end in
       Raise (Rapida (ConnectorClientFailureException error_message (name self))));
    (is_Exception,
     fun err =>
       Raise (Rapida (ConnectorClientFailureException
                        (str_of_exc err) (name self)))) ].

(** [_operate]: connect, send the request, translate what it raises.
    [request] is the call sent and [reply] what the client answers. *)
Definition _operate {A : Type} (self : STSConnector) (env : Environment)
    (request : Call) (reply : Result A) (w : World)
  : Result A * STSConnector * World :=
  (try_except reply (operate_handlers self), connect self env, record_call request w).

(** The call [self._operate("assume_role", RoleArn=.., RoleSessionName=..,
    **kwargs)] cannot be made when [kwargs] repeats one of the two keywords
    written in the call, nor when it names a parameter of [_operate] that the
    call already gives by position: Python raises a [TypeError] before
    [_operate] runs.  The first offending key of [kwargs] is named; the text
    is that of CPython 3.10 and later. *)
Definition explicit_keywords : list string := ["RoleArn"; "RoleSessionName"].
Definition positional_parameters : list string := ["self"; "operation"].

Fixpoint first_key_among (names : list string) (kwargs : list (string * string))
  : option string :=
  match kwargs with
  | [] => None
  | (key, _) :: rest =>
      if existsb (String.eqb key) names then Some key
      else first_key_among names rest
  end.

Definition keyword_collision (kwargs : list (string * string)) : option Exc :=
  match first_key_among explicit_keywords kwargs with
  | Some key =>
      Some (OtherError "TypeError"
              ("app.connectors.aws.sts_connector.STSConnector._operate() got multiple values for keyword argument '"
               +:+ key +:+ "'"))
  | None =>
      match first_key_among positional_parameters kwargs with
      | Some key =>
          Some (OtherError "TypeError"
                  ("STSConnector._operate() got multiple values for argument '"
                   +:+ key +:+ "'"))
      | None => None
      end
  end.

Definition get_temporary_credentials (self : STSConnector) (session_name : string)
    (kwargs : list (string * string)) (env : Environment) (w : World)
  : Result Credential * STSConnector * World :=
  let store_credentials := credentials_store w !! session_name in
  let still_valid :=
    match store_credentials with
    | Some (credential, issued) =>
        if Qltb (time_at_lookup env - issued) max_age_in_store
        then Some credential else None
    | None => None
    end in
  match still_valid with
  | Some credential => (Return credential, self, w)
  | None =>
      let w :=
        match store_credentials with
        | Some _ => set_store (delete session_name (credentials_store w)) w
        | None => w
        end in
      match assume_role (_aws_config self) with
      | Some (String _ _ as role) =>
          match keyword_collision kwargs with
          | Some type_error => (Raise type_error, self, w)
          | None =>
          let '(reply, self, w) :=
            _operate self env (AssumeRole role session_name kwargs)
              (assume_role_reply env role session_name kwargs) w in
          match reply, connection self with
          | Return role_definition, Some session =>
              let sts_temporary_credential :=
                {| access_key := AccessKeyId role_definition;
                   secret_key := SecretAccessKey role_definition;
                   token := Some (SessionToken role_definition);
                   credential_region := session_region session |} in
              (Return sts_temporary_credential, self,
               set_store (<[session_name :=
                              (sts_temporary_credential, time_at_store env)]>
                            (credentials_store w)) w)
          | Return _, None =>
              (Raise (OtherError "AttributeError"
                        "'NoneType' object has no attribute 'get_config_variable'"),
               self, w)
          | Raise x, _ => (Raise x, self, w)
          end
          end
      | _ =>
          let '(reply, w) := get_credentials self session_name env w in
          match reply with
          | Return aio_frozen_credential =>
              (Return aio_frozen_credential, self,
               set_store (<[session_name :=
                              (aio_frozen_credential, time_at_store env)]>
                            (credentials_store w)) w)
          | Raise x => (Raise x, self, w)
          end
      end
  end.

End Sts.

(** ** Concrete inputs used in the examples below *)

Module JwtExamples.
Import Py Exceptions User Http Jwt.

(** A backend that is not strict, reading the token from the
    [authorization] header. *)
Definition lenient : JwtAuthBackend :=
  {| config := {| header_key := "Authorization";
                  secret_key := "s3cr3t";
                  algorithms := ["HS256"];
                  strict := false |} |}.

(** A library that knows four tokens: one that does not decode, one whose
    payload has no [userId], one whose [userId] is zero, and a good one. *)
Definition library : Library :=
  {| jwt_decode := fun token _ _ =>
       if String.eqb token "garbage" then Raise (DecodeError "Not enough segments")
       else if String.eqb token "no-user"
       then Return [("projectId", JInt 3); ("organizationId", JInt 9)]
       else if String.eqb token "zero-user"
       then Return [("userId", JInt 0); ("projectId", JInt 3);
                    ("organizationId", JInt 9)]
       else Return [("userId", JInt 7); ("projectId", JInt 3);
                    ("organizationId", JInt 9)];
     parse_obj := fun payload =>
       match dict_get payload "userId", dict_get payload "projectId",
             dict_get payload "organizationId" with
       | Some (JInt u), Some (JInt p), Some (JInt o) =>
           Return {| userId := u; internal_projectId := p;
                     internal_organizationId := o |}
       | _, _, _ => Raise (ValidationError "validation error for InternalAuthenticatedUser")
       end |}.

Definition request_with (token : string) : HTTPConnection :=
  {| headers := [("authorization", token)] |}.

Definition request_without_token : HTTPConnection :=
  {| headers := [("accept", "application/json")] |}.

End JwtExamples.

(** ** Notions used to state the properties *)

Module Statements.
Import Py Exceptions User Http.

(** A decimal string: one or more of the digits 0 to 9, nothing else. *)
Definition is_digit (a : ascii) : bool :=
  match digit_value a with
  | Some _ => true
  | None => false
  end.

Definition is_decimal (s : string) : bool :=
  str_truthy s && forallb is_digit (list_ascii_of_string s).

(** The integer a decimal string denotes. *)
Definition decimal_value (s : string) : Z :=
  fold_left (fun acc c => 10 * acc + (Z.of_N (N_of_ascii c) - 48))
    (list_ascii_of_string s) 0.

(** [part] occurs in [whole]. *)
Definition contains (part whole : string) : Prop :=
  exists before after, whole = before +:+ part +:+ after.

(** The connection carries a token that the JWT library decodes to
    [payload]. *)
Definition decodes_to (lib : Jwt.Library) (self : Jwt.JwtAuthBackend)
    (conn : HTTPConnection) (payload : Dict) : Prop :=
  exists authorization,
    headers_get conn (Jwt.header_key (Jwt.config self)) = Some authorization
    /\ str_truthy authorization = true
    /\ Jwt.jwt_decode lib authorization (Jwt.secret_key (Jwt.config self))
         (Jwt.algorithms (Jwt.config self)) = Return payload.

(** The request carries both required headers, the identity RPC answers
    with a [dict] that has a [user] key, and pydantic builds [user] from
    it. *)
Definition passes_authentication
    (construct : Dict -> Result AuthenticatedUser)
    (self : TokenAuth.TokenAuthBackend) (conn : HTTPConnection)
    (user : AuthenticatedUser) : Prop :=
  exists authorization_token auth_id user_info,
    headers_get conn TokenAuth.authorization_header_key = Some authorization_token
    /\ str_truthy authorization_token = true
    /\ headers_get conn TokenAuth.auth_header_key = Some auth_id
    /\ str_truthy auth_id = true
    /\ TokenAuth.user_info_resolver self authorization_token auth_id
       = Return (Some user_info)
    /\ TokenAuth.user_info_rejected (Some user_info) = false
    /\ construct user_info = Return user.

(** The envelope the boundary translator writes for what an authentication
    call lets out: there is one only for a raised error of the taxonomy. *)
Definition error_envelope {A : Type} (outcome : Result A)
  : option JResponse.Envelope :=
  match outcome with
  | Raise (Rapida e) => Some (JResponse.handle_lomotif_error e)
  | _ => None
  end.

End Statements.

Module UserExamples.
Import Py Exceptions User.

Definition role (n : Z) (label : string) : ProjectRole :=
  {| project_role_id := 100 + n; projectId := n;
     project_role := "admin"; projectName := label |}.

Definition member (roles : list ProjectRole) : AuthenticatedUser :=
  {| user := {| account_id := 1; account_name := "ada";
                account_email := "ada@example.org" |};
     token := {| token_id := 5; token_value := "opaque"; tokenType := "bearer" |};
     organizationRole := {| organization_role_id := 2; organizationId := 9;
                            organization_role := "owner";
                            organizationName := "acme" |};
     projectRoles := roles;
     currentProject := None |}.

(** A user with three project roles, two of them for project 42. *)
Definition ada : AuthenticatedUser :=
  member [role 41 "alpha"; role 42 "beta"; role 42 "gamma"].

(** A user with no project role. *)
Definition bob : AuthenticatedUser := member [].

End UserExamples.

Module TokenExamples.
Import Py Exceptions User Http TokenAuth.

(** *** The record of a user, as the identity service sends it *)

Definition json_of_project_role (p : ProjectRole) : Json :=
  JObj [("id", JInt (project_role_id p)); ("projectId", JInt (projectId p));
        ("role", JStr (project_role p)); ("projectName", JStr (projectName p))].

Definition user_info_of (u : AuthenticatedUser) : Dict :=
  [("user", JObj [("id", JInt (account_id (user u)));
                  ("name", JStr (account_name (user u)));
                  ("email", JStr (account_email (user u)))]);
   ("token", JObj [("id", JInt (token_id (token u)));
                   ("token", JStr (token_value (token u)));
                   ("tokenType", JStr (tokenType (token u)))]);
   ("organizationRole",
    JObj [("id", JInt (organization_role_id (organizationRole u)));
          ("organizationId", JInt (organizationId (organizationRole u)));
          ("role", JStr (organization_role (organizationRole u)));
          ("organizationName", JStr (organizationName (organizationRole u)))]);
   ("projectRoles", JArr (map json_of_project_role (projectRoles u)))]%list.

(** *** Validation of such a record

    What pydantic's constructor of [AuthenticatedUser] gives for a [dict]
    whose entries have the annotated types: every required field must be
    there, further keys are ignored, [currentProject] may be missing.  A
    [dict] with an entry of another type is rejected here. *)

Definition get_int (d : Dict) (key : string) : option Z :=
  match dict_get d key with
  | Some (JInt z) => Some z
  | _ => None
  end.

Definition get_str (d : Dict) (key : string) : option string :=
  match dict_get d key with
  | Some (JStr text) => Some text
  | _ => None
  end.

Definition get_obj (d : Dict) (key : string) : option Dict :=
  match dict_get d key with
  | Some (JObj fields) => Some fields
  | _ => None
  end.

Definition parse_account (f : Dict) : option Account :=
  match get_int f "id", get_str f "name", get_str f "email" with
  | Some i, Some n, Some e =>
      Some {| account_id := i; account_name := n; account_email := e |}
  | _, _, _ => None
  end.

Definition parse_token (f : Dict) : option Token :=
  match get_int f "id", get_str f "token", get_str f "tokenType" with
  | Some i, Some t, Some k =>
      Some {| token_id := i; token_value := t; tokenType := k |}
  | _, _, _ => None
  end.

Definition parse_organization_role (f : Dict) : option OrganizationRole :=
  match get_int f "id", get_int f "organizationId", get_str f "role",
        get_str f "organizationName" with
  | Some i, Some o, Some r, Some n =>
      Some {| organization_role_id := i; organizationId := o;
              organization_role := r; organizationName := n |}
  | _, _, _, _ => None
  end.

Definition parse_project_role (j : Json) : option ProjectRole :=
  match j with
  | JObj f =>
      match get_int f "id", get_int f "projectId", get_str f "role",
            get_str f "projectName" with
      | Some i, Some p, Some r, Some n =>
          Some {| project_role_id := i; projectId := p;
                  project_role := r; projectName := n |}
      | _, _, _, _ => None
      end
  | _ => None
  end.

Fixpoint parse_project_roles (items : list Json) : option (list ProjectRole) :=
  match items with
  | [] => Some []
  | item :: rest =>
      match parse_project_role item, parse_project_roles rest with
      | Some p, Some ps => Some (p :: ps)
      | _, _ => None
      end
  end.

Definition validate (d : Dict) : option AuthenticatedUser :=
  match get_obj d "user", get_obj d "token", get_obj d "organizationRole",
        dict_get d "projectRoles" with
  | Some account, Some tok, Some organization, Some (JArr items) =>
      match parse_account account, parse_token tok,
            parse_organization_role organization, parse_project_roles items with
      | Some a, Some t, Some o, Some ps =>
          match dict_get d "currentProject" with
          | None | Some JNull =>
              Some {| user := a; token := t; organizationRole := o;
                      projectRoles := ps; currentProject := None |}
          | Some current =>
              match parse_project_role current with
              | Some p =>
                  Some {| user := a; token := t; organizationRole := o;
                          projectRoles := ps; currentProject := Some p |}
              | None => None
              end
          end
      | _, _, _, _ => None
      end
  | _, _, _, _ => None
  end.

(** The validation used in the examples.  [expected] names the user the
    example is about; the result is read from the [dict] alone. *)
Definition construct_as (expected : AuthenticatedUser) (d : Dict)
  : Result AuthenticatedUser :=
  match validate d with
  | Some parsed => Return parsed
  | None => Raise (ValidationError "validation error for AuthenticatedUser")
  end.

(** An identity service that knows one token and answers it with the record
    of [u]. *)
Definition backend_for (u : AuthenticatedUser) : TokenAuthBackend :=
  {| user_info_resolver := fun auth_token user_id =>
       if String.eqb auth_token "Bearer good" then Return (Some (user_info_of u))
       else Raise (Rapida (BridgeClientException "unauthenticated" "auth")) |}.

(** The record of the user without project roles, and the service that
    answers with it. *)
Definition user_info : Dict := user_info_of UserExamples.bob.

Definition backend : TokenAuthBackend := backend_for UserExamples.bob.

(** [authorization] is set, [x-auth-id] is missing. *)
Definition request_without_auth_id : HTTPConnection :=
  {| headers := [("authorization", "Bearer good")] |}.

(** Both required headers and a project header. *)
Definition request_for_project (project : string) : HTTPConnection :=
  {| headers := [("authorization", "Bearer good"); ("x-auth-id", "1");
                 ("x-project-id", project)] |}.

End TokenExamples.

Module FactoryExamples.
Import Py Exceptions ConnectorFactory.

Definition redis : Connector :=
  {| name := "redis";
     repr := "<app.connectors.redis_connector.RedisConnector object at 0x7f3a5c1d2e90>" |}.

Definition postgres : Connector :=
  {| name := "postgres";
     repr := "<app.connectors.postgres_connector.PostgresConnector object at 0x7f3a5c1d2f50>" |}.

(** A request whose context holds two connectors. *)
Definition request : Request :=
  {| datasource := [("redis", redis); ("postgres", postgres)] |}.

End FactoryExamples.

Module CacheStatements.
Import Py Exceptions Sts.

(** The age the test computes for an entry stored at [issued]. *)
Definition age (env : Environment) (issued : Q) : Q :=
  (time_at_lookup env - issued)%Q.

(** The session has no entry, or one aged 600 seconds or more. *)
Definition absent_or_expired (env : Environment) (w : World) (session_name : string)
  : Prop :=
  match credentials_store w !! session_name with
  | None => True
  | Some (_, issued) => (600 <= age env issued)%Q
  end.

(** The session a connector holds once [connect] has run. *)
Definition connected_session (self : STSConnector) (env : Environment) : AioSession :=
  match connection self with
  | Some session => session
  | None => get_session self env
  end.

(** The world with the given store and one more call sent. *)
Definition after_call (store : gmap string (Credential * Q)) (request : Call)
    (w : World) : World :=
  {| credentials_store := store; calls := (calls w ++ [request])%list |}.

(** A role is configured and the keyword arguments are such that Python
    refuses the call of [_operate]. *)
Definition call_refused (self : STSConnector) (kwargs : list (string * string))
  : bool :=
  opt_str_truthy (assume_role (_aws_config self))
  && match keyword_collision kwargs with
     | Some _ => true
     | None => false
     end.

End CacheStatements.

Module StsExamples.
Import Py Exceptions Sts.

Definition config_with_role : AWSAuth :=
  {| region := "eu-west-1"; access_key_id := Some "AKIAEXAMPLE";
     secret_access_key := Some "secret";
     assume_role := Some "arn:aws:iam::123456789012:role/indexer" |}.

Definition config_without_role : AWSAuth :=
  {| region := "us-east-1"; access_key_id := None;
     secret_access_key := None; assume_role := None |}.

(** Two connectors with different configurations. *)
Definition with_role : STSConnector :=
  {| _aws_config := config_with_role; connection := None |}.

Definition without_role : STSConnector :=
  {| _aws_config := config_without_role; connection := None |}.

Definition cached : Credential :=
  {| access_key := "ASIAOLD"; secret_key := "old-secret";
     token := Some "old-token"; credential_region := Some "eu-west-1" |}.

Definition response : AssumeRoleResponse :=
  {| AccessKeyId := "ASIANEW"; SecretAccessKey := "new-secret";
     SessionToken := "new-token" |}.

Definition frozen : FrozenCredentials :=
  {| frozen_access_key := "AKIAFROZEN"; frozen_secret_key := "frozen-secret";
     frozen_token := None |}.

(** AWS answers; the clock reads [lookup] at the age test and [lookup + 1]
    when the entry is stored. *)
Definition answering (lookup : Q) : Environment :=
  {| default_region := None;
     time_at_lookup := lookup;
     time_at_store := (lookup + 1)%Q;
     assume_role_reply := fun _ _ _ => Return response;
     frozen_credentials_reply := fun _ => Return frozen |}.

(** AWS cannot be reached. *)
Definition unreachable (lookup : Q) : Environment :=
  {| default_region := None;
     time_at_lookup := lookup;
     time_at_store := (lookup + 1)%Q;
     assume_role_reply := fun _ _ _ =>
       Raise (ConnectionError "Could not connect to the endpoint URL");
     frozen_credentials_reply := fun _ =>
       Raise (ConnectionError "Could not connect to the endpoint URL") |}.

(** A store with one entry, issued at time 1000. *)
Definition world_with_entry : World :=
  {| credentials_store := {[ "indexer" := (cached, 1000%Q) ]}; calls := [] |}.

Definition empty_world : World :=
  {| credentials_store := ∅; calls := [] |}.

End StsExamples.

(** ** Building the connector list
    ([attach_connectors] in [app/connectors/connector_factory.py], with the
    configuration classes of [app/configs]) *)

Module Registry.
Import Py Exceptions.

Record BasicAuth := {
  basic_user : string;
  basic_password : option string
}.

Record RedisConfig := {
  redis_host : string;
  redis_port : Z;
  redis_db : Z;
  redis_max_connection : Z;
  redis_charset : string;
  redis_decode_responses : bool;
  redis_auth : option BasicAuth;
  redis_dockerize : option bool
}.

Record PostgresConfig := {
  postgres_host : string;
  postgres_port : Z;
  postgres_db : string;
  postgres_auth : option BasicAuth;
  postgres_ideal_connection : Z;
  postgres_max_connection : Z;
  postgres_dockerize : option bool
}.

Record ElasticSearchConfig := {
  elastic_host : string;
  elastic_port : option Z;
  elastic_auth : option (BasicAuth + Sts.AWSAuth);
  elastic_scheme : string;
  elastic_max_connection : Z;
  elastic_dockerize : option bool
}.

(** The value of one settings field, by its exact type: one of the three
    configuration classes the function tests for, or anything else (named by
    its type). *)
Inductive SettingValue :=
| RedisValue (config : RedisConfig)
| ElasticSearchValue (config : ElasticSearchConfig)
| PostgresValue (config : PostgresConfig)
| OtherValue (type_name : string).

(** The settings object: its fields in the order [model_dump] lists them. *)
Definition ApplicationSettings := list (string * SettingValue).

(** The connector objects the function builds. *)
Inductive EnabledConnector :=
| RedisConnector (config : RedisConfig) (name : string)
| ElasticSearchConnector (config : ElasticSearchConfig) (name : string)
| PostgresConnector (config : PostgresConfig) (name : string).

Definition enabled_name (c : EnabledConnector) : string :=
  match c with
  | RedisConnector _ name | ElasticSearchConnector _ name
  | PostgresConnector _ name => name
  end.

(** The body of the [for] loop: three tests in a row, each appending. *)
Definition attach_field (enabled_connector : list EnabledConnector)
    (key : string) (value : SettingValue) : list EnabledConnector :=
  let enabled_connector :=
    match value with
    | RedisValue config => (enabled_connector ++ [RedisConnector config key])%list
    | _ => enabled_connector
    end in
  let enabled_connector :=
    match value with
    | ElasticSearchValue config =>
        (enabled_connector ++ [ElasticSearchConnector config key])%list
    | _ => enabled_connector
    end in
  match value with
  | PostgresValue config =>
      (enabled_connector ++ [PostgresConnector config key])%list
  | _ => enabled_connector
  end.

Fixpoint attach_loop (fields : ApplicationSettings)
    (enabled_connector : list EnabledConnector) : list EnabledConnector :=
  match fields with
  | [] => enabled_connector
  | (key, value) :: rest =>
      attach_loop rest (attach_field enabled_connector key value)
  end.

Definition attach_connectors (setting : ApplicationSettings)
  : list EnabledConnector :=
  attach_loop setting [].

End Registry.

(** ** The readiness probe ([app/routers/health_check.py]) *)

Module HealthCheck.
Import Py Exceptions ConnectorFactory.

(** [get_all_connectors]. *)
Definition get_all_connectors (request : Request) : Datasource :=
  datasource request.

(** The loop of [readiness] over the keys still to visit: each key is looked
    up in the whole mapping and its connector asked.  [is_connected] is what
    awaiting the connector's probe gives. *)
Fixpoint readiness_loop (is_connected : Connector -> Result bool)
    (connectors : Datasource) (keys : list string)
    (connections_status : list (string * bool)) : Result (list (string * bool)) :=
  match keys with
  | [] => Return connections_status
  | key :: rest =>
      bind (getitem connectors key)
        (fun connection =>
           bind (is_connected connection)
             (fun answer =>
                readiness_loop is_connected connectors rest
                  (connections_status ++ [(key, answer)])%list))
  end.

Definition readiness (is_connected : Connector -> Result bool)
    (connectors : Datasource) : Result (list (string * bool)) :=
  readiness_loop is_connected connectors (map fst connectors) [].

End HealthCheck.

(** ** Paginated responses ([app/commons/paginated_model.py])

    [param] is read at three keys; each entry is absent ([None]) or of the
    type its annotation gives. *)

Module Pagination.
Import Py Exceptions.

Record Param := {
  offset : option Z;
  limit : option Z;
  term : option string;
  lomotif_id : option Z
}.

Record PaginatedModel := {
  count : Z;
  paginated_url : string;
  param : Param;
  results : option (list Json)
}.

Definition term_key : string := "term".

(** [str(v)] for an optional text and an optional integer. *)
Definition str_of_opt (o : option string) : string :=
  match o with
  | Some text => text
  | None => "None"
  end.

Definition str_of_opt_int (o : option Z) : string :=
  match o with
  | Some n => pretty n
  | None => "None"
  end.

Definition type_name (o : option Z) : string :=
  match o with
  | Some _ => "int"
  | None => "NoneType"
  end.

(** [a op b] on two entries: a [TypeError] unless both are integers. *)
Definition arith (symbol : string) (op : Z -> Z -> Z) (a b : option Z) : Result Z :=
  match a, b with
  | Some x, Some y => Return (op x y)
  | _, _ =>
      Raise (OtherError "TypeError"
               ("unsupported operand type(s) for " +:+ symbol +:+ ": '"
                +:+ type_name a +:+ "' and '" +:+ type_name b +:+ "'"))
  end.

(** [PaginatedModel.previous]. *)
Definition previous (self : PaginatedModel) : Result (option string) :=
  let query := term (param self) in
  bind (arith "-" Z.sub (offset (param self)) (limit (param self)))
    (fun offset =>
       if offset <? 0 then Return None
       else Return (Some (paginated_url self +:+ "?" +:+ term_key +:+ "="
                          +:+ str_of_opt query +:+ "&offset=" +:+ pretty offset
                          +:+ "&limit=" +:+ str_of_opt_int (limit (param self))))).

(** [PaginatedModel.next]. *)
Definition next (self : PaginatedModel) : Result (option string) :=
  let query := term (param self) in
  bind (arith "+" Z.add (offset (param self)) (limit (param self)))
    (fun offset =>
       if count self - offset <? 1 then Return None
       else Return (Some (paginated_url self +:+ "?" +:+ term_key +:+ "="
                          +:+ str_of_opt query +:+ "&offset=" +:+ pretty offset
                          +:+ "&limit=" +:+ str_of_opt_int (limit (param self))))).

(** [UserListPaginatedModel]: no previous link, no term in the next one. *)
Definition user_list_previous (self : PaginatedModel) : Result (option string) :=
  Return None.

Definition user_list_next (self : PaginatedModel) : Result (option string) :=
  bind (arith "+" Z.add (offset (param self)) (limit (param self)))
    (fun offset =>
       if count self - offset <? 1 then Return None
       else Return (Some (paginated_url self +:+ "?offset=" +:+ pretty offset
                          +:+ "&limit=" +:+ str_of_opt_int (limit (param self))))).

(** [SearchableChannelPaginatedModel]. *)
Definition searchable_previous (self : PaginatedModel) : Result (option string) :=
  Return None.

Definition searchable_next (self : PaginatedModel) : Result (option string) :=
  let query := term (param self) in
  bind (arith "+" Z.add (offset (param self)) (limit (param self)))
    (fun offset =>
       if count self - offset <? 1 then Return None
       else Return (Some (paginated_url self +:+ "?" +:+ term_key +:+ "="
                          +:+ str_of_opt query +:+ "&lomotif_id="
                          +:+ str_of_opt_int (lomotif_id (param self))
                          +:+ "&offset=" +:+ pretty offset
                          +:+ "&limit=" +:+ str_of_opt_int (limit (param self))))).

End Pagination.

(** ** Snowflake identifiers ([generate_snowflake_id] in
    [app/models/__init__.py]) *)

Module Snowflake.

(** What one call reads from outside: the clock in milliseconds and the two
    random draws. *)
Record Draw := {
  timestamp : Z;
  node_id : Z;
  sequence : Z
}.

(** [random.randint(0, 1023)] and [random.randint(0, 4095)], and a clock at
    or after the epoch. *)
Definition in_range (d : Draw) : Prop :=
  0 <= timestamp d /\ 0 <= node_id d <= 1023 /\ 0 <= sequence d <= 4095.

Definition generate_snowflake_id (d : Draw) : Z :=
  Z.lor (Z.lor (Z.shiftl (timestamp d) 22) (Z.shiftl (node_id d) 12))
    (sequence d).

End Snowflake.

(** ** S3 storage ([app/storage/file_storage/s3_storage.py]) *)

Module S3Storage.
Import Py Exceptions.

(** What the S3 client answers: [get_object] followed by reading the body,
    and [head_object]. *)
Record Client := {
  get_object : string -> string -> Result (list Byte.byte);
  head_object : string -> string -> Result unit
}.

Record S3Storage := {
  bucket_name : string;
  client : Client
}.

(** The [except ClientError] clause of [load_once]. *)
Definition load_handlers : list (Handler (list Byte.byte)) :=
  [ (is_ClientError,
     fun ex =>
       match ex with
       | ClientError code _ =>
           if String.eqb code "NoSuchKey"
           then Raise (OtherError "FileNotFoundError" "File not found")
           else Raise ex
       | _ => Raise ex
       end) ].

Definition load_once (self : S3Storage) (filename : string)
  : Result (list Byte.byte) :=
  try_except (get_object (client self) (bucket_name self) filename) load_handlers.

(** [exists]: the bare [except] answers [False] to everything raised. *)
Definition exists_ (self : S3Storage) (filename : string) : Result bool :=
  try_except
    (bind (head_object (client self) (bucket_name self) filename)
       (fun _ => Return true))
    [ (is_Exception, fun _ => Return false) ].

End S3Storage.

(** ** Further notions and inputs for the properties *)

Module TaxonomyStatements.
Import Py Exceptions.

(** The errors the subclass constructors build, for any messages and names,
    with the status and the error code each class has by default (the three
    base classes also take them as arguments; such calls are not covered). *)
Inductive Constructed : RapidaExc -> Prop :=
| constructed_authentication message auth_type :
    Constructed (AuthenticationException message auth_type)
| constructed_missing_key auth_type message :
    Constructed (MissingAuthorizationKeyException_with auth_type message)
| constructed_invalid_token message :
    Constructed (InvalidAuthorizationTokenException message)
| constructed_bridge message bridge :
    Constructed (BridgeException message bridge)
| constructed_bridge_client message bridge :
    Constructed (BridgeClientException message bridge)
| constructed_bridge_internal message bridge :
    Constructed (BridgeInternalFailureException message bridge)
| constructed_connector message connector :
    Constructed (ConnectorException message connector)
| constructed_client_failure message connector :
    Constructed (ConnectorClientFailureException message connector)
| constructed_illegal_name connector message :
    Constructed (ConnectorIllegalNameException connector message)
| constructed_not_there connector message :
    Constructed (ConnectorNotThereException connector message)
| constructed_internal_failure connector message :
    Constructed (ConnectorClientInternalFailureException connector message).

End TaxonomyStatements.

Module MoreExamples.
Import Py Exceptions User Http.

(** A JWT backend that is strict. *)
Definition strict_backend : Jwt.JwtAuthBackend :=
  {| Jwt.config := {| Jwt.header_key := "Authorization";
                      Jwt.secret_key := "s3cr3t";
                      Jwt.algorithms := ["HS256"];
                      Jwt.strict := true |} |}.

(** A JWT library whose decoder reports an expired signature, which is no
    [DecodeError]. *)
Definition expiring_library : Jwt.Library :=
  {| Jwt.jwt_decode := fun _ _ _ =>
       Raise (OtherError "ExpiredSignatureError" "Signature has expired");
     Jwt.parse_obj := Jwt.parse_obj JwtExamples.library |}.

(** An identity service that is down, one that answers with an empty
    [dict], and a request with both required headers. *)
Definition failing_backend : TokenAuth.TokenAuthBackend :=
  {| TokenAuth.user_info_resolver := fun _ _ =>
       Raise (Rapida (BridgeInternalFailureException "unavailable" "auth")) |}.

Definition empty_backend : TokenAuth.TokenAuthBackend :=
  {| TokenAuth.user_info_resolver := fun _ _ => Return (Some []) |}.

Definition request_with_both : HTTPConnection :=
  {| headers := [("authorization", "Bearer good"); ("x-auth-id", "1")] |}.

End MoreExamples.

Module RegistryStatements.
Import Registry.

(** The field holds one of the three configurations the registry knows. *)
Definition is_known (field : string * SettingValue) : bool :=
  match snd field with
  | RedisValue _ | ElasticSearchValue _ | PostgresValue _ => true
  | OtherValue _ => false
  end.

(** The connector kind goes with the configuration kind, and the name with
    the field name. *)
Definition built_from (c : EnabledConnector) (field : string * SettingValue) : Prop :=
  match c, snd field with
  | RedisConnector config name, RedisValue config' =>
      config = config' /\ name = fst field
  | ElasticSearchConnector config name, ElasticSearchValue config' =>
      config = config' /\ name = fst field
  | PostgresConnector config name, PostgresValue config' =>
      config = config' /\ name = fst field
  | _, _ => False
  end.

End RegistryStatements.

Module RegistryExamples.
Import Registry.

Definition cache_config : RedisConfig :=
  {| redis_host := "localhost"; redis_port := 6379; redis_db := 0;
     redis_max_connection := 5; redis_charset := "utf-8";
     redis_decode_responses := true; redis_auth := None;
     redis_dockerize := Some true |}.

Definition database_config : PostgresConfig :=
  {| postgres_host := "localhost"; postgres_port := 5432;
     postgres_db := "documents"; postgres_auth := None;
     postgres_ideal_connection := 1; postgres_max_connection := 5;
     postgres_dockerize := Some true |}.

(** Settings with a service name, a Redis field, an AWS field and a
    Postgres field. *)
Definition settings : ApplicationSettings :=
  [("service_name", OtherValue "str");
   ("redis", RedisValue cache_config);
   ("aws", OtherValue "AWSAuth");
   ("postgres", PostgresValue database_config)].

End RegistryExamples.

Module ProbeExamples.
Import Py Exceptions ConnectorFactory.

(** Redis answers that it is not connected, Postgres that it is. *)
Definition answers (c : Connector) : Result bool :=
  if String.eqb (name c) "redis" then Return false else Return true.

(** Postgres cannot be asked. *)
Definition postgres_down (c : Connector) : Result bool :=
  if String.eqb (name c) "postgres"
  then Raise (ConnectionError "connection refused")
  else Return true.

End ProbeExamples.

Module PaginationStatements.
Import Pagination.

(** The same page request at another offset. *)
Definition with_offset (p : PaginatedModel) (o : Z) : PaginatedModel :=
  {| count := count p;
     paginated_url := paginated_url p;
     param := {| offset := Some o;
                 limit := limit (param p);
                 term := term (param p);
                 lomotif_id := lomotif_id (param p) |};
     results := results p |}.

(** The link to the page of [p]'s query at offset [o], with [p]'s limit. *)
Definition link (p : PaginatedModel) (o : Z) : string :=
  paginated_url p +:+ "?term=" +:+ str_of_opt (term (param p))
  +:+ "&offset=" +:+ pretty o
  +:+ "&limit=" +:+ str_of_opt_int (limit (param p)).

End PaginationStatements.

Module PaginationExamples.
Import Pagination.

(** The second page of ten of 25 results. *)
Definition page : PaginatedModel :=
  {| count := 25;
     paginated_url := "https://api.example.org/search";
     param := {| offset := Some 10; limit := Some 10;
                 term := Some "cats"; lomotif_id := None |};
     results := Some [] |}.

(** A request without [limit]. *)
Definition page_without_limit : PaginatedModel :=
  {| count := 25;
     paginated_url := "https://api.example.org/search";
     param := {| offset := Some 10; limit := None;
                 term := Some "cats"; lomotif_id := None |};
     results := Some [] |}.

End PaginationExamples.

Module S3Examples.
Import Py Exceptions S3Storage.

(** A bucket that holds one object, [report.pdf]; asking for [locked.pdf] is
    denied. *)
Definition one_object : Client :=
  {| get_object := fun _ key =>
       if String.eqb key "report.pdf" then Return [Byte.x25; Byte.x50]
       else if String.eqb key "locked.pdf"
       then Raise (ClientError "AccessDenied" "Access Denied")
       else Raise (ClientError "NoSuchKey" "The specified key does not exist.");
     head_object := fun _ key =>
       if String.eqb key "report.pdf" then Return tt
       else Raise (ClientError "404" "Not Found") |}.

Definition storage : S3Storage :=
  {| bucket_name := "documents"; client := one_object |}.

End S3Examples.

Module OperateStatements.
Import Py Exceptions.

(** The message [_operate] gives the client-failure error for an
    exception. *)
Definition failure_message (x : Exc) : string :=
  match x with
  | ClientError code msg =>
      if String.eqb code "STS.Client.exceptions.RegionDisabledException"
      then "Illegal region for sts."
      else msg
  | _ => str_of_exc x
  end.

End OperateStatements.

Module SnowflakeExamples.
Import Snowflake.

Definition early : Draw :=
  {| timestamp := 1700000000000; node_id := 1023; sequence := 4095 |}.

Definition late : Draw :=
  {| timestamp := 1700000000001; node_id := 0; sequence := 0 |}.

End SnowflakeExamples.

Module LongDecimalExamples.

(** A decimal text of 4301 digits. *)
Definition long_decimal : string :=
  string_of_list_ascii (repeat "1"%char 4301).

End LongDecimalExamples.

(** * Properties *)

(** ** The exception taxonomy *)

Section TaxonomyFacts.
Import Py Exceptions.

(** The root constructor renders [error_code] from the three parts, whatever
    the message is. *)
Lemma RapidaException_init_error_code cls status msg numeric prefix service :
  error_code (RapidaException_init cls status msg numeric prefix service)
  = VStr (prefix +:+ "_" +:+ service +:+ "_" +:+ pretty numeric).
Proof. reflexivity. Qed.

(** The authentication and connector classes reach the root constructor, so
    their [error_code] is the composite text and does not depend on the
    message. *)
Lemma authentication_error_code cls message auth_type status numeric :
  error_code (AuthenticationException_init cls message auth_type status numeric)
  = VStr ("RAPIDA_KN_API_" +:+ pretty numeric).
Proof. reflexivity. Qed.

Lemma connector_error_code cls message connector numeric :
  error_code (ConnectorException_init cls message connector numeric)
  = VStr ("RAPIDA_KN_API_" +:+ pretty numeric).
Proof. reflexivity. Qed.

Lemma invalid_token_error_code message :
  error_code (InvalidAuthorizationTokenException message) = VStr "RAPIDA_KN_API_3002".
Proof. reflexivity. Qed.

(** The bridge classes keep the number they were given. *)
Lemma bridge_error_code cls message bridge numeric :
  error_code (BridgeException_init cls message bridge numeric) = VInt numeric.
Proof. reflexivity. Qed.

(** C6.  A bridge error does not carry the composite text: the
    [error_code] of [BridgeClientException("timeout", "auth")] is the
    integer 1001, not the text RAPIDA_KN_API_1001 that the root constructor
    gives the same number, while the connector and authentication classes do
    carry the composite text. *)
Theorem bridge_error_code_is_bare_integer :
  error_code (BridgeClientException "timeout" "auth") = VInt 1001
  /\ error_code (BridgeClientException "timeout" "auth")
     <> error_code (RapidaException 400 "auth: timeout" 1001)
  /\ error_code (RapidaException 400 "auth: timeout" 1001) = VStr "RAPIDA_KN_API_1001"
  /\ error_code (ConnectorClientFailureException "timeout" "sts")
     = VStr "RAPIDA_KN_API_2001"
  /\ error_code (MissingAuthorizationKeyException "JWT") = VStr "RAPIDA_KN_API_3001".
Proof. repeat split; try reflexivity. discriminate. Qed.

(** [InvalidAuthorizationTokenException] derives from the root class, not
    from [AuthenticationException]. *)
Lemma invalid_token_not_authentication message :
  isinstance (Rapida (InvalidAuthorizationTokenException message))
    AuthenticationException_cls = false.
Proof. reflexivity. Qed.

Lemma invalid_token_is_rapida message :
  isinstance (Rapida (InvalidAuthorizationTokenException message))
    RapidaException_cls = true.
Proof. reflexivity. Qed.

Lemma missing_key_is_authentication auth_type :
  isinstance (Rapida (MissingAuthorizationKeyException auth_type))
    AuthenticationException_cls = true.
Proof. reflexivity. Qed.

(** Every class of the taxonomy derives from the root class. *)
Lemma every_class_is_rapida cls : issubclass cls RapidaException_cls = true.
Proof. destruct cls; vm_compute; reflexivity. Qed.

End TaxonomyFacts.

(** ** The JWT backend *)

Section JwtFacts.
Import Py Exceptions User Http Jwt.

Variable lib : Library.
Variable self : JwtAuthBackend.
Variable conn : HTTPConnection.

(** A missing or empty header: the error is an [AuthenticationException],
    so the second clause decides by the [strict] flag. *)
Lemma jwt_missing_header :
  opt_str_truthy (headers_get conn (header_key (config self))) = false ->
  authenticate lib self conn
  = if strict (config self)
    then Raise (Rapida (MissingAuthorizationKeyException "JWT"))
    else Return (false, AnonymousUser).
Proof.
  unfold authenticate, authenticate_try.
  destruct (headers_get conn (header_key (config self))) as [[|c rest]|];
    cbn; try discriminate; intros _; reflexivity.
Qed.

(** A token the library rejects with [DecodeError]: the first clause raises
    the invalid-token error, which leaves [authenticate] whatever the
    [strict] flag is. *)
Lemma jwt_decode_error_propagates authorization msg :
  headers_get conn (header_key (config self)) = Some authorization ->
  str_truthy authorization = true ->
  jwt_decode lib authorization (secret_key (config self))
    (algorithms (config self)) = Raise (DecodeError msg) ->
  authenticate lib self conn
  = Raise (Rapida (InvalidAuthorizationTokenException
                     ("unable to decode given token. " +:+ msg))).
Proof.
  intros Hget Htruthy Hdecode. unfold authenticate, authenticate_try.
  rewrite Hget. destruct authorization as [|c rest]; [discriminate|].
  rewrite Hdecode. reflexivity.
Qed.

(** A decoded payload whose [userId] is absent or falsy: the invalid-token
    error matches neither clause and leaves [authenticate]. *)
Lemma jwt_payload_without_user payload :
  Statements.decodes_to lib self conn payload ->
  opt_json_truthy (dict_get payload "userId") = false ->
  authenticate lib self conn
  = Raise (Rapida (InvalidAuthorizationTokenException "invalid token payload.")).
Proof.
  intros (authorization & Hget & Htruthy & Hdecode) Hfalsy.
  unfold authenticate, authenticate_try.
  rewrite Hget. destruct authorization as [|c rest]; [discriminate|].
  rewrite Hdecode. cbn. rewrite Hfalsy, orb_true_r. reflexivity.
Qed.

End JwtFacts.

(** C1.  With [strict] set to false the backend still lets an exception
    out: for a token the library cannot decode, and for a decoded payload
    without [userId], [authenticate] raises the invalid-token error; only
    the missing header is turned into the anonymous principal. *)
Theorem jwt_lenient_backend_raises_invalid_token :
  Jwt.strict (Jwt.config JwtExamples.lenient) = false
  /\ Jwt.authenticate JwtExamples.library JwtExamples.lenient
       (JwtExamples.request_with "garbage")
     = Exceptions.Raise (Exceptions.Rapida
         (Exceptions.InvalidAuthorizationTokenException
            "unable to decode given token. Not enough segments"))
  /\ Jwt.authenticate JwtExamples.library JwtExamples.lenient
       (JwtExamples.request_with "no-user")
     = Exceptions.Raise (Exceptions.Rapida
         (Exceptions.InvalidAuthorizationTokenException "invalid token payload."))
  /\ Jwt.authenticate JwtExamples.library JwtExamples.lenient
       JwtExamples.request_without_token
     = Exceptions.Return (false, User.AnonymousUser).
Proof. repeat split. Qed.

(** C10.  A decoded payload whose [userId] claim is present but falsy makes
    [authenticate] raise the same invalid-token error as a payload that has
    no [userId] claim, and the call never returns a principal. *)
Theorem jwt_falsy_userId_rejected_like_missing
    (lib : Jwt.Library) (self : Jwt.JwtAuthBackend) (conn : Http.HTTPConnection)
    (payload : Py.Dict) (v : Py.Json)
    (Hdecoded : Statements.decodes_to lib self conn payload)
    (Hpresent : Py.dict_get payload "userId" = Some v)
    (Hfalsy : Py.json_truthy v = false) :
  Jwt.authenticate lib self conn
  = Exceptions.Raise (Exceptions.Rapida
      (Exceptions.InvalidAuthorizationTokenException "invalid token payload."))
  /\ (forall principal, Jwt.authenticate lib self conn <> Exceptions.Return principal)
  /\ (forall lib' self' conn' payload',
        Statements.decodes_to lib' self' conn' payload' ->
        Py.dict_get payload' "userId" = None ->
        Jwt.authenticate lib' self' conn' = Jwt.authenticate lib self conn).
Proof.
  assert (Hraise : Jwt.authenticate lib self conn
    = Exceptions.Raise (Exceptions.Rapida
        (Exceptions.InvalidAuthorizationTokenException "invalid token payload."))).
  { apply jwt_payload_without_user with (payload := payload); [exact Hdecoded|].
    rewrite Hpresent. exact Hfalsy. }
  split; [exact Hraise|]. split.
  - intros principal Heq. rewrite Hraise in Heq. discriminate.
  - intros lib' self' conn' payload' Hdecoded' Habsent.
    rewrite Hraise. apply jwt_payload_without_user with (payload := payload');
      [exact Hdecoded'|]. rewrite Habsent. reflexivity.
Qed.

(** C10 at a payload whose [userId] is 0. *)
Lemma jwt_falsy_userId_rejected_like_missing_witness :
  Jwt.authenticate JwtExamples.library JwtExamples.lenient
    (JwtExamples.request_with "zero-user")
  = Exceptions.Raise (Exceptions.Rapida
      (Exceptions.InvalidAuthorizationTokenException "invalid token payload.")).
Proof.
  apply (jwt_falsy_userId_rejected_like_missing
           JwtExamples.library JwtExamples.lenient
           (JwtExamples.request_with "zero-user")
           [("userId", Py.JInt 0); ("projectId", Py.JInt 3);
            ("organizationId", Py.JInt 9)]
           (Py.JInt 0)).
  - exists "zero-user". repeat split.
  - reflexivity.
  - reflexivity.
Defined.

(** ** [int] on decimal strings *)

Section IntFacts.
Import Py Statements.

Lemma digit_bounds c :
  is_digit c = true -> (48 <= N_of_ascii c <= 57)%N.
Proof.
  unfold is_digit, digit_value.
  destruct (N.leb_spec 48 (N_of_ascii c)), (N.leb_spec (N_of_ascii c) 57);
    cbn; intros; try discriminate; lia.
Qed.

Lemma digit_value_of_digit c :
  is_digit c = true -> digit_value c = Some (Z.of_N (N_of_ascii c) - 48).
Proof.
  unfold is_digit, digit_value.
  destruct ((48 <=? N_of_ascii c)%N && (N_of_ascii c <=? 57)%N);
    [reflexivity | discriminate].
Qed.

Lemma digit_not_space c : is_digit c = true -> is_space c = false.
Proof.
  intros H%digit_bounds. unfold is_space. cbv zeta.
  repeat match goal with
         | |- context [N.leb ?a ?b] => destruct (N.leb_spec a b)
         | |- context [N.eqb ?a ?b] => destruct (N.eqb_spec a b)
         end; cbn; try reflexivity; lia.
Qed.

Lemma digit_not_sign_or_underscore c :
  is_digit c = true ->
  (N_of_ascii c =? 43)%N = false /\ (N_of_ascii c =? 45)%N = false
  /\ is_underscore c = false.
Proof.
  intros H%digit_bounds. unfold is_underscore.
  repeat split; apply N.eqb_neq; lia.
Qed.

(** Over digits only, the scan reads everything and folds the value. *)
Lemma scan_digits_of_digits cs : forall acc seen,
  forallb is_digit cs = true ->
  scan_digits cs acc seen false
  = Some (fold_left (fun a c => 10 * a + (Z.of_N (N_of_ascii c) - 48)) cs acc,
          (seen + length cs)%nat, []).
Proof.
  induction cs as [|c cs IH]; intros acc seen Hall; cbn.
  - rewrite Nat.add_0_r. reflexivity.
  - cbn in Hall. apply andb_true_iff in Hall as [Hc Hcs].
    rewrite (digit_value_of_digit c Hc), (IH _ _ Hcs).
    replace (S seen + length cs)%nat with (seen + S (length cs))%nat by lia.
    reflexivity.
Qed.

(** [int] accepts every decimal string of at most 4300 digits and returns
    the integer it denotes. *)
Lemma int_of_decimal s :
  is_decimal s = true -> (String.length s <= max_str_digits)%nat ->
  int s = Some (decimal_value s).
Proof.
  unfold is_decimal, int, int_outcome, decimal_value, int_outcome_of_chars.
  intros [Hne Hall]%andb_true_iff Hlength.
  assert (Hchars : length (list_ascii_of_string s) = String.length s).
  { clear. induction s as [|c s IH]; cbn; [reflexivity | rewrite IH; reflexivity]. }
  destruct s as [|c rest]; [discriminate|].
  cbn [list_ascii_of_string] in *.
  assert (Hc : is_digit c = true).
  { cbn in Hall. apply andb_true_iff in Hall. tauto. }
  cbn [skip_spaces]. rewrite (digit_not_space c Hc).
  destruct (digit_not_sign_or_underscore c Hc) as (Hplus & Hminus & Hus).
  rewrite Hplus, Hminus, Hus.
  rewrite (scan_digits_of_digits _ 0 0%nat Hall). cbn [Nat.add].
  rewrite Hchars.
  destruct (Nat.ltb_spec max_str_digits (String.length (String c rest))) as [Hlt|_];
    [lia|].
  cbn [String.length skip_spaces]. reflexivity.
Qed.

(** More digits than the limit are refused. *)
Lemma int_of_long_decimal s :
  is_decimal s = true -> (max_str_digits < String.length s)%nat ->
  int_outcome s = IntTooManyDigits (String.length s).
Proof.
  unfold is_decimal, int_outcome, int_outcome_of_chars.
  intros [Hne Hall]%andb_true_iff Hlength.
  assert (Hchars : length (list_ascii_of_string s) = String.length s).
  { clear. induction s as [|c s IH]; cbn; [reflexivity | rewrite IH; reflexivity]. }
  destruct s as [|c rest]; [discriminate|].
  cbn [list_ascii_of_string] in *.
  assert (Hc : is_digit c = true).
  { cbn in Hall. apply andb_true_iff in Hall. tauto. }
  cbn [skip_spaces]. rewrite (digit_not_space c Hc).
  destruct (digit_not_sign_or_underscore c Hc) as (Hplus & Hminus & Hus).
  rewrite Hplus, Hminus, Hus.
  rewrite (scan_digits_of_digits _ 0 0%nat Hall). cbn [Nat.add].
  rewrite Hchars.
  destruct (Nat.ltb_spec max_str_digits (String.length (String c rest))) as [_|Hge];
    [reflexivity | lia].
Qed.

End IntFacts.

(** ** Selecting a project *)

Section SelectProjectFacts.
Import Py Exceptions User Statements.

Variable self : AuthenticatedUser.
Variable project_id : string.
Variable n : Z.
Hypothesis Hint : int project_id = Some n.

(** Roles that do not match are passed over. *)
Lemma select_project_loop_skip before remaining :
  (forall q, In q before -> projectId q <> n) ->
  select_project_loop self (before ++ remaining) project_id
  = select_project_loop self remaining project_id.
Proof.
  induction before as [|q before IH]; intros Hno; [reflexivity|].
  cbn. rewrite Hint.
  destruct (Z.eqb_spec (projectId q) n) as [Heq|_].
  - exfalso. apply (Hno q); [left; reflexivity | exact Heq].
  - apply IH. intros q' Hq'. apply Hno. right. exact Hq'.
Qed.

Lemma select_project_loop_hit p rest :
  projectId p = n ->
  select_project_loop self (p :: rest) project_id
  = Return (Some p, set_currentProject self p).
Proof. intros Hp. cbn. rewrite Hint, Hp, Z.eqb_refl. reflexivity. Qed.

Lemma select_project_loop_none remaining :
  (forall q, In q remaining -> projectId q <> n) ->
  select_project_loop self remaining project_id = Return (None, self).
Proof.
  intros Hno. rewrite <- (app_nil_r remaining).
  rewrite select_project_loop_skip by exact Hno. reflexivity.
Qed.

End SelectProjectFacts.

(** C7, as stated, fails: for a decimal project id of 4301 digits and a user
    with a project role, [select_project] neither returns a role nor [None];
    [int] refuses the text and the call raises its [ValueError]. *)
Lemma select_project_long_decimal_raises :
  Statements.is_decimal LongDecimalExamples.long_decimal = true
  /\ String.length LongDecimalExamples.long_decimal = 4301%nat
  /\ User.projectRoles UserExamples.ada <> []
  /\ User.select_project UserExamples.ada LongDecimalExamples.long_decimal
     = Exceptions.Raise (Exceptions.ValueError
         "Exceeds the limit (4300 digits) for integer string conversion: value has 4301 digits; use sys.set_int_max_str_digits() to increase the limit").
Proof.
  split; [vm_compute; reflexivity|]. split; [vm_compute; reflexivity|].
  split; [discriminate|]. vm_compute. reflexivity.
Qed.

(** C7, amended.  For a decimal project id of at most 4300 digits, denoting
    [n]: when some entry of [projectRoles] has [projectId] equal to [n],
    [select_project] returns the first such entry and the user afterwards
    has it as [currentProject], all other fields as before; when no entry
    matches, [select_project] returns [None] and the user is as before. *)
Theorem select_project_first_match_or_none
    (self : User.AuthenticatedUser) (project_id : string)
    (Hdecimal : Statements.is_decimal project_id = true)
    (Hlength : (String.length project_id <= Py.max_str_digits)%nat) :
  (forall before p after,
      User.projectRoles self = (before ++ p :: after)%list ->
      (forall q, In q before -> User.projectId q <> Statements.decimal_value project_id) ->
      User.projectId p = Statements.decimal_value project_id ->
      exists self',
        User.select_project self project_id = Exceptions.Return (Some p, self')
        /\ User.currentProject self' = Some p
        /\ User.projectRoles self' = User.projectRoles self
        /\ User.user self' = User.user self
        /\ User.token self' = User.token self
        /\ User.organizationRole self' = User.organizationRole self)
  /\ ((forall q, In q (User.projectRoles self) ->
                 User.projectId q <> Statements.decimal_value project_id) ->
      User.select_project self project_id = Exceptions.Return (None, self)).
Proof.
  pose proof (int_of_decimal project_id Hdecimal Hlength) as Hint.
  split.
  - intros before p after Hroles Hbefore Hp.
    exists (User.set_currentProject self p). unfold User.select_project.
    rewrite Hroles.
    rewrite (select_project_loop_skip self project_id _ Hint before (p :: after) Hbefore).
    rewrite (select_project_loop_hit self project_id _ Hint p after Hp).
    repeat split; assumption.
  - intros Hno. unfold User.select_project.
    apply (select_project_loop_none self project_id _ Hint). exact Hno.
Qed.

(** C7, amended, at a user with roles for projects 41, 42 and 42, asked for
    42 and for 7. *)
Lemma select_project_first_match_or_none_witness :
  (exists self',
      User.select_project UserExamples.ada "42"
      = Exceptions.Return (Some (UserExamples.role 42 "beta"), self')
      /\ User.currentProject self' = Some (UserExamples.role 42 "beta")
      /\ User.projectRoles self' = User.projectRoles UserExamples.ada
      /\ User.user self' = User.user UserExamples.ada
      /\ User.token self' = User.token UserExamples.ada
      /\ User.organizationRole self' = User.organizationRole UserExamples.ada)
  /\ User.select_project UserExamples.ada "7"
     = Exceptions.Return (None, UserExamples.ada).
Proof.
  split.
  - apply (proj1 (select_project_first_match_or_none UserExamples.ada "42" eq_refl
                    ltac:(vm_compute; lia))
             [UserExamples.role 41 "alpha"] (UserExamples.role 42 "beta")
             [UserExamples.role 42 "gamma"]).
    + reflexivity.
    + intros q [<-|[]]. vm_compute. discriminate.
    + reflexivity.
  - apply (proj2 (select_project_first_match_or_none UserExamples.ada "7" eq_refl
                    ltac:(vm_compute; lia))).
    intros q [<-|[<-|[<-|[]]]]; vm_compute; discriminate.
Defined.

(** ** The remote-token backend *)

Section TokenFacts.
Import Py Exceptions User Http TokenAuth Statements.

Variable construct : Dict -> Result AuthenticatedUser.
Variable self : TokenAuthBackend.
Variable conn : HTTPConnection.

(** A required header that is missing or empty makes the body of the outer
    [try] raise the missing-key error. *)
Lemma token_try_missing_header :
  opt_str_truthy (headers_get conn authorization_header_key) = false
  \/ opt_str_truthy (headers_get conn auth_header_key) = false ->
  authenticate_try construct self conn
  = Raise (Rapida (MissingAuthorizationKeyException "token-auth")).
Proof.
  unfold authenticate_try.
  destruct (headers_get conn authorization_header_key) as [[|c1 r1]|],
           (headers_get conn auth_header_key) as [[|c2 r2]|];
    cbn; intros [H|H]; try discriminate; reflexivity.
Qed.

(** Every error of the taxonomy that the body raises ends in the anonymous
    principal. *)
Lemma token_rapida_error_degrades e :
  authenticate_try construct self conn = Raise (Rapida e) ->
  authenticate construct self conn = Return (false, AnonymousUser).
Proof.
  intros Htry. unfold authenticate. rewrite Htry. cbn.
  rewrite every_class_is_rapida.
  destruct (issubclass (exc_class e) AuthenticationException_cls); reflexivity.
Qed.

(** With authentication passed, what [authenticate] does is what the project
    selection does. *)
Lemma token_authenticated_outcome user :
  passes_authentication construct self conn user ->
  authenticate construct self conn
  = match headers_get conn project_header_key with
    | Some (String _ _ as pid) =>
        match select_project user pid with
        | Return selected => Return (true, Authenticated (snd selected))
        | Raise x => try_except (try_except (Raise x) resolve_handlers)
                       authenticate_handlers
        end
    | _ => Return (true, Authenticated user)
    end.
Proof.
  intros (tok & aid & info & Htok & Htok_t & Haid & Haid_t & Hres & Hrej & Hcons).
  unfold authenticate, authenticate_try. rewrite Htok, Haid.
  destruct tok as [|c1 r1]; [discriminate|].
  destruct aid as [|c2 r2]; [discriminate|].
  unfold resolve_try. rewrite Hres. cbn [bind]. rewrite Hrej, Hcons. cbn [bind].
  destruct (headers_get conn project_header_key) as [[|c3 r3]|]; try reflexivity.
  destruct (select_project user (String c3 r3)); reflexivity.
Qed.

End TokenFacts.

(** C5, as stated, fails: on a request with [authorization] set and no
    [x-auth-id], [authenticate] raises nothing; it returns the anonymous
    principal, and no error envelope is written. *)
Lemma token_missing_auth_id_yields_no_envelope :
  Http.headers_get TokenExamples.request_without_auth_id
    TokenAuth.authorization_header_key = Some "Bearer good"
  /\ Http.headers_get TokenExamples.request_without_auth_id
       TokenAuth.auth_header_key = None
  /\ TokenAuth.authenticate (TokenExamples.construct_as UserExamples.bob)
       TokenExamples.backend TokenExamples.request_without_auth_id
     = Exceptions.Return (false, User.AnonymousUser)
  /\ Statements.error_envelope
       (TokenAuth.authenticate (TokenExamples.construct_as UserExamples.bob)
          TokenExamples.backend TokenExamples.request_without_auth_id)
     = None.
Proof. repeat split. Qed.

(** C5, amended.  On a request with [authorization] set and [x-auth-id]
    missing, the missing-key error is raised inside [authenticate]; its
    status is 400 and the boundary translator would write for it an
    envelope with [success] false and [code] 400; but the error is caught
    where it is raised, and [authenticate] returns [(False,
    AnonymousUser())]. *)
Theorem token_missing_auth_id_degrades_to_anonymous
    (construct : Py.Dict -> Exceptions.Result User.AuthenticatedUser)
    (self : TokenAuth.TokenAuthBackend) (conn : Http.HTTPConnection)
    (Hauthorization :
       Py.opt_str_truthy
         (Http.headers_get conn TokenAuth.authorization_header_key) = true)
    (Hauth_id :
       Py.opt_str_truthy (Http.headers_get conn TokenAuth.auth_header_key) = false) :
  TokenAuth.authenticate_try construct self conn
  = Exceptions.Raise
      (Exceptions.Rapida (Exceptions.MissingAuthorizationKeyException "token-auth"))
  /\ Exceptions.status_code (Exceptions.MissingAuthorizationKeyException "token-auth")
     = 400
  /\ JResponse.success
       (JResponse.handle_lomotif_error
          (Exceptions.MissingAuthorizationKeyException "token-auth")) = false
  /\ JResponse.code
       (JResponse.handle_lomotif_error
          (Exceptions.MissingAuthorizationKeyException "token-auth")) = 400
  /\ TokenAuth.authenticate construct self conn
     = Exceptions.Return (false, User.AnonymousUser).
Proof.
  assert (Htry := token_try_missing_header construct self conn (or_intror Hauth_id)).
  split; [exact Htry|]. repeat split.
  apply token_rapida_error_degrades with (1 := Htry).
Qed.

(** C5, amended, at a request that has only the [authorization] header. *)
Lemma token_missing_auth_id_degrades_to_anonymous_witness :
  TokenAuth.authenticate (TokenExamples.construct_as UserExamples.bob)
    TokenExamples.backend TokenExamples.request_without_auth_id
  = Exceptions.Return (false, User.AnonymousUser).
Proof.
  apply (token_missing_auth_id_degrades_to_anonymous
           (TokenExamples.construct_as UserExamples.bob)
           TokenExamples.backend TokenExamples.request_without_auth_id);
    reflexivity.
Defined.

(** What [int] raises is a [ValueError], no error of the taxonomy. *)
Lemma int_ValueError_is_ValueError (text : string) :
  exists msg, User.int_ValueError text = Exceptions.ValueError msg.
Proof.
  unfold User.int_ValueError. destruct (Py.int_outcome text); eexists; reflexivity.
Qed.

(** C9, as stated, fails: an authenticated user with no project role and the
    project header [abc], which [int] rejects, gets no [ValueError];
    [authenticate] returns the user. *)
Lemma token_bad_project_header_without_roles :
  Statements.passes_authentication (TokenExamples.construct_as UserExamples.bob)
    TokenExamples.backend (TokenExamples.request_for_project "abc") UserExamples.bob
  /\ Http.headers_get (TokenExamples.request_for_project "abc")
       TokenAuth.project_header_key = Some "abc"
  /\ Py.int "abc" = None
  /\ TokenAuth.authenticate (TokenExamples.construct_as UserExamples.bob)
       TokenExamples.backend (TokenExamples.request_for_project "abc")
     = Exceptions.Return (true, User.Authenticated UserExamples.bob).
Proof.
  split; [|repeat split].
  exists "Bearer good", "1", TokenExamples.user_info. repeat split.
Qed.

(** C9, amended.  When authentication passes for a user who has at least
    one project role, and the request carries a non-empty [x-project-id]
    that [int] rejects, [authenticate] raises the [ValueError] of that
    conversion, which is no error of the taxonomy.  For a user without
    project roles the conversion is not reached and [authenticate] returns
    the user. *)
Theorem token_bad_project_header_raises_value_error
    (construct : Py.Dict -> Exceptions.Result User.AuthenticatedUser)
    (self : TokenAuth.TokenAuthBackend) (conn : Http.HTTPConnection)
    (user : User.AuthenticatedUser) (project_id : string)
    (Hpasses : Statements.passes_authentication construct self conn user)
    (Hheader : Http.headers_get conn TokenAuth.project_header_key = Some project_id)
    (Hnonempty : Py.str_truthy project_id = true)
    (Hrejected : Py.int project_id = None) :
  (User.projectRoles user <> [] ->
   TokenAuth.authenticate construct self conn
   = Exceptions.Raise (User.int_ValueError project_id)
   /\ Exceptions.isinstance (User.int_ValueError project_id)
        Exceptions.AuthenticationException_cls = false
   /\ Exceptions.isinstance (User.int_ValueError project_id)
        Exceptions.RapidaException_cls = false)
  /\ (User.projectRoles user = [] ->
      TokenAuth.authenticate construct self conn
      = Exceptions.Return (true, User.Authenticated user)).
Proof.
  rewrite (token_authenticated_outcome construct self conn user Hpasses), Hheader.
  destruct project_id as [|c rest]; [discriminate|].
  unfold User.select_project.
  split; intros Hroles.
  - destruct (User.projectRoles user) as [|first others]; [congruence|].
    cbn [User.select_project_loop]. rewrite Hrejected.
    destruct (int_ValueError_is_ValueError (String c rest)) as [msg ->].
    repeat split.
  - rewrite Hroles. reflexivity.
Qed.

(** C9, amended, at a user with three project roles and the project header
    [abc]. *)
Lemma token_bad_project_header_raises_value_error_witness :
  TokenAuth.authenticate (TokenExamples.construct_as UserExamples.ada)
    (TokenExamples.backend_for UserExamples.ada)
    (TokenExamples.request_for_project "abc")
  = Exceptions.Raise (User.int_ValueError "abc").
Proof.
  apply (proj1 (token_bad_project_header_raises_value_error
                  (TokenExamples.construct_as UserExamples.ada)
                  (TokenExamples.backend_for UserExamples.ada)
                  (TokenExamples.request_for_project "abc")
                  UserExamples.ada "abc"
                  (ex_intro _ "Bearer good"
                     (ex_intro _ "1"
                        (ex_intro _ (TokenExamples.user_info_of UserExamples.ada)
                           (conj eq_refl (conj eq_refl (conj eq_refl
                              (conj eq_refl (conj eq_refl (conj eq_refl eq_refl)))))))))
                  eq_refl eq_refl eq_refl)).
  discriminate.
Defined.

(** ** Looking a connector up by name *)

Section FactoryFacts.
Import Py Exceptions ConnectorFactory Statements.

Lemma append_assoc (a b c : string) : (a +:+ b) +:+ c = a +:+ b +:+ c.
Proof.
  induction a as [|ch a IH]; [reflexivity|].
  change (String ch ((a +:+ b) +:+ c) = String ch (a +:+ b +:+ c)).
  rewrite IH. reflexivity.
Qed.

Lemma append_empty_r (a : string) : a +:+ EmptyString = a.
Proof.
  induction a as [|ch a IH]; [reflexivity|].
  change (String ch (a +:+ EmptyString) = String ch a). rewrite IH. reflexivity.
Qed.

Lemma contains_here part before after : contains part (before +:+ part +:+ after).
Proof. exists before, after. reflexivity. Qed.

Lemma contains_prefix part : forall rest, contains part (part +:+ rest).
Proof. intros rest. exists EmptyString, rest. reflexivity. Qed.

Lemma contains_append_l part whole after :
  contains part whole -> contains part (whole +:+ after).
Proof.
  intros (x & y & ->). exists x, (y +:+ after).
  rewrite !append_assoc. reflexivity.
Qed.

Lemma contains_append_r part whole before :
  contains part whole -> contains part (before +:+ whole).
Proof.
  intros (x & y & ->). exists (before +:+ x), y.
  rewrite !append_assoc. reflexivity.
Qed.

(** A key that is not registered makes the subscript raise [KeyError]. *)
Lemma getitem_absent d key :
  ~ In key (map fst d) -> getitem d key = Raise (KeyError (repr_str key)).
Proof.
  induction d as [|[k v] d IH]; intros Habsent; [reflexivity|].
  cbn in *. destruct (String.eqb_spec k key) as [->|_].
  - exfalso. apply Habsent. left. reflexivity.
  - apply IH. intros Hin. apply Habsent. right. exact Hin.
Qed.

(** A registered key is found. *)
Lemma getitem_present d key :
  In key (map fst d) -> exists c, getitem d key = Return c.
Proof.
  induction d as [|[k v] d IH]; intros Hin; [destruct Hin|].
  cbn in *. destruct (String.eqb_spec k key) as [->|Hne].
  - exists v. reflexivity.
  - destruct Hin as [Heq|Hin]; [contradiction|]. apply IH. exact Hin.
Qed.

(** The printed mapping shows every key. *)
Lemma repr_items_shows_key d k :
  In k (map fst d) -> contains (repr_str k) (repr_items d).
Proof.
  induction d as [|item d IH]; intros Hin; [destruct Hin|].
  assert (Hitem : contains (repr_str (fst item)) (repr_item item)).
  { unfold repr_item. apply contains_prefix. }
  destruct d as [|next d].
  - destruct Hin as [<-|[]]. exact Hitem.
  - change (repr_items (item :: next :: d))
      with (repr_item item +:+ ", " +:+ repr_items (next :: d)).
    destruct Hin as [<-|Hin].
    + apply contains_append_l. exact Hitem.
    + apply contains_append_r, contains_append_r, IH. exact Hin.
Qed.

Lemma repr_dict_shows_key d k :
  In k (map fst d) -> contains (repr_str k) (repr_dict d).
Proof.
  intros Hin. unfold repr_dict.
  apply contains_append_r, contains_append_l, repr_items_shows_key. exact Hin.
Qed.

End FactoryFacts.

(** C4, as stated, fails: for a name that is not registered, [get_me]
    raises the illegal-name error, numbered 2002, not the not-there error,
    numbered 2003. *)
Lemma get_me_unregistered_is_illegal_name :
  ~ In "s3" (map fst (ConnectorFactory.datasource FactoryExamples.request))
  /\ exists e,
       ConnectorFactory.get_me "s3" FactoryExamples.request
       = Exceptions.Raise (Exceptions.Rapida e)
       /\ Exceptions.exc_class e = Exceptions.ConnectorIllegalNameException_cls
       /\ Exceptions.exc_class e <> Exceptions.ConnectorNotThereException_cls
       /\ Exceptions.error_code e = Py.VStr "RAPIDA_KN_API_2002"
       /\ Exceptions.error_code e
          <> Exceptions.error_code (Exceptions.ConnectorNotThereException "s3" "any").
Proof.
  split.
  - cbn. intros [H|[H|[]]]; discriminate.
  - eexists. split; [reflexivity|]. repeat split; discriminate.
Qed.

(** C4, amended.  For every name that is not registered, [get_me] raises the
    illegal-name error: class [ConnectorIllegalNameException], error code
    RAPIDA_KN_API_2002, status 422, the requested name as connector name; its
    message starts with the requested name, says that it was not found, and
    ends with the printed mapping, in which every registered key occurs. *)
Theorem get_me_unregistered_raises_illegal_name
    (connection_name : string) (request : ConnectorFactory.Request)
    (Habsent : ~ In connection_name
                 (map fst (ConnectorFactory.datasource request))) :
  exists e,
    ConnectorFactory.get_me connection_name request
    = Exceptions.Raise (Exceptions.Rapida e)
    /\ Exceptions.exc_class e = Exceptions.ConnectorIllegalNameException_cls
    /\ Exceptions.error_code e = Py.VStr "RAPIDA_KN_API_2002"
    /\ Exceptions.status_code e = 422
    /\ Exceptions.connector_name e = Some connection_name
    /\ Exceptions.message e
       = connection_name +:+ ": " +:+ connection_name
         +:+ " not found in context. choose possible keys "
         +:+ ConnectorFactory.repr_dict (ConnectorFactory.datasource request)
    /\ (forall k, In k (map fst (ConnectorFactory.datasource request)) ->
                  Statements.contains (Py.repr_str k) (Exceptions.message e)).
Proof.
  eexists. split.
  - unfold ConnectorFactory.get_me.
    rewrite (getitem_absent _ _ Habsent). reflexivity.
  - repeat split. intros k Hin. cbn [Exceptions.message].
    unfold Exceptions.ConnectorIllegalNameException,
      Exceptions.ConnectorException_init, Exceptions.RapidaException_init.
    cbn [Exceptions.message].
    do 4 apply contains_append_r. apply repr_dict_shows_key. exact Hin.
Qed.

(** C4, amended, at the name [s3] with [redis] and [postgres] registered. *)
Lemma get_me_unregistered_raises_illegal_name_witness :
  exists e,
    ConnectorFactory.get_me "s3" FactoryExamples.request
    = Exceptions.Raise (Exceptions.Rapida e)
    /\ Exceptions.error_code e = Py.VStr "RAPIDA_KN_API_2002"
    /\ Exceptions.message e
       = "s3: s3 not found in context. choose possible keys {'redis': <app.connectors.redis_connector.RedisConnector object at 0x7f3a5c1d2e90>, 'postgres': <app.connectors.postgres_connector.PostgresConnector object at 0x7f3a5c1d2f50>}".
Proof.
  destruct (get_me_unregistered_raises_illegal_name "s3" FactoryExamples.request)
    as (e & Hraise & _ & Hcode & _ & _ & Hmessage & _).
  - cbn. intros [H|[H|[]]]; discriminate.
  - exists e. repeat split; [exact Hraise | exact Hcode |].
    rewrite Hmessage. reflexivity.
Defined.

(** ** The credential store *)

Section CacheFacts.
Import Py Exceptions Sts CacheStatements.

Lemma Qltb_true a b : Qltb a b = true <-> (a < b)%Q.
Proof.
  unfold Qltb. rewrite negb_true_iff. split.
  - intros Hle. apply Qnot_le_lt. intros H%Qle_bool_iff. congruence.
  - intros Hlt. destruct (Qle_bool b a) eqn:Hle; [|reflexivity].
    apply Qle_bool_iff in Hle. exfalso. exact (Qlt_not_le _ _ Hlt Hle).
Qed.

Lemma Qltb_false a b : Qltb a b = false <-> (b <= a)%Q.
Proof.
  unfold Qltb. rewrite negb_false_iff. apply Qle_bool_iff.
Qed.

Variable self : STSConnector.
Variable session_name : string.
Variable kwargs : list (string * string).
Variable env : Environment.
Variable w : World.

Lemma connect_session :
  connection (connect self env) = Some (connected_session self env).
Proof.
  unfold connect, connected_session.
  destruct (connection self) eqn:Hconnection; [exact Hconnection | reflexivity].
Qed.

(** A live entry is returned as it is: nothing is sent, nothing changes. *)
Lemma cache_hit credential issued :
  credentials_store w !! session_name = Some (credential, issued) ->
  (age env issued < 600)%Q ->
  get_temporary_credentials self session_name kwargs env w
  = (Return credential, self, w).
Proof.
  intros Hentry Hlive%Qltb_true. unfold get_temporary_credentials.
  rewrite Hentry. unfold age in Hlive. unfold max_age_in_store.
  rewrite Hlive. reflexivity.
Qed.

(** After the age test of a call that misses, the store is the old one
    without the session's entry.  With a role, and keyword arguments that
    the call of [_operate] accepts: *)
Lemma cache_miss_with_role role :
  absent_or_expired env w session_name ->
  assume_role (_aws_config self) = Some role ->
  str_truthy role = true ->
  keyword_collision kwargs = None ->
  get_temporary_credentials self session_name kwargs env w
  = match try_except (assume_role_reply env role session_name kwargs)
            (operate_handlers self) with
    | Return role_definition =>
        let credential :=
          {| access_key := AccessKeyId role_definition;
             secret_key := SecretAccessKey role_definition;
             token := Some (SessionToken role_definition);
             credential_region := session_region (connected_session self env) |} in
        (Return credential, connect self env,
         after_call (<[session_name := (credential, time_at_store env)]>
                       (credentials_store w))
           (AssumeRole role session_name kwargs) w)
    | Raise x =>
        (Raise x, connect self env,
         after_call (delete session_name (credentials_store w))
           (AssumeRole role session_name kwargs) w)
    end.
Proof.
  intros Hmiss Hrole Htruthy Hcollision.
  unfold get_temporary_credentials, absent_or_expired in *.
  rewrite Hrole, Hcollision. destruct role as [|c rest]; [discriminate|].
  unfold _operate. rewrite connect_session.
  destruct (credentials_store w !! session_name) as [[old issued]|] eqn:Hentry.
  - apply Qltb_false in Hmiss. unfold age in Hmiss. unfold max_age_in_store.
    rewrite Hmiss.
    destruct (try_except _ _); unfold after_call, set_store, record_call; cbn;
      rewrite ?insert_delete_eq; reflexivity.
  - destruct (try_except _ _); unfold after_call, set_store, record_call; cbn;
      rewrite ?(delete_id _ _ Hentry); reflexivity.
Qed.

(** With a role, and keyword arguments that the call of [_operate] refuses:
    the [TypeError] leaves the call, nothing is sent, and the session's
    entry is gone. *)
Lemma cache_miss_collision role type_error :
  absent_or_expired env w session_name ->
  assume_role (_aws_config self) = Some role ->
  str_truthy role = true ->
  keyword_collision kwargs = Some type_error ->
  get_temporary_credentials self session_name kwargs env w
  = (Raise type_error, self,
     set_store (delete session_name (credentials_store w)) w).
Proof.
  intros Hmiss Hrole Htruthy Hcollision.
  unfold get_temporary_credentials, absent_or_expired in *.
  rewrite Hrole, Hcollision. destruct role as [|c rest]; [discriminate|].
  destruct (credentials_store w !! session_name) as [[old issued]|] eqn:Hentry.
  - apply Qltb_false in Hmiss. unfold age in Hmiss. unfold max_age_in_store.
    rewrite Hmiss. reflexivity.
  - unfold set_store. rewrite (delete_id _ _ Hentry).
    destruct w; reflexivity.
Qed.

Lemma cache_miss_without_role :
  absent_or_expired env w session_name ->
  opt_str_truthy (assume_role (_aws_config self)) = false ->
  get_temporary_credentials self session_name kwargs env w
  = match frozen_credentials_reply env (get_session self env) with
    | Return frozen =>
        let credential :=
          {| access_key := frozen_access_key frozen;
             secret_key := frozen_secret_key frozen;
             token := frozen_token frozen;
             credential_region := session_region (get_session self env) |} in
        (Return credential, self,
         after_call (<[session_name := (credential, time_at_store env)]>
                       (credentials_store w))
           (GetFrozenCredentials (get_session self env)) w)
    | Raise x =>
        (Raise x, self,
         after_call (delete session_name (credentials_store w))
           (GetFrozenCredentials (get_session self env)) w)
    end.
Proof.
  intros Hmiss Hrole. unfold get_temporary_credentials, absent_or_expired in *.
  assert (Hbranch : forall (A : Type) (yes : string -> A) (no : A),
             match assume_role (_aws_config self) with
             | Some (String _ _ as role) => yes role
             | _ => no
             end = no).
  { intros A yes no. destruct (assume_role (_aws_config self)) as [[|c rest]|];
      [reflexivity | discriminate | reflexivity]. }
  unfold get_credentials.
  destruct (credentials_store w !! session_name) as [[old issued]|] eqn:Hentry.
  - apply Qltb_false in Hmiss. unfold age in Hmiss. unfold max_age_in_store.
    rewrite Hmiss, Hbranch.
    destruct (frozen_credentials_reply env (get_session self env));
      unfold after_call, set_store, record_call; cbn;
      rewrite ?insert_delete_eq; reflexivity.
  - rewrite Hbranch.
    destruct (frozen_credentials_reply env (get_session self env));
      unfold after_call, set_store, record_call; cbn;
      rewrite ?(delete_id _ _ Hentry); reflexivity.
Qed.

(** Whatever the client raises, [_operate] turns into the client-failure
    error of the connector [sts]. *)
Lemma operate_handlers_wrap (A : Type) (x : Exc) :
  exists msg,
    dispatch (A := A) (operate_handlers self) x
    = Raise (Rapida (ConnectorClientFailureException msg "sts")).
Proof.
  destruct x; cbn; eexists; reflexivity.
Qed.

End CacheFacts.

Section CacheOutcomes.
Import Py Exceptions Sts CacheStatements.

(** Either the session has a live entry or the call misses. *)
Lemma live_or_missing (env : Environment) (w : World) (session_name : string) :
  (exists credential issued,
      credentials_store w !! session_name = Some (credential, issued)
      /\ (age env issued < 600)%Q)
  \/ absent_or_expired env w session_name.
Proof.
  unfold absent_or_expired.
  destruct (credentials_store w !! session_name) as [[credential issued]|];
    [|right; exact I].
  destruct (Qltb (age env issued) 600) eqn:Hage.
  - left. exists credential, issued. split; [reflexivity|]. apply Qltb_true, Hage.
  - right. apply Qltb_false, Hage.
Qed.

(** What a call returns is, after the call, the session's entry. *)
Lemma returned_credential_is_stored self session_name kwargs env w credential self' w' :
  get_temporary_credentials self session_name kwargs env w
  = (Return credential, self', w') ->
  exists issued, credentials_store w' !! session_name = Some (credential, issued).
Proof.
  intros Hcall.
  destruct (live_or_missing env w session_name)
    as [(cached & issued & Hentry & Hlive)|Hmiss].
  - rewrite (cache_hit self session_name kwargs env w cached issued Hentry Hlive)
      in Hcall.
    injection Hcall as -> _ <-. exists issued. exact Hentry.
  - destruct (assume_role (_aws_config self)) as [[|c rest]|] eqn:Hrole.
    + rewrite cache_miss_without_role in Hcall by (try rewrite Hrole; done).
      destruct (frozen_credentials_reply env (get_session self env));
        [|discriminate].
      injection Hcall as <- _ <-. eexists. apply lookup_insert_eq.
    + destruct (keyword_collision kwargs) as [type_error|] eqn:Hcollision.
      * rewrite (cache_miss_collision self session_name kwargs env w
                   (String c rest) type_error) in Hcall by done.
        discriminate.
      * rewrite (cache_miss_with_role self session_name kwargs env w (String c rest))
          in Hcall by done.
        destruct (try_except _ _); [|discriminate].
        injection Hcall as <- _ <-. eexists. apply lookup_insert_eq.
    + rewrite cache_miss_without_role in Hcall by (try rewrite Hrole; done).
      destruct (frozen_credentials_reply env (get_session self env));
        [|discriminate].
      injection Hcall as <- _ <-. eexists. apply lookup_insert_eq.
Qed.

(** Without a role the frozen credentials are fetched outside [_operate]:
    what that raises leaves the call as it is, and nothing is stored. *)
Lemma failed_frozen_credentials_propagates self session_name kwargs env w failure :
  absent_or_expired env w session_name ->
  opt_str_truthy (assume_role (_aws_config self)) = false ->
  frozen_credentials_reply env (get_session self env) = Raise failure ->
  get_temporary_credentials self session_name kwargs env w
  = (Raise failure, self,
     after_call (delete session_name (credentials_store w))
       (GetFrozenCredentials (get_session self env)) w).
Proof.
  intros Hmiss Hrole Hfails.
  rewrite (cache_miss_without_role self session_name kwargs env w Hmiss Hrole).
  rewrite Hfails. reflexivity.
Qed.

End CacheOutcomes.

(** C2.  A stored entry aged less than 600 seconds is returned as it is:
    nothing is sent to AWS and nothing changes.  Otherwise (no entry, or an
    entry aged 600 seconds or more) exactly one request is sent (the
    [assume_role] operation when a role is configured, the session's
    frozen credentials when none is), and when it succeeds its result is
    returned and stored under the session name with the time read at that
    moment, in place of an expired entry.  For the [assume_role] operation
    the keyword arguments passed on are such that the call of [_operate]
    accepts them: none is named [RoleArn], [RoleSessionName], [operation] or
    [self]. *)
Theorem get_temporary_credentials_cached_or_resolved
    (self : Sts.STSConnector) (session_name : string)
    (kwargs : list (string * string)) (env : Sts.Environment) (w : Sts.World) :
  (forall credential issued,
      Sts.credentials_store w !! session_name = Some (credential, issued) ->
      (CacheStatements.age env issued < 600)%Q ->
      Sts.get_temporary_credentials self session_name kwargs env w
      = (Exceptions.Return credential, self, w))
  /\ (CacheStatements.absent_or_expired env w session_name ->
      (forall role role_definition,
          Sts.assume_role (Sts._aws_config self) = Some role ->
          Py.str_truthy role = true ->
          Sts.keyword_collision kwargs = None ->
          Sts.assume_role_reply env role session_name kwargs
          = Exceptions.Return role_definition ->
          exists credential self',
            Sts.get_temporary_credentials self session_name kwargs env w
            = (Exceptions.Return credential, self',
               CacheStatements.after_call
                 (<[session_name := (credential, Sts.time_at_store env)]>
                    (Sts.credentials_store w))
                 (Sts.AssumeRole role session_name kwargs) w)
            /\ Sts.access_key credential = Sts.AccessKeyId role_definition
            /\ Sts.secret_key credential = Sts.SecretAccessKey role_definition
            /\ Sts.token credential = Some (Sts.SessionToken role_definition))
      /\ (forall frozen,
          Py.opt_str_truthy (Sts.assume_role (Sts._aws_config self)) = false ->
          Sts.frozen_credentials_reply env (Sts.get_session self env)
          = Exceptions.Return frozen ->
          exists credential,
            Sts.get_temporary_credentials self session_name kwargs env w
            = (Exceptions.Return credential, self,
               CacheStatements.after_call
                 (<[session_name := (credential, Sts.time_at_store env)]>
                    (Sts.credentials_store w))
                 (Sts.GetFrozenCredentials (Sts.get_session self env)) w)
            /\ Sts.access_key credential = Sts.frozen_access_key frozen
            /\ Sts.secret_key credential = Sts.frozen_secret_key frozen
            /\ Sts.token credential = Sts.frozen_token frozen)).
Proof.
  split; [|intros Hmiss; split].
  - intros credential issued Hentry Hlive. apply cache_hit with (issued := issued); assumption.
  - intros role role_definition Hrole Htruthy Hcollision Hreply.
    rewrite (cache_miss_with_role self session_name kwargs env w role
               Hmiss Hrole Htruthy Hcollision).
    rewrite Hreply. cbn [Exceptions.try_except].
    eexists _, _. split; [reflexivity|]. repeat split.
  - intros frozen Hrole Hreply.
    rewrite (cache_miss_without_role self session_name kwargs env w Hmiss Hrole).
    rewrite Hreply. eexists. split; [reflexivity|]. repeat split.
Qed.

(** C2 at an entry aged 599 seconds, at the same entry aged 600 seconds, and at an empty store without a role. *)
Lemma get_temporary_credentials_cached_or_resolved_witness :
  Sts.get_temporary_credentials StsExamples.with_role "indexer" []
    (StsExamples.answering 1599) StsExamples.world_with_entry
  = (Exceptions.Return StsExamples.cached, StsExamples.with_role,
     StsExamples.world_with_entry)
  /\ (exists credential self',
        Sts.get_temporary_credentials StsExamples.with_role "indexer" []
          (StsExamples.answering 1600) StsExamples.world_with_entry
        = (Exceptions.Return credential, self',
           CacheStatements.after_call
             (<["indexer" := (credential, 1601%Q)]>
                (Sts.credentials_store StsExamples.world_with_entry))
             (Sts.AssumeRole "arn:aws:iam::123456789012:role/indexer" "indexer" [])
             StsExamples.world_with_entry)
        /\ Sts.access_key credential = "ASIANEW"
        /\ Sts.secret_key credential = "new-secret"
        /\ Sts.token credential = Some "new-token")
  /\ (exists credential,
        Sts.get_temporary_credentials StsExamples.without_role "indexer" []
          (StsExamples.answering 5) StsExamples.empty_world
        = (Exceptions.Return credential, StsExamples.without_role,
           CacheStatements.after_call
             (<["indexer" := (credential, 6%Q)]> ∅)
             (Sts.GetFrozenCredentials
                (Sts.get_session StsExamples.without_role (StsExamples.answering 5)))
             StsExamples.empty_world)
        /\ Sts.access_key credential = "AKIAFROZEN"
        /\ Sts.secret_key credential = "frozen-secret"
        /\ Sts.token credential = None).
Proof.
  split; [|split].
  - apply (proj1 (get_temporary_credentials_cached_or_resolved
                    StsExamples.with_role "indexer" []
                    (StsExamples.answering 1599) StsExamples.world_with_entry)
             StsExamples.cached 1000%Q).
    + vm_compute. reflexivity.
    + vm_compute. reflexivity.
  - apply (proj1 (proj2 (get_temporary_credentials_cached_or_resolved
                           StsExamples.with_role "indexer" []
                           (StsExamples.answering 1600) StsExamples.world_with_entry)
                    ltac:(vm_compute; discriminate))
             "arn:aws:iam::123456789012:role/indexer" StsExamples.response);
      reflexivity.
  - apply (proj2 (proj2 (get_temporary_credentials_cached_or_resolved
                           StsExamples.without_role "indexer" []
                           (StsExamples.answering 5) StsExamples.empty_world)
                    ltac:(vm_compute; exact I))
             StsExamples.frozen);
      reflexivity.
Defined.

(** C8.  The store belongs to the class: what one connector returned for a
    session name is, after that call, the session's entry, and any other
    connector, whatever its configuration, returns that same credential
    without sending anything, as long as the entry is less than 600 seconds
    old. *)
Theorem credentials_store_shared_between_connectors
    (first second : Sts.STSConnector) (session_name : string)
    (kwargs kwargs' : list (string * string)) (env env' : Sts.Environment)
    (w w' : Sts.World) (first' : Sts.STSConnector) (credential : Sts.Credential)
    (Hfirst : Sts.get_temporary_credentials first session_name kwargs env w
              = (Exceptions.Return credential, first', w')) :
  exists issued,
    Sts.credentials_store w' !! session_name = Some (credential, issued)
    /\ ((CacheStatements.age env' issued < 600)%Q ->
        Sts.get_temporary_credentials second session_name kwargs' env' w'
        = (Exceptions.Return credential, second, w')).
Proof.
  destruct (returned_credential_is_stored _ _ _ _ _ _ _ _ Hfirst) as [issued Hentry].
  exists issued. split; [exact Hentry|].
  intros Hlive. apply cache_hit with (issued := issued); assumption.
Qed.

(** C8 at a connector with a role that resolves at time 10 and a connector without a role that asks at time 400. *)
Lemma credentials_store_shared_between_connectors_witness :
  exists issued w',
    Sts.credentials_store w' !! "indexer"
    = Some ({| Sts.access_key := "ASIANEW"; Sts.secret_key := "new-secret";
               Sts.token := Some "new-token";
               Sts.credential_region := Some "eu-west-1" |}, issued)
    /\ Sts.get_temporary_credentials StsExamples.without_role "indexer" []
         (StsExamples.unreachable 400) w'
       = (Exceptions.Return
            {| Sts.access_key := "ASIANEW"; Sts.secret_key := "new-secret";
               Sts.token := Some "new-token";
               Sts.credential_region := Some "eu-west-1" |},
          StsExamples.without_role, w').
Proof.
  destruct (credentials_store_shared_between_connectors
              StsExamples.with_role StsExamples.without_role "indexer" [] []
              (StsExamples.answering 10) (StsExamples.unreachable 400)
              StsExamples.empty_world
              (CacheStatements.after_call
                 (<["indexer" :=
                      ({| Sts.access_key := "ASIANEW"; Sts.secret_key := "new-secret";
                          Sts.token := Some "new-token";
                          Sts.credential_region := Some "eu-west-1" |}, 11%Q)]> ∅)
                 (Sts.AssumeRole "arn:aws:iam::123456789012:role/indexer" "indexer" [])
                 StsExamples.empty_world)
              (Sts.connect StsExamples.with_role (StsExamples.answering 10))
              {| Sts.access_key := "ASIANEW"; Sts.secret_key := "new-secret";
                 Sts.token := Some "new-token";
                 Sts.credential_region := Some "eu-west-1" |}
              eq_refl) as (issued & Hentry & Hsecond).
  exists issued. eexists. split; [exact Hentry|].
  apply Hsecond.
  assert (Hissued : issued = 11%Q).
  { unfold CacheStatements.after_call in Hentry.
    cbn [Sts.credentials_store] in Hentry.
    rewrite lookup_insert_eq in Hentry. congruence. }
  rewrite Hissued. vm_compute. reflexivity.
Defined.

(** C3, as stated, fails: with a role configured, an expired entry for the
    session and AWS out of reach, the call raises the client-failure error,
    but the store is not as before the call: the expired entry is gone. *)
Lemma failed_resolution_evicts_expired_entry :
  let outcome :=
    Sts.get_temporary_credentials StsExamples.with_role "indexer" []
      (StsExamples.unreachable 1700) StsExamples.world_with_entry in
  outcome.1.1
  = Exceptions.Raise (Exceptions.Rapida
      (Exceptions.ConnectorClientFailureException
         "Could not connect to the endpoint URL" "sts"))
  /\ Sts.credentials_store StsExamples.world_with_entry !! "indexer"
     = Some (StsExamples.cached, 1000%Q)
  /\ Sts.credentials_store outcome.2 !! "indexer" = None
  /\ Sts.credentials_store outcome.2
     <> Sts.credentials_store StsExamples.world_with_entry.
Proof.
  cbv zeta. repeat split.
  intros Hsame.
  apply (f_equal (fun store => store !! "indexer")) in Hsame.
  vm_compute in Hsame. discriminate.
Qed.

(** C3, amended.  With a role configured and keyword arguments that the call
    of [_operate] accepts (none named [RoleArn], [RoleSessionName],
    [operation] or [self]), when the call misses the store and
    the [assume_role] operation fails with any exception, the call raises the
    client-failure error of the connector [sts] (class
    [ConnectorClientFailureException], error code RAPIDA_KN_API_2001, a
    message that starts with the connector name); exactly one request was
    sent; no entry is stored for the session; and the store afterwards is
    the store before without the session's entry, so it is unchanged when
    the session had none and differs by the eviction of the expired entry
    otherwise. *)
Theorem failed_assume_role_raises_and_stores_nothing
    (self : Sts.STSConnector) (session_name : string)
    (kwargs : list (string * string)) (env : Sts.Environment) (w : Sts.World)
    (role : string) (failure : Exceptions.Exc)
    (Hmiss : CacheStatements.absent_or_expired env w session_name)
    (Hrole : Sts.assume_role (Sts._aws_config self) = Some role)
    (Htruthy : Py.str_truthy role = true)
    (Hcollision : Sts.keyword_collision kwargs = None)
    (Hfails : Sts.assume_role_reply env role session_name kwargs
              = Exceptions.Raise failure) :
  exists msg self' w',
    Sts.get_temporary_credentials self session_name kwargs env w
    = (Exceptions.Raise (Exceptions.Rapida
         (Exceptions.ConnectorClientFailureException msg "sts")), self', w')
    /\ Exceptions.exc_class (Exceptions.ConnectorClientFailureException msg "sts")
       = Exceptions.ConnectorClientFailureException_cls
    /\ Exceptions.connector_name (Exceptions.ConnectorClientFailureException msg "sts")
       = Some "sts"
    /\ Exceptions.error_code (Exceptions.ConnectorClientFailureException msg "sts")
       = Py.VStr "RAPIDA_KN_API_2001"
    /\ Exceptions.message (Exceptions.ConnectorClientFailureException msg "sts")
       = "sts: " +:+ msg
    /\ Sts.calls w' = (Sts.calls w ++ [Sts.AssumeRole role session_name kwargs])%list
    /\ Sts.credentials_store w' = delete session_name (Sts.credentials_store w)
    /\ Sts.credentials_store w' !! session_name = None
    /\ (Sts.credentials_store w !! session_name = None ->
        Sts.credentials_store w' = Sts.credentials_store w).
Proof.
  destruct (operate_handlers_wrap self Sts.AssumeRoleResponse failure)
    as [msg Hwrap].
  exists msg. eexists _, _.
  rewrite (cache_miss_with_role self session_name kwargs env w role
             Hmiss Hrole Htruthy Hcollision).
  rewrite Hfails. cbn [Exceptions.try_except]. rewrite Hwrap.
  split; [reflexivity|]. repeat split.
  - apply lookup_delete_eq.
  - intros Habsent. apply delete_id. exact Habsent.
Qed.

(** C3, amended, at an expired entry with AWS out of reach. *)
Lemma failed_assume_role_raises_and_stores_nothing_witness :
  exists msg self' w',
    Sts.get_temporary_credentials StsExamples.with_role "indexer" []
      (StsExamples.unreachable 1700) StsExamples.world_with_entry
    = (Exceptions.Raise (Exceptions.Rapida
         (Exceptions.ConnectorClientFailureException msg "sts")), self', w')
    /\ Sts.credentials_store w'
       = delete "indexer" (Sts.credentials_store StsExamples.world_with_entry).
Proof.
  destruct (failed_assume_role_raises_and_stores_nothing
              StsExamples.with_role "indexer" []
              (StsExamples.unreachable 1700) StsExamples.world_with_entry
              "arn:aws:iam::123456789012:role/indexer"
              (Exceptions.ConnectionError "Could not connect to the endpoint URL")
              ltac:(vm_compute; discriminate) eq_refl eq_refl eq_refl eq_refl)
    as (msg & self' & w' & Hcall & _ & _ & _ & _ & _ & Hstore & _).
  exists msg, self', w'. split; [exact Hcall | exact Hstore].
Defined.

(** * Further properties *)

(** ** The JWT backend, beyond the claims *)

(** X1.  A token that decodes to a payload with a truthy [userId], from
    which pydantic builds a principal, authenticates: [authenticate] returns
    [(True, principal)], with the principal pydantic built, whatever the
    [strict] flag is. *)
Theorem jwt_valid_token_authenticates
    (lib : Jwt.Library) (self : Jwt.JwtAuthBackend) (conn : Http.HTTPConnection)
    (payload : Py.Dict) (principal : User.InternalAuthenticatedUser)
    (Hdecoded : Statements.decodes_to lib self conn payload)
    (Huser : Py.opt_json_truthy (Py.dict_get payload "userId") = true)
    (Hparsed : Jwt.parse_obj lib payload = Exceptions.Return principal) :
  Jwt.authenticate lib self conn = Exceptions.Return (true, User.Internal principal).
Proof.
  destruct Hdecoded as (authorization & Hget & Htruthy & Hdecode).
  unfold Jwt.authenticate, Jwt.authenticate_try.
  rewrite Hget. destruct authorization as [|c rest]; [discriminate|].
  rewrite Hdecode. cbn [Exceptions.bind].
  destruct payload as [|item payload]; [discriminate|].
  cbn [Jwt.dict_truthy negb orb]. rewrite Huser. cbn [negb].
  rewrite Hparsed. reflexivity.
Qed.

(** X1 at the good token of the example library. *)
Lemma jwt_valid_token_authenticates_witness :
  Jwt.authenticate JwtExamples.library MoreExamples.strict_backend
    (JwtExamples.request_with "good")
  = Exceptions.Return
      (true, User.Internal {| User.userId := 7; User.internal_projectId := 3;
                              User.internal_organizationId := 9 |}).
Proof.
  apply (jwt_valid_token_authenticates JwtExamples.library
           MoreExamples.strict_backend (JwtExamples.request_with "good")
           [("userId", Py.JInt 7); ("projectId", Py.JInt 3);
            ("organizationId", Py.JInt 9)]).
  - exists "good". repeat split.
  - reflexivity.
  - reflexivity.
Defined.

(** X2.  A missing or empty token header: a strict backend raises the
    missing-key error (status 400, code RAPIDA_KN_API_3001, message
    [JWT: Missing Authorization Key]); a backend that is not strict returns
    [(False, AnonymousUser())]. *)
Theorem jwt_missing_header_follows_strict
    (lib : Jwt.Library) (self : Jwt.JwtAuthBackend) (conn : Http.HTTPConnection)
    (Hmissing : Py.opt_str_truthy
                  (Http.headers_get conn (Jwt.header_key (Jwt.config self)))
                = false) :
  (Jwt.strict (Jwt.config self) = true ->
   exists e,
     Jwt.authenticate lib self conn = Exceptions.Raise (Exceptions.Rapida e)
     /\ Exceptions.exc_class e = Exceptions.MissingAuthorizationKeyException_cls
     /\ Exceptions.status_code e = 400
     /\ Exceptions.error_code e = Py.VStr "RAPIDA_KN_API_3001"
     /\ Exceptions.message e = "JWT: Missing Authorization Key")
  /\ (Jwt.strict (Jwt.config self) = false ->
      Jwt.authenticate lib self conn = Exceptions.Return (false, User.AnonymousUser)).
Proof.
  rewrite (jwt_missing_header lib self conn Hmissing).
  split; intros ->; [|reflexivity].
  eexists. split; [reflexivity|]. repeat split.
Qed.

(** X2 at a request without the token header, for a strict backend. *)
Lemma jwt_missing_header_follows_strict_witness :
  exists e,
    Jwt.authenticate JwtExamples.library MoreExamples.strict_backend
      JwtExamples.request_without_token
    = Exceptions.Raise (Exceptions.Rapida e)
    /\ Exceptions.status_code e = 400.
Proof.
  destruct (proj1 (jwt_missing_header_follows_strict JwtExamples.library
                     MoreExamples.strict_backend
                     JwtExamples.request_without_token eq_refl) eq_refl)
    as (e & Hraise & _ & Hstatus & _).
  exists e. split; [exact Hraise | exact Hstatus].
Defined.

(** X3.  Whatever [authenticate] returns is coherent: the flag is true only
    with an internal principal built from a decoded payload that has a
    truthy [userId], and false only with the anonymous principal, on a
    backend that is not strict. *)
Theorem jwt_outcome_coherent
    (lib : Jwt.Library) (self : Jwt.JwtAuthBackend) (conn : Http.HTTPConnection)
    (flag : bool) (principal : User.User)
    (Hreturn : Jwt.authenticate lib self conn = Exceptions.Return (flag, principal)) :
  (flag = true
   /\ exists payload internal,
        principal = User.Internal internal
        /\ Statements.decodes_to lib self conn payload
        /\ Py.opt_json_truthy (Py.dict_get payload "userId") = true
        /\ Jwt.parse_obj lib payload = Exceptions.Return internal)
  \/ (flag = false /\ principal = User.AnonymousUser
      /\ Jwt.strict (Jwt.config self) = false).
Proof.
  unfold Jwt.authenticate in Hreturn.
  destruct (Jwt.authenticate_try lib self conn) as [[flag' principal']|x] eqn:Htry.
  - cbn in Hreturn. injection Hreturn as -> ->. left.
    unfold Jwt.authenticate_try in Htry.
    destruct (Http.headers_get conn (Jwt.header_key (Jwt.config self)))
      as [[|c rest]|] eqn:Hget; try discriminate.
    destruct (Jwt.jwt_decode lib (String c rest) _ _) as [payload|] eqn:Hdecode;
      [|discriminate].
    cbn [Exceptions.bind] in Htry.
    destruct (Jwt.dict_truthy payload) eqn:Hdict; [|discriminate].
    destruct (Py.opt_json_truthy (Py.dict_get payload "userId")) eqn:Huser;
      [|discriminate].
    cbn [negb orb] in Htry.
    destruct (Jwt.parse_obj lib payload) as [internal|] eqn:Hparse; [|discriminate].
    cbn in Htry. injection Htry as <- <-.
    split; [reflexivity|]. exists payload, internal. repeat split; try assumption.
    exists (String c rest). repeat split; assumption.
  - right. cbn in Hreturn.
    destruct (Exceptions.is_DecodeError x); [discriminate|].
    destruct (Exceptions.isinstance x Exceptions.AuthenticationException_cls);
      [|discriminate].
    destruct (Jwt.strict (Jwt.config self)); [discriminate|].
    injection Hreturn as <- <-. repeat split.
Qed.

(** X3 at the good token: the returned principal comes from a decoded
    payload with a truthy [userId]. *)
Lemma jwt_outcome_coherent_witness :
  exists payload internal,
    User.Internal {| User.userId := 7; User.internal_projectId := 3;
                     User.internal_organizationId := 9 |}
    = User.Internal internal
    /\ Statements.decodes_to JwtExamples.library JwtExamples.lenient
         (JwtExamples.request_with "good") payload
    /\ Py.opt_json_truthy (Py.dict_get payload "userId") = true
    /\ Jwt.parse_obj JwtExamples.library payload = Exceptions.Return internal.
Proof.
  destruct (jwt_outcome_coherent JwtExamples.library JwtExamples.lenient
              (JwtExamples.request_with "good") true
              (User.Internal {| User.userId := 7; User.internal_projectId := 3;
                                User.internal_organizationId := 9 |}) eq_refl)
    as [[_ Hinternal]|[Hflag _]].
  - exact Hinternal.
  - discriminate Hflag.
Defined.

(** X4.  An exception of the decoder that is neither a [DecodeError] nor an
    [AuthenticationException] (an expired signature, say), and likewise one
    of pydantic's validation, leaves [authenticate] unchanged, whatever the
    [strict] flag is. *)
Theorem jwt_foreign_exception_propagates
    (lib : Jwt.Library) (self : Jwt.JwtAuthBackend) (conn : Http.HTTPConnection)
    (authorization : string) (x : Exceptions.Exc)
    (Hget : Http.headers_get conn (Jwt.header_key (Jwt.config self))
            = Some authorization)
    (Htruthy : Py.str_truthy authorization = true)
    (Hnot_decode : Exceptions.is_DecodeError x = false)
    (Hnot_auth : Exceptions.isinstance x Exceptions.AuthenticationException_cls
                 = false) :
  (Jwt.jwt_decode lib authorization (Jwt.secret_key (Jwt.config self))
     (Jwt.algorithms (Jwt.config self)) = Exceptions.Raise x ->
   Jwt.authenticate lib self conn = Exceptions.Raise x)
  /\ (forall payload,
        Jwt.jwt_decode lib authorization (Jwt.secret_key (Jwt.config self))
          (Jwt.algorithms (Jwt.config self)) = Exceptions.Return payload ->
        Py.opt_json_truthy (Py.dict_get payload "userId") = true ->
        Jwt.parse_obj lib payload = Exceptions.Raise x ->
        Jwt.authenticate lib self conn = Exceptions.Raise x).
Proof.
  destruct authorization as [|c rest]; [discriminate|].
  split.
  - intros Hdecode. unfold Jwt.authenticate, Jwt.authenticate_try.
    rewrite Hget, Hdecode. cbn. rewrite Hnot_decode.
    cbn in Hnot_auth. rewrite Hnot_auth. reflexivity.
  - intros payload Hdecode Huser Hparse.
    unfold Jwt.authenticate, Jwt.authenticate_try.
    rewrite Hget, Hdecode. cbn [Exceptions.bind].
    destruct payload as [|item payload]; [discriminate|].
    cbn [Jwt.dict_truthy negb orb]. rewrite Huser. cbn [negb].
    rewrite Hparse. cbn. rewrite Hnot_decode.
    cbn in Hnot_auth. rewrite Hnot_auth. reflexivity.
Qed.

(** X4 at a decoder that reports an expired signature, on a lenient
    backend. *)
Lemma jwt_foreign_exception_propagates_witness :
  Jwt.authenticate MoreExamples.expiring_library JwtExamples.lenient
    (JwtExamples.request_with "old")
  = Exceptions.Raise
      (Exceptions.OtherError "ExpiredSignatureError" "Signature has expired").
Proof.
  apply (proj1 (jwt_foreign_exception_propagates MoreExamples.expiring_library
                  JwtExamples.lenient (JwtExamples.request_with "old") "old"
                  (Exceptions.OtherError "ExpiredSignatureError"
                     "Signature has expired")
                  eq_refl eq_refl eq_refl eq_refl)).
  reflexivity.
Defined.

(** ** The remote-token backend, beyond the claims *)

(** X5.  [authenticate] never lets an error of the taxonomy out: whatever
    the headers, the identity service and the validation do, what it raises
    is no [RapidaException]. *)
Theorem token_never_raises_taxonomy_error
    (construct : Py.Dict -> Exceptions.Result User.AuthenticatedUser)
    (self : TokenAuth.TokenAuthBackend) (conn : Http.HTTPConnection)
    (e : Exceptions.RapidaExc) :
  TokenAuth.authenticate construct self conn
  <> Exceptions.Raise (Exceptions.Rapida e).
Proof.
  unfold TokenAuth.authenticate.
  destruct (TokenAuth.authenticate_try construct self conn) as [outcome|x];
    [discriminate|].
  destruct x as [e'| | | | | | |]; cbn; try discriminate.
  rewrite every_class_is_rapida.
  destruct (Exceptions.issubclass (Exceptions.exc_class e')
              Exceptions.AuthenticationException_cls); discriminate.
Qed.

(** X6.  When the identity service fails with a bridge error, the inner
    [try] turns it into the invalid-token error whose message quotes the
    bridge error, and [authenticate] returns [(False, AnonymousUser())]. *)
Theorem token_bridge_failure_degrades
    (construct : Py.Dict -> Exceptions.Result User.AuthenticatedUser)
    (self : TokenAuth.TokenAuthBackend) (conn : Http.HTTPConnection)
    (authorization_token auth_id : string) (err : Exceptions.RapidaExc)
    (Htoken : Http.headers_get conn TokenAuth.authorization_header_key
              = Some authorization_token)
    (Htoken_truthy : Py.str_truthy authorization_token = true)
    (Hid : Http.headers_get conn TokenAuth.auth_header_key = Some auth_id)
    (Hid_truthy : Py.str_truthy auth_id = true)
    (Hbridge : Exceptions.issubclass (Exceptions.exc_class err)
                 Exceptions.BridgeException_cls = true)
    (Hfails : TokenAuth.user_info_resolver self authorization_token auth_id
              = Exceptions.Raise (Exceptions.Rapida err)) :
  TokenAuth.authenticate_try construct self conn
  = Exceptions.Raise (Exceptions.Rapida
      (Exceptions.InvalidAuthorizationTokenException
         ("Token request is not valid. " +:+ Exceptions.RapidaException_str err)))
  /\ TokenAuth.authenticate construct self conn
     = Exceptions.Return (false, User.AnonymousUser).
Proof.
  assert (Htry : TokenAuth.authenticate_try construct self conn
    = Exceptions.Raise (Exceptions.Rapida
        (Exceptions.InvalidAuthorizationTokenException
           ("Token request is not valid. " +:+ Exceptions.RapidaException_str err)))).
  { unfold TokenAuth.authenticate_try. rewrite Htoken, Hid.
    destruct authorization_token as [|c1 r1]; [discriminate|].
    destruct auth_id as [|c2 r2]; [discriminate|].
    unfold TokenAuth.resolve_try. rewrite Hfails. cbn. rewrite Hbridge.
    reflexivity. }
  split; [exact Htry|].
  apply token_rapida_error_degrades with (1 := Htry).
Qed.

(** X6 at an identity service that is down. *)
Lemma token_bridge_failure_degrades_witness :
  TokenAuth.authenticate_try (TokenExamples.construct_as UserExamples.ada)
    MoreExamples.failing_backend MoreExamples.request_with_both
  = Exceptions.Raise (Exceptions.Rapida
      (Exceptions.InvalidAuthorizationTokenException
         "Token request is not valid. 1002 - auth: unavailable"))
  /\ TokenAuth.authenticate (TokenExamples.construct_as UserExamples.ada)
       MoreExamples.failing_backend MoreExamples.request_with_both
     = Exceptions.Return (false, User.AnonymousUser).
Proof.
  apply (token_bridge_failure_degrades
           (TokenExamples.construct_as UserExamples.ada)
           MoreExamples.failing_backend MoreExamples.request_with_both
           "Bearer good" "1"
           (Exceptions.BridgeInternalFailureException "unavailable" "auth"));
    reflexivity.
Defined.

(** X7.  An answer of the identity service that is [None], an empty [dict]
    or a [dict] without the key [user] raises the invalid-token error
    [illegal token payload.] inside, and [authenticate] returns [(False,
    AnonymousUser())]; the validation is not reached. *)
Theorem token_illegal_payload_degrades
    (construct : Py.Dict -> Exceptions.Result User.AuthenticatedUser)
    (self : TokenAuth.TokenAuthBackend) (conn : Http.HTTPConnection)
    (authorization_token auth_id : string) (user_info : option Py.Dict)
    (Htoken : Http.headers_get conn TokenAuth.authorization_header_key
              = Some authorization_token)
    (Htoken_truthy : Py.str_truthy authorization_token = true)
    (Hid : Http.headers_get conn TokenAuth.auth_header_key = Some auth_id)
    (Hid_truthy : Py.str_truthy auth_id = true)
    (Hanswer : TokenAuth.user_info_resolver self authorization_token auth_id
               = Exceptions.Return user_info)
    (Hillegal : user_info = None \/ user_info = Some []
                \/ exists d, user_info = Some d /\ Py.dict_get d "user" = None) :
  TokenAuth.authenticate_try construct self conn
  = Exceptions.Raise (Exceptions.Rapida
      (Exceptions.InvalidAuthorizationTokenException "illegal token payload."))
  /\ TokenAuth.authenticate construct self conn
     = Exceptions.Return (false, User.AnonymousUser).
Proof.
  assert (Hrejected : TokenAuth.user_info_rejected user_info = true).
  { destruct Hillegal as [->|[->|(d & -> & Habsent)]]; try reflexivity.
    unfold TokenAuth.user_info_rejected, Py.dict_has. rewrite Habsent.
    destruct d; reflexivity. }
  assert (Htry : TokenAuth.authenticate_try construct self conn
    = Exceptions.Raise (Exceptions.Rapida
        (Exceptions.InvalidAuthorizationTokenException "illegal token payload."))).
  { unfold TokenAuth.authenticate_try. rewrite Htoken, Hid.
    destruct authorization_token as [|c1 r1]; [discriminate|].
    destruct auth_id as [|c2 r2]; [discriminate|].
    unfold TokenAuth.resolve_try. rewrite Hanswer. cbn [Exceptions.bind].
    destruct user_info as [d|]; [rewrite Hrejected|]; reflexivity. }
  split; [exact Htry|].
  apply token_rapida_error_degrades with (1 := Htry).
Qed.

(** X7 at an identity service that answers with an empty [dict]. *)
Lemma token_illegal_payload_degrades_witness :
  TokenAuth.authenticate (TokenExamples.construct_as UserExamples.ada)
    MoreExamples.empty_backend MoreExamples.request_with_both
  = Exceptions.Return (false, User.AnonymousUser).
Proof.
  apply (token_illegal_payload_degrades
           (TokenExamples.construct_as UserExamples.ada)
           MoreExamples.empty_backend MoreExamples.request_with_both
           "Bearer good" "1" (Some [])
           eq_refl eq_refl eq_refl eq_refl eq_refl (or_intror (or_introl eq_refl))).
Defined.

(** X8.  With authentication passed: without a project header (or with an
    empty one) [authenticate] returns the user as built; with a decimal
    project header of at most 4300 digits that matches a role it returns the
    user with the first such role as [currentProject], whose [project_id] is
    then that number; with such a header that matches no role it returns the
    user as built, and no error is raised. *)
Theorem token_project_header_selects_project
    (construct : Py.Dict -> Exceptions.Result User.AuthenticatedUser)
    (self : TokenAuth.TokenAuthBackend) (conn : Http.HTTPConnection)
    (user : User.AuthenticatedUser)
    (Hpasses : Statements.passes_authentication construct self conn user) :
  (Py.opt_str_truthy (Http.headers_get conn TokenAuth.project_header_key) = false ->
   TokenAuth.authenticate construct self conn
   = Exceptions.Return (true, User.Authenticated user))
  /\ (forall project_id before p after,
        Http.headers_get conn TokenAuth.project_header_key = Some project_id ->
        Statements.is_decimal project_id = true ->
        (String.length project_id <= Py.max_str_digits)%nat ->
        User.projectRoles user = (before ++ p :: after)%list ->
        (forall q, In q before ->
                   User.projectId q <> Statements.decimal_value project_id) ->
        User.projectId p = Statements.decimal_value project_id ->
        TokenAuth.authenticate construct self conn
        = Exceptions.Return
            (true, User.Authenticated (User.set_currentProject user p))
        /\ User.project_id (User.Authenticated (User.set_currentProject user p))
           = Exceptions.Return (Some (Statements.decimal_value project_id)))
  /\ (forall project_id,
        Http.headers_get conn TokenAuth.project_header_key = Some project_id ->
        Statements.is_decimal project_id = true ->
        (String.length project_id <= Py.max_str_digits)%nat ->
        (forall q, In q (User.projectRoles user) ->
                   User.projectId q <> Statements.decimal_value project_id) ->
        TokenAuth.authenticate construct self conn
        = Exceptions.Return (true, User.Authenticated user)).
Proof.
  rewrite (token_authenticated_outcome construct self conn user Hpasses).
  split; [|split].
  - destruct (Http.headers_get conn TokenAuth.project_header_key) as [[|c r]|];
      cbn; intros H; try discriminate; reflexivity.
  - intros project_id before p after Hheader Hdecimal Hlength Hroles Hbefore Hp.
    rewrite Hheader.
    assert (Hnonempty : Py.str_truthy project_id = true).
    { unfold Statements.is_decimal in Hdecimal.
      apply andb_true_iff in Hdecimal. tauto. }
    destruct project_id as [|c r]; [discriminate|].
    pose proof (int_of_decimal _ Hdecimal Hlength) as Hint.
    unfold User.select_project. rewrite Hroles.
    rewrite (select_project_loop_skip user _ _ Hint before (p :: after) Hbefore).
    rewrite (select_project_loop_hit user _ _ Hint p after Hp).
    split; [reflexivity|]. cbn. rewrite Hp. reflexivity.
  - intros project_id Hheader Hdecimal Hlength Hnone.
    rewrite Hheader.
    assert (Hnonempty : Py.str_truthy project_id = true).
    { unfold Statements.is_decimal in Hdecimal.
      apply andb_true_iff in Hdecimal. tauto. }
    destruct project_id as [|c r]; [discriminate|].
    pose proof (int_of_decimal _ Hdecimal Hlength) as Hint.
    unfold User.select_project.
    rewrite (select_project_loop_none user _ _ Hint _ Hnone). reflexivity.
Qed.

(** X8 at a user with roles for projects 41, 42 and 42 and the project
    header [42]. *)
Lemma token_project_header_selects_project_witness :
  TokenAuth.authenticate (TokenExamples.construct_as UserExamples.ada)
    (TokenExamples.backend_for UserExamples.ada)
    (TokenExamples.request_for_project "42")
  = Exceptions.Return
      (true, User.Authenticated
               (User.set_currentProject UserExamples.ada
                  (UserExamples.role 42 "beta")))
  /\ User.project_id
       (User.Authenticated
          (User.set_currentProject UserExamples.ada (UserExamples.role 42 "beta")))
     = Exceptions.Return (Some 42).
Proof.
  apply (proj1 (proj2 (token_project_header_selects_project
                         (TokenExamples.construct_as UserExamples.ada)
                         (TokenExamples.backend_for UserExamples.ada)
                         (TokenExamples.request_for_project "42")
                         UserExamples.ada
                         (ex_intro _ "Bearer good"
                            (ex_intro _ "1"
                               (ex_intro _ (TokenExamples.user_info_of UserExamples.ada)
                                  (conj eq_refl (conj eq_refl (conj eq_refl
                                     (conj eq_refl (conj eq_refl
                                        (conj eq_refl eq_refl)))))))))))
           "42" [UserExamples.role 41 "alpha"] (UserExamples.role 42 "beta")
           [UserExamples.role 42 "gamma"]).
  - reflexivity.
  - reflexivity.
  - vm_compute. lia.
  - reflexivity.
  - intros q [<-|[]]. vm_compute. discriminate.
  - reflexivity.
Defined.

(** X9.  Whatever [authenticate] returns is coherent: the flag is true only
    with an authenticated user, and false only with the anonymous
    principal. *)
Theorem token_outcome_coherent
    (construct : Py.Dict -> Exceptions.Result User.AuthenticatedUser)
    (self : TokenAuth.TokenAuthBackend) (conn : Http.HTTPConnection)
    (flag : bool) (principal : User.User)
    (Hreturn : TokenAuth.authenticate construct self conn
               = Exceptions.Return (flag, principal)) :
  (flag = true /\ exists user, principal = User.Authenticated user)
  \/ (flag = false /\ principal = User.AnonymousUser).
Proof.
  unfold TokenAuth.authenticate in Hreturn.
  destruct (TokenAuth.authenticate_try construct self conn)
    as [[flag' principal']|x] eqn:Htry.
  - cbn in Hreturn. injection Hreturn as -> ->. left.
    unfold TokenAuth.authenticate_try in Htry.
    destruct (Http.headers_get conn TokenAuth.authorization_header_key)
      as [[|c1 r1]|]; try discriminate.
    destruct (Http.headers_get conn TokenAuth.auth_header_key)
      as [[|c2 r2]|]; try discriminate.
    unfold TokenAuth.resolve_try in Htry.
    destruct (TokenAuth.user_info_resolver self (String c1 r1) (String c2 r2))
      as [[d|]|x]; cbn [Exceptions.bind] in Htry.
    + destruct (TokenAuth.user_info_rejected (Some d)).
      { cbn in Htry. discriminate. }
      destruct (construct d) as [user|x]; cbn [Exceptions.bind] in Htry.
      * destruct (Http.headers_get conn TokenAuth.project_header_key)
          as [[|c3 r3]|].
        -- cbn in Htry. injection Htry as <- <-. eauto.
        -- destruct (User.select_project user (String c3 r3)) as [selected|x];
             cbn in Htry.
           ++ injection Htry as <- <-. eauto.
           ++ destruct (Exceptions.isinstance x Exceptions.BridgeException_cls);
                discriminate.
        -- cbn in Htry. injection Htry as <- <-. eauto.
      * cbn in Htry.
        destruct (Exceptions.isinstance x Exceptions.BridgeException_cls);
          discriminate.
    + cbn in Htry. discriminate.
    + cbn in Htry.
      destruct (Exceptions.isinstance x Exceptions.BridgeException_cls);
        discriminate.
  - right. cbn in Hreturn.
    destruct (Exceptions.isinstance x Exceptions.AuthenticationException_cls).
    + injection Hreturn as <- <-. split; reflexivity.
    + destruct (Exceptions.isinstance x Exceptions.RapidaException_cls);
        [|discriminate].
      injection Hreturn as <- <-. split; reflexivity.
Qed.

(** X9 at the request that has only the [authorization] header. *)
Lemma token_outcome_coherent_witness :
  false = false /\ User.AnonymousUser = User.AnonymousUser.
Proof.
  destruct (token_outcome_coherent (TokenExamples.construct_as UserExamples.bob)
              TokenExamples.backend TokenExamples.request_without_auth_id
              false User.AnonymousUser eq_refl)
    as [[Hflag _]|Hanonymous].
  - discriminate Hflag.
  - exact Hanonymous.
Defined.

(** ** Principals, beyond the claims *)

Section SelectProjectOutcome.
Import Py Exceptions User.

Variable self : AuthenticatedUser.
Variable project_id : string.

(** What the loop gives over any roles, for any text. *)
Lemma select_project_loop_outcome remaining :
  match select_project_loop self remaining project_id with
  | Return (Some p, self') =>
      In p remaining /\ int project_id = Some (projectId p)
      /\ self' = set_currentProject self p
  | Return (None, self') =>
      self' = self
      /\ (remaining = []
          \/ exists n, int project_id = Some n
                       /\ forall q, In q remaining -> projectId q <> n)
  | Raise x =>
      x = int_ValueError project_id /\ int project_id = None /\ remaining <> []
  end.
Proof.
  induction remaining as [|q rest IH]; cbn.
  - split; [reflexivity | left; reflexivity].
  - destruct (int project_id) as [n|] eqn:Hint; [|repeat split; discriminate].
    destruct (Z.eqb_spec (projectId q) n) as [Heq|Hne].
    + repeat split; [left; reflexivity | congruence].
    + destruct (select_project_loop self rest project_id) as [[[p|] self']|x].
      * destruct IH as (Hin & Hp & Hself). repeat split; [right|..]; assumption.
      * destruct IH as (Hself & Hcase). split; [exact Hself|]. right.
        exists n. split; [reflexivity|].
        intros q' [<-|Hq']; [exact Hne|].
        destruct Hcase as [->|(n' & Hn' & Hall)]; [destruct Hq'|].
        injection Hn' as <-. apply Hall. exact Hq'.
      * destruct IH as (_ & Hnone & _). discriminate.
Qed.

End SelectProjectOutcome.

(** X10.  For any text given as project id, [select_project] does one of
    three things: it returns a role of the user whose [projectId] is the
    integer [int] reads from the text, and that role is the new
    [currentProject], nothing else changed; or it returns [None] and leaves
    the user as it is, the user having no role or none with that number; or
    it raises the [ValueError] of [int], the text being rejected and the user
    having at least one role. *)
Theorem select_project_outcome
    (self : User.AuthenticatedUser) (project_id : string) :
  match User.select_project self project_id with
  | Exceptions.Return (Some p, self') =>
      In p (User.projectRoles self)
      /\ Py.int project_id = Some (User.projectId p)
      /\ self' = User.set_currentProject self p
  | Exceptions.Return (None, self') =>
      self' = self
      /\ (User.projectRoles self = []
          \/ exists n, Py.int project_id = Some n
                       /\ forall q, In q (User.projectRoles self) ->
                                    User.projectId q <> n)
  | Exceptions.Raise x =>
      x = User.int_ValueError project_id /\ Py.int project_id = None
      /\ User.projectRoles self <> []
  end.
Proof. apply select_project_loop_outcome. Qed.

(** X11.  Selecting is idempotent: after a call that returned, the same
    call on the resulting user returns the same value and leaves that user
    as it is. *)
Theorem select_project_idempotent
    (self self' : User.AuthenticatedUser) (project_id : string)
    (selected : option User.ProjectRole)
    (Hfirst : User.select_project self project_id
              = Exceptions.Return (selected, self')) :
  User.select_project self' project_id = Exceptions.Return (selected, self').
Proof.
  pose proof (select_project_outcome self project_id) as Houtcome.
  rewrite Hfirst in Houtcome.
  destruct selected as [p|].
  - destruct Houtcome as (_ & _ & ->).
    unfold User.select_project in *. cbn [User.projectRoles User.set_currentProject].
    revert Hfirst. generalize (User.projectRoles self) as roles.
    induction roles as [|q roles IH]; cbn; [discriminate|].
    destruct (Py.int project_id) as [n|]; [|discriminate].
    destruct (User.projectId q =? n).
    + intros Hfirst. injection Hfirst as <-. reflexivity.
    + exact IH.
  - destruct Houtcome as (-> & _). exact Hfirst.
Qed.

(** X11 at a user with roles for projects 41, 42 and 42, asked for 42. *)
Lemma select_project_idempotent_witness :
  User.select_project
    (User.set_currentProject UserExamples.ada (UserExamples.role 42 "beta")) "42"
  = Exceptions.Return
      (Some (UserExamples.role 42 "beta"),
       User.set_currentProject UserExamples.ada (UserExamples.role 42 "beta")).
Proof.
  apply (select_project_idempotent UserExamples.ada
           (User.set_currentProject UserExamples.ada (UserExamples.role 42 "beta"))
           "42" (Some (UserExamples.role 42 "beta")) eq_refl).
Defined.

(** X12.  The anonymous principal is the only one whose identity accessors
    raise: [user_id], [project_id] and [organization_id] each raise exactly
    on [AnonymousUser], and what they raise there is the invalid-token error
    with status 401 and code RAPIDA_KN_API_3002. *)
Theorem only_anonymous_accessors_raise (u : User.User) :
  ((exists x, User.user_id u = Exceptions.Raise x) <-> u = User.AnonymousUser)
  /\ ((exists x, User.project_id u = Exceptions.Raise x) <-> u = User.AnonymousUser)
  /\ ((exists x, User.organization_id u = Exceptions.Raise x)
      <-> u = User.AnonymousUser)
  /\ (u = User.AnonymousUser ->
      exists e,
        User.user_id u = Exceptions.Raise (Exceptions.Rapida e)
        /\ User.project_id u = Exceptions.Raise (Exceptions.Rapida e)
        /\ User.organization_id u = Exceptions.Raise (Exceptions.Rapida e)
        /\ Exceptions.status_code e = 401
        /\ Exceptions.error_code e = Py.VStr "RAPIDA_KN_API_3002").
Proof.
  repeat split; try (intros [x Hx]); try (intros Hu);
    try (destruct u as [a|i|]; cbn in *; try discriminate; try reflexivity;
         try (destruct (User.currentProject a); discriminate); fail).
  - subst u. eexists. reflexivity.
  - subst u. eexists. reflexivity.
  - subst u. eexists. reflexivity.
  - subst u. eexists. repeat split.
Qed.

(** ** The exception taxonomy, beyond the claims *)

(** X13.  Among the errors the subclass constructors build with their
    default status and error code, [error_code] and class determine each
    other: two errors have the same [error_code] exactly when they are of
    the same class, whatever their messages and names are; and errors of one
    class have the same status. *)
Theorem error_code_identifies_class (e1 e2 : Exceptions.RapidaExc)
    (H1 : TaxonomyStatements.Constructed e1)
    (H2 : TaxonomyStatements.Constructed e2) :
  (Exceptions.error_code e1 = Exceptions.error_code e2
   <-> Exceptions.exc_class e1 = Exceptions.exc_class e2)
  /\ (Exceptions.exc_class e1 = Exceptions.exc_class e2 ->
      Exceptions.status_code e1 = Exceptions.status_code e2).
Proof.
  destruct H1, H2; split; try split; intros H;
    try reflexivity; try discriminate H;
    vm_compute in H; discriminate H.
Qed.

(** X13 at a not-there error and an illegal-name error. *)
Lemma error_code_identifies_class_witness :
  Exceptions.error_code (Exceptions.ConnectorNotThereException "redis" "gone")
  = Exceptions.error_code (Exceptions.ConnectorIllegalNameException "s3" "unknown")
  <-> Exceptions.ConnectorNotThereException_cls
      = Exceptions.ConnectorIllegalNameException_cls.
Proof.
  apply (proj1 (error_code_identifies_class
                  (Exceptions.ConnectorNotThereException "redis" "gone")
                  (Exceptions.ConnectorIllegalNameException "s3" "unknown")
                  (TaxonomyStatements.constructed_not_there "redis" "gone")
                  (TaxonomyStatements.constructed_illegal_name "s3" "unknown"))).
Defined.

(** X14.  For every error a subclass constructor builds with its default
    status and error code, the boundary
    translator writes an envelope with [success] false, the error's status as
    [code] (one of 400, 401 and 422), the error's message as
    [error_message], and as [detail] the error code, a dash and the
    message. *)
Theorem constructed_error_envelope (e : Exceptions.RapidaExc)
    (H : TaxonomyStatements.Constructed e) :
  JResponse.success (JResponse.handle_lomotif_error e) = false
  /\ JResponse.code (JResponse.handle_lomotif_error e) = Exceptions.status_code e
  /\ (Exceptions.status_code e = 400 \/ Exceptions.status_code e = 401
      \/ Exceptions.status_code e = 422)
  /\ JResponse.error_message (JResponse.handle_lomotif_error e)
     = Exceptions.message e
  /\ JResponse.detail (JResponse.handle_lomotif_error e)
     = Py.str_of_val (Exceptions.error_code e) +:+ " - " +:+ Exceptions.message e.
Proof.
  destruct H; repeat split; cbn; auto.
Qed.

(** X14 at a client-failure error of the connector [sts]. *)
Lemma constructed_error_envelope_witness :
  JResponse.success
    (JResponse.handle_lomotif_error
       (Exceptions.ConnectorClientFailureException "timeout" "sts")) = false
  /\ JResponse.code
       (JResponse.handle_lomotif_error
          (Exceptions.ConnectorClientFailureException "timeout" "sts")) = 422
  /\ JResponse.detail
       (JResponse.handle_lomotif_error
          (Exceptions.ConnectorClientFailureException "timeout" "sts"))
     = "RAPIDA_KN_API_2001 - sts: timeout".
Proof.
  destruct (constructed_error_envelope
              (Exceptions.ConnectorClientFailureException "timeout" "sts")
              (TaxonomyStatements.constructed_client_failure "timeout" "sts"))
    as (Hsuccess & Hcode & _ & _ & Hdetail).
  split; [exact Hsuccess|]. split; [exact Hcode | exact Hdetail].
Defined.

(** ** Looking connectors up, beyond the claims *)

(** With distinct keys, the subscript gives the connector stored under the
    key. *)
Lemma getitem_distinct (d : ConnectorFactory.Datasource) (key : string)
    (c : ConnectorFactory.Connector) :
  List.NoDup (map fst d) -> In (key, c) d ->
  ConnectorFactory.getitem d key = Exceptions.Return c.
Proof.
  induction d as [|[k v] d IH]; intros Hnodup Hin; [destruct Hin|].
  cbn in *. apply List.NoDup_cons_iff in Hnodup as [Hfresh Hnodup].
  destruct Hin as [Heq|Hin].
  - injection Heq as -> ->. rewrite String.eqb_refl. reflexivity.
  - destruct (String.eqb_spec k key) as [->|_].
    + exfalso. apply Hfresh. apply (in_map fst) in Hin. exact Hin.
    + apply IH; assumption.
Qed.

(** X15.  [get_me] returns a connector exactly for the registered names; and
    in a mapping whose keys are distinct, it returns the connector stored
    under the requested name. *)
Theorem get_me_finds_registered
    (connection_name : string) (request : ConnectorFactory.Request) :
  (In connection_name (map fst (ConnectorFactory.datasource request))
   <-> exists c, ConnectorFactory.get_me connection_name request
                 = Exceptions.Return c)
  /\ (List.NoDup (map fst (ConnectorFactory.datasource request)) ->
      forall c, In (connection_name, c) (ConnectorFactory.datasource request) ->
                ConnectorFactory.get_me connection_name request
                = Exceptions.Return c).
Proof.
  unfold ConnectorFactory.get_me. split; [split|].
  - intros Hin. destruct (getitem_present _ _ Hin) as [c Hc].
    exists c. rewrite Hc. reflexivity.
  - intros [c Hc].
    destruct (in_dec string_dec connection_name
                (map fst (ConnectorFactory.datasource request))) as [Hin|Hout];
      [exact Hin|].
    rewrite (getitem_absent _ _ Hout) in Hc. discriminate.
  - intros Hnodup c Hin. rewrite (getitem_distinct _ _ _ Hnodup Hin). reflexivity.
Qed.

(** X15 at the example request, asking for [postgres]. *)
Lemma get_me_finds_registered_witness :
  ConnectorFactory.get_me "postgres" FactoryExamples.request
  = Exceptions.Return FactoryExamples.postgres.
Proof.
  apply (proj2 (get_me_finds_registered "postgres" FactoryExamples.request)).
  - cbn. repeat constructor; cbn; intuition discriminate.
  - right. left. reflexivity.
Defined.

(** X16.  The fixed-key lookups [get_me_redis], [get_me_postgres] and
    [get_me_elastic_search] raise, when their key is not registered, the
    not-there error (code RAPIDA_KN_API_2003, status 422) whose message
    names the key only; two requests without the key get the very same
    error, whatever else they hold. *)
Theorem fixed_key_lookup_not_there (request request' : ConnectorFactory.Request) :
  (~ In "redis" (map fst (ConnectorFactory.datasource request)) ->
   ConnectorFactory.get_me_redis request
   = Exceptions.Raise (Exceptions.Rapida
       (Exceptions.ConnectorNotThereException "redis" "redis is not enable in env."))
   /\ (~ In "redis" (map fst (ConnectorFactory.datasource request')) ->
       ConnectorFactory.get_me_redis request'
       = ConnectorFactory.get_me_redis request))
  /\ (~ In "postgres" (map fst (ConnectorFactory.datasource request)) ->
      ConnectorFactory.get_me_postgres request
      = Exceptions.Raise (Exceptions.Rapida
          (Exceptions.ConnectorNotThereException "postgres"
             "postgres is not enable in env.")))
  /\ (~ In "elastic_search" (map fst (ConnectorFactory.datasource request)) ->
      ConnectorFactory.get_me_elastic_search request
      = Exceptions.Raise (Exceptions.Rapida
          (Exceptions.ConnectorNotThereException "elastic_search"
             "elastic_search is not enable in env.")))
  /\ Exceptions.error_code
       (Exceptions.ConnectorNotThereException "redis" "redis is not enable in env.")
     = Py.VStr "RAPIDA_KN_API_2003"
  /\ Exceptions.message
       (Exceptions.ConnectorNotThereException "redis" "redis is not enable in env.")
     = "redis: redis is not enable in env.".
Proof.
  unfold ConnectorFactory.get_me_redis, ConnectorFactory.get_me_postgres,
    ConnectorFactory.get_me_elastic_search, ConnectorFactory.get_me_fixed.
  split; [|split; [|split; [|split; reflexivity]]].
  - intros H. split.
    + rewrite (getitem_absent _ _ H). reflexivity.
    + intros H'. rewrite (getitem_absent _ _ H), (getitem_absent _ _ H').
      reflexivity.
  - intros H. rewrite (getitem_absent _ _ H). reflexivity.
  - intros H. rewrite (getitem_absent _ _ H). reflexivity.
Qed.

(** X16 at a request that holds no connector. *)
Lemma fixed_key_lookup_not_there_witness :
  ConnectorFactory.get_me_redis {| ConnectorFactory.datasource := [] |}
  = Exceptions.Raise (Exceptions.Rapida
      (Exceptions.ConnectorNotThereException "redis" "redis is not enable in env.")).
Proof.
  apply (proj1 (proj1 (fixed_key_lookup_not_there
                         {| ConnectorFactory.datasource := [] |}
                         {| ConnectorFactory.datasource := [] |})
                  (fun absent : In "redis" [] => absent))).
Defined.

(** ** Building the connector list *)

Section RegistryFacts.
Import Registry RegistryStatements.

Lemma attach_field_known enabled key value :
  attach_field enabled key value
  = (enabled ++ match value with
                | RedisValue config => [RedisConnector config key]
                | ElasticSearchValue config => [ElasticSearchConnector config key]
                | PostgresValue config => [PostgresConnector config key]
                | OtherValue _ => []
                end)%list.
Proof. destruct value; cbn; rewrite ?app_nil_r; reflexivity. Qed.

(** The loop only appends to what it was given. *)
Lemma attach_loop_app fields : forall enabled,
  attach_loop fields enabled = (enabled ++ attach_loop fields [])%list.
Proof.
  induction fields as [|[key value] fields IH]; intros enabled; cbn.
  - rewrite app_nil_r. reflexivity.
  - rewrite IH, (IH (attach_field [] key value)), !attach_field_known.
    cbn [app]. rewrite app_assoc. reflexivity.
Qed.

Lemma attach_connectors_cons key value fields :
  attach_connectors ((key, value) :: fields)
  = (attach_field [] key value ++ attach_connectors fields)%list.
Proof. unfold attach_connectors. cbn. apply attach_loop_app. Qed.

End RegistryFacts.

(** X17.  [attach_connectors] builds one connector for each field that
    holds a Redis, Elasticsearch or Postgres configuration, of the matching
    kind, bound to that configuration and named after the field, in field
    order; every other field contributes nothing. *)
Theorem attach_connectors_one_per_known_field (setting : Registry.ApplicationSettings) :
  Forall2 RegistryStatements.built_from
    (Registry.attach_connectors setting)
    (List.filter RegistryStatements.is_known setting)
  /\ map Registry.enabled_name (Registry.attach_connectors setting)
     = map fst (List.filter RegistryStatements.is_known setting).
Proof.
  induction setting as [|[key value] setting [IHbuilt IHnames]].
  - split; [constructor | reflexivity].
  - rewrite attach_connectors_cons, attach_field_known.
    destruct value; cbn; split;
      try (constructor; [cbn; split; reflexivity | exact IHbuilt]);
      try exact IHbuilt; try (f_equal; exact IHnames); exact IHnames.
Qed.

(** X18.  When the field names are distinct, so are the names of the
    connectors built, and there are no more connectors than fields. *)
Theorem attach_connectors_names_distinct (setting : Registry.ApplicationSettings)
    (Hdistinct : List.NoDup (map fst setting)) :
  List.NoDup (map Registry.enabled_name (Registry.attach_connectors setting))
  /\ (length (Registry.attach_connectors setting) <= length setting)%nat.
Proof.
  destruct (attach_connectors_one_per_known_field setting) as [_ Hnames].
  split.
  - rewrite Hnames. clear Hnames.
    induction setting as [|[key value] setting IH]; [constructor|].
    cbn in Hdistinct. apply List.NoDup_cons_iff in Hdistinct as [Hfresh Hdistinct].
    cbn. destruct (RegistryStatements.is_known (key, value)); [|auto].
    cbn. apply List.NoDup_cons; [|auto].
    intros Hin. apply Hfresh.
    apply in_map_iff in Hin as ([k v] & Hk & Hin). cbn in Hk. subst k.
    apply filter_In in Hin as [Hin _]. apply (in_map fst) in Hin. exact Hin.
  - rewrite <- (length_map Registry.enabled_name), Hnames, length_map.
    clear. induction setting as [|field setting IH]; cbn; [lia|].
    destruct (RegistryStatements.is_known field); cbn; lia.
Qed.

(** X18 at settings with four fields, two of them known. *)
Lemma attach_connectors_names_distinct_witness :
  List.NoDup (map Registry.enabled_name
           (Registry.attach_connectors RegistryExamples.settings))
  /\ (length (Registry.attach_connectors RegistryExamples.settings) <= 4)%nat.
Proof.
  apply (attach_connectors_names_distinct RegistryExamples.settings).
  cbn. repeat constructor; cbn; intuition discriminate.
Defined.

(** ** The readiness probe *)

Section ReadinessFacts.
Import Py Exceptions ConnectorFactory HealthCheck.

Variable is_connected : Connector -> Result bool.
Variable connectors : Datasource.

(** Over items that the mapping gives back under their keys and whose
    probes answer, the loop appends one entry per item. *)
Lemma readiness_loop_answers items : forall answers connections_status,
  (forall item, In item items -> getitem connectors (fst item) = Return (snd item)) ->
  Forall2 (fun item answer => is_connected (snd item) = Return answer)
    items answers ->
  readiness_loop is_connected connectors (map fst items) connections_status
  = Return (connections_status ++ combine (map fst items) answers)%list.
Proof.
  induction items as [|item items IH]; intros answers status Hlookup Hanswers.
  - inversion Hanswers. cbn. rewrite app_nil_r. reflexivity.
  - inversion Hanswers as [|? answer ? rest Hanswer Hrest]; subst.
    cbn. rewrite (Hlookup item (or_introl eq_refl)). cbn [bind].
    rewrite Hanswer. cbn [bind].
    rewrite (IH rest); [|intros i Hi; apply Hlookup; right; exact Hi | exact Hrest].
    rewrite <- app_assoc. reflexivity.
Qed.

(** The first probe that raises ends the loop with what it raised. *)
Lemma readiness_loop_failure before item after x : forall answers connections_status,
  (forall i, In i (before ++ item :: after)%list ->
             getitem connectors (fst i) = Return (snd i)) ->
  Forall2 (fun i answer => is_connected (snd i) = Return answer) before answers ->
  is_connected (snd item) = Raise x ->
  readiness_loop is_connected connectors
    (map fst (before ++ item :: after)%list) connections_status
  = Raise x.
Proof.
  induction before as [|b before IH]; intros answers status Hlookup Hanswers Hfail.
  - cbn. rewrite (Hlookup item (or_introl eq_refl)). cbn [bind].
    rewrite Hfail. reflexivity.
  - inversion Hanswers as [|? answer ? rest Hanswer Hrest]; subst.
    cbn. rewrite (Hlookup b (or_introl eq_refl)). cbn [bind].
    rewrite Hanswer. cbn [bind].
    apply (IH rest); [intros i Hi; apply Hlookup; right; exact Hi | exact Hrest
                     | exact Hfail].
Qed.

End ReadinessFacts.

(** X19.  When every probe answers, [readiness] reports every registered
    connector once, under its key and in the order of the mapping, with the
    answer of its probe; an answer of [False] is reported like any other and
    fails nothing. *)
Theorem readiness_reports_every_connector
    (is_connected : ConnectorFactory.Connector -> Exceptions.Result bool)
    (connectors : ConnectorFactory.Datasource) (answers : list bool)
    (Hdistinct : List.NoDup (map fst connectors))
    (Hanswers : Forall2 (fun item answer =>
                           is_connected (snd item) = Exceptions.Return answer)
                  connectors answers) :
  HealthCheck.readiness is_connected connectors
  = Exceptions.Return (combine (map fst connectors) answers)
  /\ map fst (combine (map fst connectors) answers) = map fst connectors.
Proof.
  split.
  - unfold HealthCheck.readiness.
    rewrite (readiness_loop_answers is_connected connectors connectors answers []);
      [reflexivity | | exact Hanswers].
    intros [k c] Hin. apply getitem_distinct; assumption.
  - clear Hdistinct. induction Hanswers as [|item answer items rest _ _ IH];
      [reflexivity|]. cbn. rewrite IH. reflexivity.
Qed.

(** X19 at Redis answering [False] and Postgres answering [True]. *)
Lemma readiness_reports_every_connector_witness :
  HealthCheck.readiness ProbeExamples.answers
    (ConnectorFactory.datasource FactoryExamples.request)
  = Exceptions.Return [("redis", false); ("postgres", true)].
Proof.
  apply (proj1 (readiness_reports_every_connector ProbeExamples.answers
                  (ConnectorFactory.datasource FactoryExamples.request)
                  [false; true]
                  ltac:(cbn; repeat constructor; cbn; intuition discriminate)
                  ltac:(repeat constructor))).
Defined.

(** X20.  A probe that raises is not reported per resource: [readiness]
    raises what the first such probe raised, and returns no status at
    all. *)
Theorem readiness_propagates_probe_failure
    (is_connected : ConnectorFactory.Connector -> Exceptions.Result bool)
    (before after : ConnectorFactory.Datasource)
    (item : string * ConnectorFactory.Connector) (answers : list bool)
    (x : Exceptions.Exc)
    (Hdistinct : List.NoDup (map fst (before ++ item :: after)%list))
    (Hanswers : Forall2 (fun i answer =>
                           is_connected (snd i) = Exceptions.Return answer)
                  before answers)
    (Hfails : is_connected (snd item) = Exceptions.Raise x) :
  HealthCheck.readiness is_connected (before ++ item :: after)%list
  = Exceptions.Raise x.
Proof.
  unfold HealthCheck.readiness.
  apply (readiness_loop_failure is_connected _ before item after x answers []);
    [|exact Hanswers | exact Hfails].
  intros [k c] Hin. apply getitem_distinct; assumption.
Qed.

(** X20 at Postgres refusing the connection. *)
Lemma readiness_propagates_probe_failure_witness :
  HealthCheck.readiness ProbeExamples.postgres_down
    (ConnectorFactory.datasource FactoryExamples.request)
  = Exceptions.Raise (Exceptions.ConnectionError "connection refused").
Proof.
  apply (readiness_propagates_probe_failure ProbeExamples.postgres_down
           [("redis", FactoryExamples.redis)] []
           ("postgres", FactoryExamples.postgres) [true]
           (Exceptions.ConnectionError "connection refused")
           ltac:(cbn; repeat constructor; cbn; intuition discriminate)
           ltac:(repeat constructor) eq_refl).
Defined.

(** ** Paginated responses *)

Section PaginationFacts.
Import Py Exceptions Pagination PaginationStatements.

Variable p : PaginatedModel.
Variables o l : Z.
Hypothesis Hoffset : offset (param p) = Some o.
Hypothesis Hlimit : limit (param p) = Some l.

Lemma previous_value :
  previous p = Return (if o - l <? 0 then None else Some (link p (o - l))).
Proof.
  unfold previous, link, term_key. rewrite Hoffset, Hlimit. cbn [arith bind].
  destruct (o - l <? 0); reflexivity.
Qed.

Lemma next_value :
  next p = Return (if count p - (o + l) <? 1 then None else Some (link p (o + l))).
Proof.
  unfold next, link, term_key. rewrite Hoffset, Hlimit. cbn [arith bind].
  destruct (count p - (o + l) <? 1); reflexivity.
Qed.

End PaginationFacts.

(** X21.  With integer [offset] and [limit]: there is no previous link
    exactly when [offset < limit], and no next link exactly when
    [offset + limit >= count]; a previous link points at offset
    [offset - limit], which is not negative, and a next link at
    [offset + limit], which is below [count]. *)
Theorem pagination_links_stay_inside
    (p : Pagination.PaginatedModel) (o l : Z)
    (Hoffset : Pagination.offset (Pagination.param p) = Some o)
    (Hlimit : Pagination.limit (Pagination.param p) = Some l) :
  (Pagination.previous p = Exceptions.Return None <-> o < l)
  /\ (Pagination.next p = Exceptions.Return None <-> Pagination.count p <= o + l)
  /\ (forall u, Pagination.previous p = Exceptions.Return (Some u) ->
                u = PaginationStatements.link p (o - l) /\ 0 <= o - l)
  /\ (forall u, Pagination.next p = Exceptions.Return (Some u) ->
                u = PaginationStatements.link p (o + l)
                /\ o + l < Pagination.count p).
Proof.
  rewrite (previous_value p o l Hoffset Hlimit), (next_value p o l Hoffset Hlimit).
  destruct (Z.ltb_spec (o - l) 0), (Z.ltb_spec (Pagination.count p - (o + l)) 1);
    repeat split; intros; try discriminate; try lia;
    try (match goal with H : Exceptions.Return _ = Exceptions.Return _ |- _ =>
           injection H as <- end; reflexivity).
Qed.

(** X21 at the second page of ten of 25 results. *)
Lemma pagination_links_stay_inside_witness :
  (Pagination.previous PaginationExamples.page = Exceptions.Return None <-> 10 < 10)
  /\ (Pagination.next PaginationExamples.page = Exceptions.Return None
      <-> 25 <= 10 + 10).
Proof.
  destruct (pagination_links_stay_inside PaginationExamples.page 10 10
              eq_refl eq_refl) as (Hprevious & Hnext & _).
  split; [exact Hprevious | exact Hnext].
Defined.

(** X22.  Going forth and back gives the page one came from: when a page at
    a non-negative offset has a next link, the page that link points at has
    a previous link, to the offset one started from; and when a page at an
    offset below [count] has a previous link, the page that link points at
    has a next link back. *)
Theorem pagination_next_previous_round_trip
    (p : Pagination.PaginatedModel) (o l : Z)
    (Hoffset : Pagination.offset (Pagination.param p) = Some o)
    (Hlimit : Pagination.limit (Pagination.param p) = Some l) :
  (forall u, 0 <= o ->
             Pagination.next p = Exceptions.Return (Some u) ->
             Pagination.previous (PaginationStatements.with_offset p (o + l))
             = Exceptions.Return (Some (PaginationStatements.link p o)))
  /\ (forall u, o < Pagination.count p ->
                Pagination.previous p = Exceptions.Return (Some u) ->
                Pagination.next (PaginationStatements.with_offset p (o - l))
                = Exceptions.Return (Some (PaginationStatements.link p o))).
Proof.
  split; intros u Hbound Hlink.
  - rewrite (previous_value (PaginationStatements.with_offset p (o + l)) (o + l) l
               eq_refl Hlimit).
    replace (o + l - l) with o by lia.
    destruct (Z.ltb_spec o 0); [lia | reflexivity].
  - rewrite (next_value (PaginationStatements.with_offset p (o - l)) (o - l) l
               eq_refl Hlimit).
    replace (o - l + l) with o by lia. cbn [Pagination.count PaginationStatements.with_offset].
    destruct (Z.ltb_spec (Pagination.count p - o) 1); [lia | reflexivity].
Qed.

(** X22 at the second page of ten of 25 results. *)
Lemma pagination_next_previous_round_trip_witness :
  Pagination.previous
    (PaginationStatements.with_offset PaginationExamples.page 20)
  = Exceptions.Return
      (Some "https://api.example.org/search?term=cats&offset=10&limit=10").
Proof.
  apply (proj1 (pagination_next_previous_round_trip PaginationExamples.page 10 10
                  eq_refl eq_refl)
           "https://api.example.org/search?term=cats&offset=20&limit=10").
  - lia.
  - reflexivity.
Defined.

(** X23.  When [offset] or [limit] is missing from [param], both links of
    the base model raise a [TypeError] instead of returning [None], and so
    does the next link of the two subclasses; their previous link reads
    nothing and is [None]. *)
Theorem pagination_missing_param_raises (p : Pagination.PaginatedModel)
    (Hmissing : Pagination.offset (Pagination.param p) = None
                \/ Pagination.limit (Pagination.param p) = None) :
  (exists msg, Pagination.previous p
               = Exceptions.Raise (Exceptions.OtherError "TypeError" msg))
  /\ (exists msg, Pagination.next p
                  = Exceptions.Raise (Exceptions.OtherError "TypeError" msg))
  /\ (exists msg, Pagination.user_list_next p
                  = Exceptions.Raise (Exceptions.OtherError "TypeError" msg))
  /\ (exists msg, Pagination.searchable_next p
                  = Exceptions.Raise (Exceptions.OtherError "TypeError" msg))
  /\ Pagination.user_list_previous p = Exceptions.Return None
  /\ Pagination.searchable_previous p = Exceptions.Return None.
Proof.
  unfold Pagination.previous, Pagination.next, Pagination.user_list_next,
    Pagination.searchable_next.
  destruct (Pagination.offset (Pagination.param p)) as [o|],
           (Pagination.limit (Pagination.param p)) as [l|];
    try (destruct Hmissing; discriminate);
    repeat split; eexists; reflexivity.
Qed.

(** X23 at a request without [limit]. *)
Lemma pagination_missing_param_raises_witness :
  exists msg,
    Pagination.next PaginationExamples.page_without_limit
    = Exceptions.Raise (Exceptions.OtherError "TypeError" msg).
Proof.
  apply (proj1 (proj2 (pagination_missing_param_raises
                         PaginationExamples.page_without_limit
                         (or_intror eq_refl)))).
Defined.

(** ** Snowflake identifiers *)

Section SnowflakeFacts.
Import Snowflake.

(** A value shifted left by [k] shares no bit with a value below [2 ^ k], so
    their bitwise or is their sum. *)
Lemma lor_shiftl_small (a b k : Z) :
  0 <= k -> 0 <= b < 2 ^ k -> Z.lor (Z.shiftl a k) b = a * 2 ^ k + b.
Proof.
  intros Hk Hb.
  assert (Hdisjoint : Z.land (Z.shiftl a k) b = 0).
  { apply Z.bits_inj'. intros i Hi.
    rewrite Z.land_spec, Z.bits_0.
    destruct (Z.lt_ge_cases i k) as [Hlt|Hge].
    - rewrite Z.shiftl_spec_low by exact Hlt. reflexivity.
    - apply andb_false_iff. right.
      destruct (Z.eq_dec b 0) as [->|Hne]; [apply Z.bits_0|].
      apply Z.bits_above_log2; [lia|].
      apply Z.lt_le_trans with (m := k); [|exact Hge].
      apply Z.log2_lt_pow2; lia. }
  rewrite <- (Z.lxor_lor _ _ Hdisjoint), <- (Z.add_nocarry_lxor _ _ Hdisjoint).
  rewrite Z.shiftl_mul_pow2 by exact Hk. reflexivity.
Qed.

(** The identifier as a number: the three fields side by side. *)
Lemma snowflake_value (d : Draw) :
  in_range d ->
  generate_snowflake_id d
  = (timestamp d * 1024 + node_id d) * 4096 + sequence d.
Proof.
  intros (Htime & Hnode & Hsequence). unfold generate_snowflake_id.
  replace (Z.shiftl (timestamp d) 22) with (Z.shiftl (Z.shiftl (timestamp d) 10) 12)
    by (rewrite Z.shiftl_shiftl by lia; reflexivity).
  rewrite <- Z.shiftl_lor.
  rewrite (lor_shiftl_small (timestamp d) (node_id d) 10) by lia.
  rewrite (lor_shiftl_small _ (sequence d) 12) by lia.
  reflexivity.
Qed.

End SnowflakeFacts.

(** X24.  The three fields can be read back from an identifier: the
    timestamp by shifting right by 22, the node by shifting right by 12 and
    masking ten bits, the sequence by masking twelve bits. *)
Theorem snowflake_fields_read_back (d : Snowflake.Draw)
    (Hrange : Snowflake.in_range d) :
  Z.shiftr (Snowflake.generate_snowflake_id d) 22 = Snowflake.timestamp d
  /\ Z.land (Z.shiftr (Snowflake.generate_snowflake_id d) 12) 1023
     = Snowflake.node_id d
  /\ Z.land (Snowflake.generate_snowflake_id d) 4095 = Snowflake.sequence d.
Proof.
  rewrite (snowflake_value d Hrange).
  destruct Hrange as (Htime & Hnode & Hsequence).
  change 1023 with (Z.ones 10). change 4095 with (Z.ones 12).
  rewrite !Z.land_ones, !Z.shiftr_div_pow2 by lia.
  change (2 ^ 22) with 4194304. change (2 ^ 12) with 4096.
  change (2 ^ 10) with 1024.
  assert (Hhigh : ((Snowflake.timestamp d * 1024 + Snowflake.node_id d) * 4096
                   + Snowflake.sequence d) / 4096
                  = Snowflake.timestamp d * 1024 + Snowflake.node_id d).
  { symmetry. apply Z.div_unique with (r := Snowflake.sequence d); lia. }
  repeat split.
  - symmetry.
    apply Z.div_unique
      with (r := Snowflake.node_id d * 4096 + Snowflake.sequence d); lia.
  - rewrite Hhigh. symmetry.
    apply Z.mod_unique with (q := Snowflake.timestamp d); lia.
  - symmetry.
    apply Z.mod_unique
      with (q := Snowflake.timestamp d * 1024 + Snowflake.node_id d); lia.
Qed.

(** X24 at a draw with the largest node and sequence. *)
Lemma snowflake_fields_read_back_witness :
  Z.shiftr (Snowflake.generate_snowflake_id SnowflakeExamples.early) 22
  = 1700000000000
  /\ Z.land (Z.shiftr (Snowflake.generate_snowflake_id SnowflakeExamples.early) 12)
       1023 = 1023
  /\ Z.land (Snowflake.generate_snowflake_id SnowflakeExamples.early) 4095 = 4095.
Proof.
  apply (snowflake_fields_read_back SnowflakeExamples.early).
  unfold Snowflake.in_range. cbn. lia.
Defined.

(** X25.  Identifiers are not negative, they sort by timestamp whatever the
    random draws are, and two draws give the same identifier only when they
    agree on timestamp, node and sequence. *)
Theorem snowflake_ordered_by_timestamp (d1 d2 : Snowflake.Draw)
    (Hrange1 : Snowflake.in_range d1) (Hrange2 : Snowflake.in_range d2) :
  0 <= Snowflake.generate_snowflake_id d1
  /\ (Snowflake.timestamp d1 < Snowflake.timestamp d2 ->
      Snowflake.generate_snowflake_id d1 < Snowflake.generate_snowflake_id d2)
  /\ (Snowflake.generate_snowflake_id d1 = Snowflake.generate_snowflake_id d2 ->
      d1 = d2).
Proof.
  rewrite (snowflake_value d1 Hrange1), (snowflake_value d2 Hrange2).
  pose proof Hrange1 as (Htime1 & Hnode1 & Hsequence1).
  pose proof Hrange2 as (Htime2 & Hnode2 & Hsequence2).
  repeat split; try lia.
  intros Hsame. destruct d1 as [t1 n1 s1], d2 as [t2 n2 s2]. cbn in *.
  assert (t1 = t2) by lia. assert (n1 = n2) by lia. assert (s1 = s2) by lia.
  subst. reflexivity.
Qed.

(** X25 at two draws one millisecond apart, the earlier with the largest
    node and sequence. *)
Lemma snowflake_ordered_by_timestamp_witness :
  Snowflake.generate_snowflake_id SnowflakeExamples.early
  < Snowflake.generate_snowflake_id SnowflakeExamples.late.
Proof.
  apply (proj1 (proj2 (snowflake_ordered_by_timestamp
                         SnowflakeExamples.early SnowflakeExamples.late
                         ltac:(unfold Snowflake.in_range; cbn; lia)
                         ltac:(unfold Snowflake.in_range; cbn; lia)))).
  cbn. lia.
Defined.

(** ** S3 storage *)

(** X26.  [exists] never raises: it answers [True] when [head_object]
    returned and [False] for everything it raised.  [load_once] returns the
    bytes read; it turns the client error [NoSuchKey] into
    [FileNotFoundError], and lets every other exception out as it is. *)
Theorem s3_exists_never_raises_load_maps_missing_key
    (self : S3Storage.S3Storage) (filename : string) :
  (S3Storage.exists_ self filename
   = Exceptions.Return
       (match S3Storage.head_object (S3Storage.client self)
                (S3Storage.bucket_name self) filename with
        | Exceptions.Return _ => true
        | Exceptions.Raise _ => false
        end))
  /\ (forall data,
        S3Storage.get_object (S3Storage.client self)
          (S3Storage.bucket_name self) filename = Exceptions.Return data ->
        S3Storage.load_once self filename = Exceptions.Return data)
  /\ (forall msg,
        S3Storage.get_object (S3Storage.client self)
          (S3Storage.bucket_name self) filename
        = Exceptions.Raise (Exceptions.ClientError "NoSuchKey" msg) ->
        S3Storage.load_once self filename
        = Exceptions.Raise
            (Exceptions.OtherError "FileNotFoundError" "File not found"))
  /\ (forall x,
        S3Storage.get_object (S3Storage.client self)
          (S3Storage.bucket_name self) filename = Exceptions.Raise x ->
        (forall msg, x <> Exceptions.ClientError "NoSuchKey" msg) ->
        S3Storage.load_once self filename = Exceptions.Raise x).
Proof.
  unfold S3Storage.exists_, S3Storage.load_once.
  split; [|split; [|split]].
  - destruct (S3Storage.head_object _ _ _) as [[]|x]; reflexivity.
  - intros data ->. reflexivity.
  - intros msg ->. reflexivity.
  - intros x -> Hother. destruct x; try reflexivity. cbn.
    destruct (String.eqb_spec code "NoSuchKey") as [->|_]; [|reflexivity].
    exfalso. apply (Hother msg). reflexivity.
Qed.

(** X26 at a bucket with one object: a missing key and a denied one. *)
Lemma s3_exists_never_raises_load_maps_missing_key_witness :
  S3Storage.load_once S3Examples.storage "missing.pdf"
  = Exceptions.Raise (Exceptions.OtherError "FileNotFoundError" "File not found")
  /\ S3Storage.load_once S3Examples.storage "locked.pdf"
     = Exceptions.Raise (Exceptions.ClientError "AccessDenied" "Access Denied")
  /\ S3Storage.exists_ S3Examples.storage "missing.pdf" = Exceptions.Return false.
Proof.
  pose proof (s3_exists_never_raises_load_maps_missing_key
                S3Examples.storage "missing.pdf") as (Hexists & _ & Hmissing & _).
  pose proof (s3_exists_never_raises_load_maps_missing_key
                S3Examples.storage "locked.pdf") as (_ & _ & _ & Hother).
  split; [|split].
  - apply (Hmissing "The specified key does not exist."). reflexivity.
  - apply Hother; [reflexivity | discriminate].
  - exact Hexists.
Defined.

(** ** The credential store, beyond the claims *)

Section CacheFrame.
Import Py Exceptions Sts CacheStatements.

Variable self : STSConnector.
Variable session_name : string.
Variable kwargs : list (string * string).
Variable env : Environment.
Variable w : World.

(** What a call that misses leaves behind: a store that is the old one with
    the session's entry either replaced (when a credential is returned) or
    removed (when something is raised); and one more request, unless Python
    refused the call of [_operate]. *)
Lemma cache_miss_shape :
  absent_or_expired env w session_name ->
  match (get_temporary_credentials self session_name kwargs env w).1.1 with
  | Return credential =>
      credentials_store
        (get_temporary_credentials self session_name kwargs env w).2
      = <[session_name := (credential, time_at_store env)]>
          (credentials_store w)
  | Raise _ =>
      credentials_store
        (get_temporary_credentials self session_name kwargs env w).2
      = delete session_name (credentials_store w)
  end
  /\ if call_refused self kwargs
     then calls (get_temporary_credentials self session_name kwargs env w).2
          = calls w
     else exists request,
          calls (get_temporary_credentials self session_name kwargs env w).2
          = (calls w ++ [request])%list.
Proof.
  intros Hmiss. unfold call_refused.
  destruct (assume_role (_aws_config self)) as [[|c rest]|] eqn:Hrole.
  - rewrite cache_miss_without_role by (try rewrite Hrole; done).
    cbn [opt_str_truthy str_truthy andb].
    destruct (frozen_credentials_reply env (get_session self env));
      (split; [reflexivity | eexists; reflexivity]).
  - cbn [opt_str_truthy str_truthy andb].
    destruct (keyword_collision kwargs) as [type_error|] eqn:Hcollision.
    + rewrite (cache_miss_collision self session_name kwargs env w
                 (String c rest) type_error) by done.
      split; reflexivity.
    + rewrite (cache_miss_with_role self session_name kwargs env w (String c rest))
        by done.
      destruct (try_except _ _); (split; [reflexivity | eexists; reflexivity]).
  - rewrite cache_miss_without_role by (try rewrite Hrole; done).
    cbn [opt_str_truthy andb].
    destruct (frozen_credentials_reply env (get_session self env));
      (split; [reflexivity | eexists; reflexivity]).
Qed.

End CacheFrame.

(** X27.  A call touches the entry of its own session name only: whatever
    it returns or raises, the entry of every other session name is as it
    was. *)
Theorem other_sessions_untouched
    (self : Sts.STSConnector) (session_name other : string)
    (kwargs : list (string * string)) (env : Sts.Environment) (w : Sts.World)
    (Hother : other <> session_name) :
  Sts.credentials_store
    (Sts.get_temporary_credentials self session_name kwargs env w).2 !! other
  = Sts.credentials_store w !! other.
Proof.
  destruct (live_or_missing env w session_name)
    as [(cached & issued & Hentry & Hlive)|Hmiss].
  - rewrite (cache_hit self session_name kwargs env w cached issued Hentry Hlive).
    reflexivity.
  - destruct (cache_miss_shape self session_name kwargs env w Hmiss)
      as (Hstore & _).
    destruct ((Sts.get_temporary_credentials self session_name kwargs env w).1.1);
      rewrite Hstore.
    + apply lookup_insert_ne. congruence.
    + apply lookup_delete_ne. congruence.
Qed.

(** X27 at a call for [other] that resolves, with an entry for [indexer] in
    the store. *)
Lemma other_sessions_untouched_witness :
  Sts.credentials_store
    (Sts.get_temporary_credentials StsExamples.with_role "other" []
       (StsExamples.answering 5000) StsExamples.world_with_entry).2 !! "indexer"
  = Some (StsExamples.cached, 1000%Q).
Proof.
  rewrite (other_sessions_untouched StsExamples.with_role "other" "indexer" []
             (StsExamples.answering 5000) StsExamples.world_with_entry
             ltac:(discriminate)).
  reflexivity.
Defined.

(** X28.  A call sends at most one request, after the requests sent before
    it.  It sends none exactly when the session has an entry aged less than
    600 seconds, or when a role is configured and a keyword argument is
    named [RoleArn], [RoleSessionName], [operation] or [self], so that
    Python refuses the call of [_operate]. *)
Theorem at_most_one_request_per_call
    (self : Sts.STSConnector) (session_name : string)
    (kwargs : list (string * string)) (env : Sts.Environment) (w : Sts.World) :
  (Sts.calls (Sts.get_temporary_credentials self session_name kwargs env w).2
   = Sts.calls w
   \/ exists request,
        Sts.calls (Sts.get_temporary_credentials self session_name kwargs env w).2
        = (Sts.calls w ++ [request])%list)
  /\ (Sts.calls (Sts.get_temporary_credentials self session_name kwargs env w).2
      = Sts.calls w
      <-> (exists credential issued,
             Sts.credentials_store w !! session_name = Some (credential, issued)
             /\ (CacheStatements.age env issued < 600)%Q)
          \/ CacheStatements.call_refused self kwargs = true).
Proof.
  destruct (live_or_missing env w session_name)
    as [(cached & issued & Hentry & Hlive)|Hmiss].
  - rewrite (cache_hit self session_name kwargs env w cached issued Hentry Hlive).
    split; [left; reflexivity|]. split; [|reflexivity].
    intros _. left. exists cached, issued. split; assumption.
  - destruct (cache_miss_shape self session_name kwargs env w Hmiss)
      as (_ & Hcalls).
    destruct (CacheStatements.call_refused self kwargs).
    + rewrite Hcalls. split; [left; reflexivity|]. split; [|reflexivity].
      intros _. right. reflexivity.
    + destruct Hcalls as [request Hcalls]. rewrite Hcalls.
      split; [right; exists request; reflexivity|]. split.
      * intros Hsame. apply (f_equal (@length _)) in Hsame.
        rewrite length_app in Hsame. cbn in Hsame. lia.
      * intros [(credential & issued & Hentry & Hlive)|Hrefused];
          [|discriminate]. exfalso.
        unfold CacheStatements.absent_or_expired in Hmiss. rewrite Hentry in Hmiss.
        exact (Qlt_not_le _ _ Hlive Hmiss).
Qed.

(** X28 at a role and a keyword argument named [RoleArn]: nothing is
    sent. *)
Lemma at_most_one_request_per_call_witness :
  Sts.calls
    (Sts.get_temporary_credentials StsExamples.with_role "indexer"
       [("RoleArn", "arn:aws:iam::123456789012:role/other")]
       (StsExamples.answering 5) StsExamples.empty_world).2
  = Sts.calls StsExamples.empty_world.
Proof.
  apply (proj2 (proj2 (at_most_one_request_per_call StsExamples.with_role
                         "indexer"
                         [("RoleArn", "arn:aws:iam::123456789012:role/other")]
                         (StsExamples.answering 5) StsExamples.empty_world))).
  right. reflexivity.
Defined.

(** X29.  What a call raises is never cached: after a call that raised,
    whichever resolution it used, the session has no entry and the rest of
    the store is as before; so the next call for that session, by any
    connector, sends a request again, unless Python refuses its call of
    [_operate] for the keyword arguments. *)
Theorem raised_call_leaves_no_entry
    (self self' : Sts.STSConnector) (session_name : string)
    (kwargs kwargs' : list (string * string)) (env env' : Sts.Environment)
    (w w' : Sts.World) (x : Exceptions.Exc) (next_caller : Sts.STSConnector)
    (Hraised : Sts.get_temporary_credentials self session_name kwargs env w
               = (Exceptions.Raise x, self', w')) :
  Sts.credentials_store w' !! session_name = None
  /\ Sts.credentials_store w' = delete session_name (Sts.credentials_store w)
  /\ (CacheStatements.call_refused next_caller kwargs' = false ->
      exists request,
        Sts.calls (Sts.get_temporary_credentials next_caller session_name
                     kwargs' env' w').2
        = (Sts.calls w' ++ [request])%list).
Proof.
  assert (Hstore : Sts.credentials_store w'
                   = delete session_name (Sts.credentials_store w)).
  { destruct (live_or_missing env w session_name)
      as [(cached & issued & Hentry & Hlive)|Hmiss].
    - rewrite (cache_hit self session_name kwargs env w cached issued Hentry Hlive)
        in Hraised. discriminate.
    - destruct (cache_miss_shape self session_name kwargs env w Hmiss)
        as (Hshape & _).
      rewrite Hraised in Hshape. exact Hshape. }
  assert (Hnone : Sts.credentials_store w' !! session_name = None).
  { rewrite Hstore. apply lookup_delete_eq. }
  split; [exact Hnone|]. split; [exact Hstore|].
  intros Haccepted.
  destruct (cache_miss_shape next_caller session_name kwargs' env' w')
    as (_ & Hcalls).
  - unfold CacheStatements.absent_or_expired. rewrite Hnone. exact I.
  - rewrite Haccepted in Hcalls. exact Hcalls.
Qed.

(** X29 at an expired entry with AWS out of reach, retried by a connector
    without a role. *)
Lemma raised_call_leaves_no_entry_witness :
  exists w' request,
    Sts.credentials_store w' !! "indexer" = None
    /\ Sts.calls (Sts.get_temporary_credentials StsExamples.without_role
                    "indexer" [] (StsExamples.answering 1800) w').2
       = (Sts.calls w' ++ [request])%list.
Proof.
  destruct (raised_call_leaves_no_entry StsExamples.with_role
              (Sts.connect StsExamples.with_role (StsExamples.unreachable 1700))
              "indexer" [] [] (StsExamples.unreachable 1700)
              (StsExamples.answering 1800) StsExamples.world_with_entry
              (CacheStatements.after_call
                 (delete "indexer"
                    (Sts.credentials_store StsExamples.world_with_entry))
                 (Sts.AssumeRole "arn:aws:iam::123456789012:role/indexer"
                    "indexer" [])
                 StsExamples.world_with_entry)
              (Exceptions.Rapida
                 (Exceptions.ConnectorClientFailureException
                    "Could not connect to the endpoint URL" "sts"))
              StsExamples.without_role eq_refl)
    as (Hnone & _ & Hnext).
  destruct (Hnext eq_refl) as [request Hcalls].
  eexists. exists request. split; [exact Hnone | exact Hcalls].
Defined.

(** X30.  [_operate] lets nothing out but the client-failure error of the
    connector [sts]: a reply is returned as it is, and every exception of
    the client becomes that error, with the text of the exception as
    message, or [Illegal region for sts.] for the disabled-region client
    error.  The request is recorded, and a session that was already there is
    kept. *)
Theorem operate_wraps_every_failure
    (A : Type) (self : Sts.STSConnector) (env : Sts.Environment)
    (request : Sts.Call) (reply : Exceptions.Result A) (w : Sts.World) :
  (Sts._operate self env request reply w).1.1
  = match reply with
    | Exceptions.Return a => Exceptions.Return a
    | Exceptions.Raise x =>
        Exceptions.Raise (Exceptions.Rapida
          (Exceptions.ConnectorClientFailureException
             (OperateStatements.failure_message x) "sts"))
    end
  /\ Sts.calls (Sts._operate self env request reply w).2
     = (Sts.calls w ++ [request])%list
  /\ Sts.credentials_store (Sts._operate self env request reply w).2
     = Sts.credentials_store w
  /\ (exists session,
        Sts.connection (Sts._operate self env request reply w).1.2 = Some session
        /\ (forall held, Sts.connection self = Some held -> session = held))
  /\ Sts._aws_config (Sts._operate self env request reply w).1.2
     = Sts._aws_config self.
Proof.
  unfold Sts._operate. cbn [fst snd].
  split; [|split; [reflexivity|split; [reflexivity|split]]].
  - destruct reply as [a|x]; [reflexivity|]. destruct x; reflexivity.
  - exists (CacheStatements.connected_session self env).
    split; [apply connect_session|].
    intros held Hheld. unfold CacheStatements.connected_session.
    rewrite Hheld. reflexivity.
  - unfold Sts.connect. destruct (Sts.connection self); reflexivity.
Qed.
